(** * Rollup compression (go/enclave/components, RollupCompression)

    A shallow embedding of the rollup compression engine: the builder
    ([CreateExtRollup], [createRollupHeader]) and the reconstructor
    ([ProcessExtRollup], [createIncompleteBatches],
    [executeAndSaveIncompleteBatches]), with the properties the
    specification states about them. *)

From Stdlib Require Import ZArith Lia String.
From Stdlib Require Strings.Byte.
From Stdlib Require Import Init.Byte.
From stdpp Require Import gmap list.

Local Open Scope Z_scope.

(** ** Errors

    Go functions return [(value, error)]; a run-time panic (index out of
    range, nil dereference) and [logger.Crit] (which ends the process) are
    results of their own. *)

Inductive error : Type :=
| ErrNotFound                 (* errutil.ErrNotFound *)
| ErrOther (msg : string)     (* any other error value *)
| ErrWrap (msg : string) (cause : error)   (* fmt.Errorf with %w *)
| ErrPanic (msg : string)     (* run-time panic *)
| ErrCrit (msg : string)      (* logger.Crit: the process exits *)
| ErrFuel.                    (* the model's recursion bound was reached *)

Inductive result (A : Type) : Type :=
| Ok (a : A)
| Err (e : error).
Arguments Ok {A} a.
Arguments Err {A} e.

Definition rbind {A B : Type} (r : result A) (k : A -> result B) : result B :=
  match r with
  | Ok a => k a
  | Err e => Err e
  end.

(** [errors.Is]: the error or one it wraps is the target. *)
Fixpoint errors_Is (err : error) (target : error) : bool :=
  match err, target with
  | ErrNotFound, ErrNotFound => true
  | ErrWrap _ cause, _ => errors_Is cause target
  | _, _ => false
  end.

Declare Scope result_scope.
Delimit Scope result_scope with result.
Notation "x <- r ;; k" := (rbind r (fun x => k))
  (at level 100, r at next level, right associativity) : result_scope.

(** ** Machine integers

    [uint64] and [int64] values are integers in their range; a conversion or
    an arithmetic result is reduced into the range of its type. *)

Definition u64 (z : Z) : Z := z mod 2 ^ 64.
Definition i64 (z : Z) : Z := (z + 2 ^ 63) mod 2 ^ 64 - 2 ^ 63.

Definition in_u64 (z : Z) : Prop := 0 <= z < 2 ^ 64.
Definition in_i64 (z : Z) : Prop := - 2 ^ 63 <= z < 2 ^ 63.

(** math/big: [Int.Int64] and [Int.Uint64] read the low 64 bits of the
    magnitude; [Int64] then applies the sign. [big.NewInt] is the identity on
    an [int64]. *)

Definition low64 (magnitude : Z) : Z := magnitude mod 2 ^ 64.

Definition big_Int64 (x : Z) : Z :=
  let v := i64 (low64 (Z.abs x)) in
  if x <? 0 then i64 (- v) else v.

Definition big_Uint64 (x : Z) : Z := low64 (Z.abs x).

Definition big_NewInt (v : Z) : Z := v.

(** ** Byte strings and math/big's Gob encoding

    [Int.GobEncode] writes one byte [version << 1 | sign] (version 1) and
    then the magnitude, big-endian, without leading zeros. [Int.GobDecode]
    reads an empty buffer as zero and refuses another version. *)

Abbreviation bytes := (list byte) (only parsing).

Definition byte_of_Z (z : Z) : byte :=
  match Byte.of_N (Z.to_N (z mod 256)) with
  | Some b => b
  | None => Byte.x00
  end.

Definition Z_of_byte (b : byte) : Z := Z.of_N (Byte.to_N b).

Fixpoint nat_bytes_aux (fuel : nat) (magnitude : Z) (acc : bytes) : bytes :=
  match fuel with
  | O => acc
  | S fuel' =>
      if magnitude <=? 0 then acc
      else nat_bytes_aux fuel' (magnitude / 256) (byte_of_Z magnitude :: acc)
  end.

(** big-endian bytes of a magnitude (math/big's [nat.bytes]) *)
Definition nat_bytes (magnitude : Z) : bytes :=
  nat_bytes_aux (S (Z.to_nat (Z.log2 magnitude))) magnitude [].

(** math/big's [nat.setBytes] *)
Definition nat_setBytes (buf : bytes) : Z :=
  fold_left (fun acc b => acc * 256 + Z_of_byte b) buf 0.

Definition intGobVersion : Z := 1.

Definition GobEncode (x : Z) : bytes :=
  let b := Z.shiftl intGobVersion 1 in
  let b := if x <? 0 then Z.lor b 1 else b in
  byte_of_Z b :: nat_bytes (Z.abs x).

Definition GobDecode (buf : bytes) : result Z :=
  match buf with
  | [] => Ok 0
  | b :: rest =>
      if negb (Z.shiftr (Z_of_byte b) 1 =? intGobVersion)
      then Err (ErrOther "Int.GobDecode: encoding version not supported")
      else
        let neg := negb (Z.land (Z_of_byte b) 1 =? 0) in
        let magnitude := nat_setBytes rest in
        Ok (if neg then - magnitude else magnitude)
  end.


(** ** Data model *)

(** Hashes (32 bytes) and addresses (20 bytes) are numbers of that width;
    a transaction and a receipt are their canonical bytes. *)
Abbreviation hash := Z (only parsing).
Abbreviation address := Z (only parsing).
Abbreviation L2Tx := (list byte) (only parsing).
Abbreviation Receipt := (list byte) (only parsing).
Abbreviation chain_config := Z (only parsing).

(** Indexing a slice: out of range is a run-time panic. *)
Definition index {A : Type} (l : list A) (i : nat) : result A :=
  match l !! i with
  | Some a => Ok a
  | None => Err (ErrPanic "index out of range")
  end.

(** [slices.Min]: panics on an empty slice. *)
Definition slices_Min (l : list Z) : result Z :=
  match l with
  | [] => Err (ErrPanic "slices.Min: empty list")
  | x :: rest => Ok (fold_left Z.min rest x)
  end.

(** An L1 block ([types.Block]): its number, hash and parent hash. *)
Module Block.
Record t : Type := mk { Number : Z; Hash : hash; ParentHash : hash }.
Definition NumberU64 (b : t) : Z := big_Uint64 (Number b).
End Block.

(** Modelled from the spec: the batch header ([common.BatchHeader]), whose
    declaration is not among the sources; the fields are those the engine
    reads and the spec's data model lists. *)
Module BatchHeader.
Record t : Type := mk {
  ParentHash : hash; TxHash : hash;
  Number : Z; SequencerOrderNo : Z; GasLimit : Z; Time : Z;
  L1Proof : hash; BaseFee : Z; Coinbase : address }.
End BatchHeader.

(** The hash of a batch header ([BatchHeader.Hash]). *)
Class Hasher : Type := header_Hash : BatchHeader.t -> Z.

(** [core.Batch] *)
Module Batch.
Record t : Type := mk { Header : BatchHeader.t; Transactions : list L2Tx }.
Definition SeqNo (b : t) : Z := BatchHeader.SequencerOrderNo (Header b).
Definition Number (b : t) : Z := BatchHeader.Number (Header b).
Definition Hash `{Hasher} (b : t) : Z := header_Hash (Header b).
End Batch.

(** The outer rollup header, of which the engine reads the L1 head. *)
Module RollupHeader.
Record t : Type := mk { CompressionL1Head : hash }.
End RollupHeader.

(** [core.Rollup]: the sequencer's batches and the L1 blocks they prove
    against, by hash. *)
Module Rollup.
Record t : Type := mk {
  Header : RollupHeader.t;
  Batches : list Batch.t;
  Blocks : gmap Z Block.t }.
End Rollup.

(** [common.CalldataRollupHeader]; a nil slice is the empty list. *)
Module CalldataRollupHeader.
Record t : Type := mk {
  FirstBatchSequence : Z;
  FirstCanonBatchHeight : Z;
  FirstCanonParentHash : hash;
  StartTime : Z;
  BatchTimeDeltas : list bytes;
  ReOrgs : list bytes;
  L1HeightDeltas : list bytes;
  Coinbase : address;
  BaseFee : Z;
  GasLimit : Z }.
End CalldataRollupHeader.

(** [common.ExtRollup] *)
Module ExtRollup.
Record t : Type := mk {
  Header : RollupHeader.t;
  BatchPayloads : bytes;
  CalldataRollupHeader : bytes }.
End ExtRollup.

(** temporary data structure to help build a batch from the information
    found in the rollup *)
Module batchFromRollup.
Record t : Type := mk {
  transactions : list L2Tx;
  seqNo : Z;
  height : Z;
  txHash : hash;
  time : Z;
  l1Proof : hash;
  coinbase : address;
  baseFee : Z;
  gasLimit : Z;
  header : option BatchHeader.t  (* for reorgs *) }.
End batchFromRollup.

(** ** Collaborators *)

(** [rlp.EncodeToBytes] and [rlp.DecodeBytes], at the type of the value. *)
Class RLP (A : Type) : Type := {
  rlp_EncodeToBytes : A -> result bytes;
  rlp_DecodeBytes : bytes -> result A }.

(** [types.EmptyRootHash] and [types.DeriveSha] over a stack trie. *)
Class Trie : Type := {
  EmptyRootHash : Z;
  DeriveSha : list L2Tx -> Z }.

(** [common.L2GenesisSeqNo] *)
Class Genesis : Type := L2GenesisSeqNo : Z.

Record DataEncryptionService : Type := {
  Encrypt : bytes -> result bytes;
  Decrypt : bytes -> result bytes }.

Record DataCompressionService : Type := {
  CompressRollup : bytes -> result bytes;
  Decompress : bytes -> result bytes }.

Module BatchExecutionContext.
Record t : Type := mk {
  BlockPtr : hash;
  ParentPtr : hash;
  Transactions : list L2Tx;
  AtTime : Z;
  Creator : address;
  ChainConfig : chain_config;
  SequencerNo : Z;
  BaseFee : Z }.
End BatchExecutionContext.

Module ComputedBatch.
Record t : Type := mk {
  Batch : Batch.t;
  Receipts : list Receipt;
  Commit : bool -> result Z }.
End ComputedBatch.

(** The batch executor, a function of its inputs. *)
Record BatchExecutor : Type := {
  ComputeBatch : BatchExecutionContext.t -> bool -> result ComputedBatch.t;
  CreateGenesisState : hash -> Z -> address -> Z -> result Batch.t }.

(** The engine and the services it holds; its storage and batch registry
    are the state of the node below. *)
Record RollupCompression : Type := {
  dataEncryptionService : DataEncryptionService;
  dataCompressionService : DataCompressionService;
  batchExecutor : BatchExecutor;
  chainConfig : chain_config }.

(** ** The node: storage and the record of collaborator calls *)

(** Modelled from the spec: the storage ([storage.Storage]), whose
    implementation is not among the sources, is "a key-value map over
    hashes and sequence numbers": L1 blocks by hash, batches by header hash
    and by sequence number, the receipts of executed batches by batch hash,
    and the batches it holds as non-canonical. *)
Module Storage.
Record t : Type := mk {
  blocks : gmap Z Block.t;
  batches : gmap Z Batch.t;
  batchesBySeq : gmap Z Batch.t;
  executed : gmap Z (list Receipt);
  nonCanonical : list Batch.t }.
End Storage.

Definition FetchBlock (s : Storage.t) (h : hash) : result Block.t :=
  match Storage.blocks s !! h with
  | Some b => Ok b
  | None => Err ErrNotFound
  end.

Definition FetchBatch (s : Storage.t) (h : hash) : result Batch.t :=
  match Storage.batches s !! h with
  | Some b => Ok b
  | None => Err ErrNotFound
  end.

Definition FetchBatchBySeqNo (s : Storage.t) (seq : Z) : result Batch.t :=
  match Storage.batchesBySeq s !! seq with
  | Some b => Ok b
  | None => Err ErrNotFound
  end.

Definition FetchNonCanonicalBatchesBetween (s : Storage.t) (startSeq endSeq : Z)
  : result (list Batch.t) :=
  Ok (filter (fun b => startSeq <= big_Uint64 (Batch.SeqNo b) <= endSeq)
        (Storage.nonCanonical s)).

(** What the engine asks of its collaborators beyond reading: the writes to
    the storage, the calls of the executor and the notifications of the batch
    registry, in order. *)
Inductive Event : Type :=
| EvStoreBatch (b : Batch.t)
| EvStoreExecutedBatch (b : Batch.t) (receipts : list Receipt)
| EvOnBatchExecuted (b : Batch.t)
| EvCreateGenesisState (l1Proof : hash) (time : Z) (coinbase : address) (baseFee : Z)
| EvComputeBatch (ctx : BatchExecutionContext.t)
| EvCommit (b : Batch.t).

Module Node.
Record t : Type := mk { storage : Storage.t; events : list Event }.
End Node.

(** A computation on the node: it returns a value or an error, and the node
    as it has left it (what was written before an error stays written). *)
Definition M (A : Type) : Type := Node.t -> result A * Node.t.

Definition ret {A : Type} (a : A) : M A := fun n => (Ok a, n).

Definition fail {A : Type} (e : error) : M A := fun n => (Err e, n).

Definition bind {A B : Type} (m : M A) (k : A -> M B) : M B :=
  fun n =>
    match m n with
    | (Ok a, n') => k a n'
    | (Err e, n') => (Err e, n')
    end.

Definition lift {A : Type} (r : result A) : M A := fun n => (r, n).

Definition emit (ev : Event) : M unit :=
  fun n => (Ok tt, Node.mk (Node.storage n) (Node.events n ++ [ev])).

Definition read {A : Type} (f : Storage.t -> result A) : M A :=
  fun n => (f (Node.storage n), n).

Definition write (f : Storage.t -> Storage.t) : M unit :=
  fun n => (Ok tt, Node.mk (f (Node.storage n)) (Node.events n)).

Declare Scope node_scope.
Delimit Scope node_scope with node.
Notation "x <~ m ;; k" := (bind m (fun x => k))
  (at level 100, m at next level, right associativity) : node_scope.
Notation "m ;;; k" := (bind m (fun _ => k))
  (at level 100, right associativity) : node_scope.

Section Engine.

Context `{Hasher} `{Genesis} `{Trie}.
Context `{RLP BatchHeader.t} `{RLP CalldataRollupHeader.t} `{RLP (list (list L2Tx))}.

Definition store_batch (b : Batch.t) (s : Storage.t) : Storage.t :=
  Storage.mk (Storage.blocks s)
    (<[Batch.Hash b := b]> (Storage.batches s))
    (<[big_Uint64 (Batch.SeqNo b) := b]> (Storage.batchesBySeq s))
    (Storage.executed s)
    (Storage.nonCanonical s).

Definition store_executed (b : Batch.t) (receipts : list Receipt) (s : Storage.t)
  : Storage.t :=
  Storage.mk (Storage.blocks s) (Storage.batches s) (Storage.batchesBySeq s)
    (<[Batch.Hash b := receipts]> (Storage.executed s))
    (Storage.nonCanonical s).

Definition StoreBatch (b : Batch.t) : M unit :=
  (emit (EvStoreBatch b) ;;; write (store_batch b))%node.

Definition StoreExecutedBatch (b : Batch.t) (receipts : list Receipt) : M unit :=
  (emit (EvStoreExecutedBatch b receipts) ;;; write (store_executed b receipts))%node.

Definition OnBatchExecuted (b : Batch.t) : M unit := emit (EvOnBatchExecuted b).

(** ** The envelope *)

Definition serialiseCompressAndEncrypt {A : Type} `{RLP A}
  (rc : RollupCompression) (obj : A) : result bytes :=
  (serialised <- rlp_EncodeToBytes obj ;;
   compressed <- CompressRollup (dataCompressionService rc) serialised ;;
   encrypted <- Encrypt (dataEncryptionService rc) compressed ;;
   Ok encrypted)%result.

Definition decryptDecompressAndDeserialise {A : Type} `{RLP A}
  (rc : RollupCompression) (blob : bytes) : result A :=
  (plaintextBlob <- Decrypt (dataEncryptionService rc) blob ;;
   serialisedBlob <- Decompress (dataCompressionService rc) plaintextBlob ;;
   obj <- rlp_DecodeBytes serialisedBlob ;;
   Ok obj)%result.

(** ** The builder *)

Fixpoint transformToByteArray (reorgs : list (option BatchHeader.t))
  : result (list bytes) :=
  match reorgs with
  | [] => Ok []
  | Some reorg :: rest =>
      (enc <- rlp_EncodeToBytes reorg ;;
       reorgsBA <- transformToByteArray rest ;;
       Ok (enc :: reorgsBA))%result
  | None :: rest =>
      (reorgsBA <- transformToByteArray rest ;;
       Ok ([] :: reorgsBA))%result
  end.

(** The loop of [createRollupHeader] over the batches, from position [i]:
    the reorg entries, the time deltas and the L1 height deltas. [prev] is
    the previous batch's time, [prevL1Height] the previous proof's height
    (nil before the first batch). *)
Fixpoint compressBatches (Blocks : gmap Z Block.t) (reorgMap : gset Z)
  (i : nat) (prev : Z) (prevL1Height : option Z) (batches : list Batch.t)
  : result (list (option BatchHeader.t) * list Z * list Z) :=
  match batches with
  | [] => Ok ([], [], [])
  | batch :: rest =>
      let reorg :=
        if decide (big_Uint64 (Batch.SeqNo batch) ∈ reorgMap)
        then Some (Batch.Header batch) else None in
      let deltaTime :=
        big_NewInt (i64 (u64 (BatchHeader.Time (Batch.Header batch) - prev))) in
      let prev := BatchHeader.Time (Batch.Header batch) in
      (block <- match Blocks !! BatchHeader.L1Proof (Batch.Header batch) with
                | Some block => Ok block
                | None => Err (ErrPanic "nil pointer dereference")
                end ;;
       l1HeightDelta <-
         (if Nat.eqb i 0 then Ok (Block.Number block)
          else match prevL1Height with
               | Some p =>
                   Ok (big_NewInt (i64 (big_Int64 (Block.Number block) - big_Int64 p)))
               | None => Err (ErrPanic "nil pointer dereference")
               end) ;;
       tail <-
         compressBatches Blocks reorgMap (S i) prev (Some (Block.Number block)) rest ;;
       let '(reorgs, deltaTimes, l1HeightDeltas) := tail in
       Ok (reorg :: reorgs, deltaTime :: deltaTimes, l1HeightDelta :: l1HeightDeltas))%result
  end.

(** The first canonical batch (no entry in the reorgs array for it): its
    height and parent hash; batch 0's when every batch is a reorg. *)
Fixpoint firstCanon (reorgs : list (option BatchHeader.t)) (batches : list Batch.t)
  (default : Z * Z) : Z * Z :=
  match reorgs, batches with
  | None :: _, batch :: _ =>
      (Batch.Number batch, BatchHeader.ParentHash (Batch.Header batch))
  | Some _ :: reorgs', _ :: batches' => firstCanon reorgs' batches' default
  | _, _ => default
  end.

(** the main logic that goes from a list of batches to the rollup header *)
Definition createRollupHeader (s : Storage.t) (rollup : Rollup.t)
  : result CalldataRollupHeader.t :=
  let batches := Rollup.Batches rollup in
  (first <- index batches 0 ;;
   let startTime := BatchHeader.Time (Batch.Header first) in
   last <- index batches (length batches - 1) ;;
   reorgedBatches <- FetchNonCanonicalBatchesBetween s
                       (big_Uint64 (Batch.SeqNo first)) (big_Uint64 (Batch.SeqNo last)) ;;
   let reorgMap : gset Z :=
     list_to_set (map (fun b => big_Uint64 (Batch.SeqNo b)) reorgedBatches) in
   compressed <-
     compressBatches (Rollup.Blocks rollup) reorgMap 0 startTime None batches ;;
   let '(reorgs, deltaTimes, l1HeightDeltas) := compressed in
   let l1DeltasBA := map GobEncode l1HeightDeltas in
   let timeDeltasBA := map GobEncode deltaTimes in
   reorgsBA <- transformToByteArray reorgs ;;
   (* optimisation in case there is no reorg header *)
   let reorgsBA := if Nat.eqb (length reorgedBatches) 0 then [] else reorgsBA in
   let '(firstCanonBatchHeight, firstCanonParentHash) :=
     firstCanon reorgs batches
       (Batch.Number first, BatchHeader.ParentHash (Batch.Header first)) in
   Ok {| CalldataRollupHeader.FirstBatchSequence := Batch.SeqNo first;
         CalldataRollupHeader.FirstCanonBatchHeight := firstCanonBatchHeight;
         CalldataRollupHeader.FirstCanonParentHash := firstCanonParentHash;
         CalldataRollupHeader.StartTime := startTime;
         CalldataRollupHeader.BatchTimeDeltas := timeDeltasBA;
         CalldataRollupHeader.ReOrgs := reorgsBA;
         CalldataRollupHeader.L1HeightDeltas := l1DeltasBA;
         CalldataRollupHeader.Coinbase := BatchHeader.Coinbase (Batch.Header first);
         CalldataRollupHeader.BaseFee := BatchHeader.BaseFee (Batch.Header first);
         CalldataRollupHeader.GasLimit := BatchHeader.GasLimit (Batch.Header first) |})%result.

(** CreateExtRollup - creates a compressed and encrypted External rollup
    from the internal data structure *)
Definition CreateExtRollup (rc : RollupCompression) (s : Storage.t) (r : Rollup.t)
  : result ExtRollup.t :=
  (header <- createRollupHeader s r ;;
   encryptedHeader <- serialiseCompressAndEncrypt rc header ;;
   let transactions := map Batch.Transactions (Rollup.Batches r) in
   encryptedTransactions <- serialiseCompressAndEncrypt rc transactions ;;
   Ok {| ExtRollup.Header := Rollup.Header r;
         ExtRollup.BatchPayloads := encryptedTransactions;
         ExtRollup.CalldataRollupHeader := encryptedHeader |})%result.

(** ** The reconstructor *)

(** The loop of [calculateL1HeightsFromDeltas] from position
    [currentBatchIdx]: the heights after the first. *)
Fixpoint l1HeightsFrom (deltas : list bytes) (currentBatchIdx : nat) (prevHeight : Z)
  (transactionsPerBatch : list (list L2Tx)) : result (list Z) :=
  match transactionsPerBatch with
  | [] => Ok []
  | _ :: rest =>
      if Nat.ltb 0 currentBatchIdx then
        (enc <- index deltas currentBatchIdx ;;
         l1Delta <- GobDecode enc ;;
         let value := i64 (big_Int64 l1Delta + i64 prevHeight) in
         if value <? 0 then Err (ErrCrit "Should not have a negative height")
         else
           l1Heights <- l1HeightsFrom deltas (S currentBatchIdx) (u64 value) rest ;;
           Ok (u64 value :: l1Heights))%result
      else l1HeightsFrom deltas (S currentBatchIdx) prevHeight rest
  end.

Definition calculateL1HeightsFromDeltas (calldataRollupHeader : CalldataRollupHeader.t)
  (transactionsPerBatch : list (list L2Tx)) : result (list Z) :=
  let deltas := CalldataRollupHeader.L1HeightDeltas calldataRollupHeader in
  (* the first element in the deltas is the actual height *)
  (enc <- index deltas 0 ;;
   referenceHeight <- GobDecode enc ;;
   let prevHeight := big_Uint64 referenceHeight in
   l1Heights <- l1HeightsFrom deltas 0 prevHeight transactionsPerBatch ;;
   Ok (prevHeight :: l1Heights))%result.

(** The walk from [toBlock] down its parents to the height [fromHeight];
    [path] collects the blocks met, by height. The recursion of the source is
    bounded by [fuel]. *)
Fixpoint calcL1AncestorsOfHeight (fuel : nat) (s : Storage.t) (fromHeight : Z)
  (toBlock : Block.t) (path : gmap Z Block.t) : result (gmap Z Block.t) :=
  match fuel with
  | O => Err ErrFuel
  | S fuel' =>
      let path := <[Block.NumberU64 toBlock := toBlock]> path in
      if Block.NumberU64 toBlock =? big_Uint64 fromHeight then Ok path
      else
        (p <- FetchBlock s (Block.ParentHash toBlock) ;;
         calcL1AncestorsOfHeight fuel' s fromHeight p path)%result
  end.

(** The reorg entry of a batch: the carried header, when the rollup has a
    reorgs array and the batch's entry in it is not empty. *)
Definition reorgedHeader (ReOrgs : list bytes) (currentBatchIdx : nat)
  : result (option BatchHeader.t) :=
  if Nat.ltb 0 (length ReOrgs) then
    (encHeader <- index ReOrgs currentBatchIdx ;;
     if Nat.ltb 0 (length encHeader) then
       (fullReorgedHeader <- rlp_DecodeBytes encHeader ;;
        Ok (Some fullReorgedHeader))
     else Ok None)%result
  else Ok None.

(** The loop of [createIncompleteBatches] from position [currentBatchIdx]. *)
Fixpoint incompleteBatchesFrom (calldataRollupHeader : CalldataRollupHeader.t)
  (l1Heights : list Z) (l1BlocksAtHeight : gmap Z Block.t) (startAtSeq : Z)
  (currentBatchIdx : nat) (currentHeight currentTime : Z)
  (transactionsPerBatch : list (list L2Tx)) : result (list batchFromRollup.t) :=
  match transactionsPerBatch with
  | [] => Ok []
  | batchTransactions :: rest =>
      (l1Height <- index l1Heights currentBatchIdx ;;
       block <- match l1BlocksAtHeight !! l1Height with
                | Some block => Ok block
                | None => Err (ErrOther "programming error. L1 block not retrieved")
                end ;;
       enc <- index (CalldataRollupHeader.BatchTimeDeltas calldataRollupHeader)
                currentBatchIdx ;;
       timeDelta <- GobDecode enc ;;
       let currentTime := i64 (currentTime + big_Int64 timeDelta) in
       (* the transactions stored in a valid rollup belong to sequential batches *)
       let currentSeqNo := big_NewInt (i64 (startAtSeq + Z.of_nat currentBatchIdx)) in
       fullReorgedHeader <-
         reorgedHeader (CalldataRollupHeader.ReOrgs calldataRollupHeader) currentBatchIdx ;;
       let isCanonical :=
         match fullReorgedHeader with Some _ => false | None => true end in
       (* only if the batch is canonical, increment the height *)
       let currentHeight :=
         if isCanonical then i64 (currentHeight + 1) else currentHeight in
       (* calculate the hash of the txs *)
       let txHash :=
         if Nat.eqb (length batchTransactions) 0 then EmptyRootHash
         else DeriveSha batchTransactions in
       incompleteBatches <-
         incompleteBatchesFrom calldataRollupHeader l1Heights l1BlocksAtHeight
           startAtSeq (S currentBatchIdx) currentHeight currentTime rest ;;
       Ok ({| batchFromRollup.transactions := batchTransactions;
              batchFromRollup.seqNo := currentSeqNo;
              batchFromRollup.height := big_NewInt currentHeight;
              batchFromRollup.txHash := txHash;
              batchFromRollup.time := u64 currentTime;
              batchFromRollup.l1Proof := Block.Hash block;
              batchFromRollup.header := fullReorgedHeader;
              batchFromRollup.coinbase := CalldataRollupHeader.Coinbase calldataRollupHeader;
              batchFromRollup.baseFee := CalldataRollupHeader.BaseFee calldataRollupHeader;
              batchFromRollup.gasLimit := CalldataRollupHeader.GasLimit calldataRollupHeader |}
             :: incompleteBatches))%result
  end.

(** the main logic to recreate the batches from the header. The logical pair
    of: [createRollupHeader] *)
Definition createIncompleteBatches (fuel : nat) (s : Storage.t)
  (calldataRollupHeader : CalldataRollupHeader.t)
  (transactionsPerBatch : list (list L2Tx)) (compressionL1Head : hash)
  : result (list batchFromRollup.t) :=
  let startAtSeq := big_Int64 (CalldataRollupHeader.FirstBatchSequence calldataRollupHeader) in
  let currentHeight :=
    i64 (big_Int64 (CalldataRollupHeader.FirstCanonBatchHeight calldataRollupHeader) - 1) in
  let currentTime := i64 (CalldataRollupHeader.StartTime calldataRollupHeader) in
  (rollupL1Block <-
     match FetchBlock s compressionL1Head with
     | Ok b => Ok b
     | Err err => Err (ErrWrap "can't find the block used for compression" err)
     end ;;
   l1Heights <- calculateL1HeightsFromDeltas calldataRollupHeader transactionsPerBatch ;;
   (* a cache of the l1 blocks used by the current rollup, indexed by their height *)
   minHeight <- slices_Min l1Heights ;;
   l1BlocksAtHeight <-
     calcL1AncestorsOfHeight fuel s (big_NewInt (i64 minHeight)) rollupL1Block ∅ ;;
   incompleteBatchesFrom calldataRollupHeader l1Heights l1BlocksAtHeight
     startAtSeq 0 currentHeight currentTime transactionsPerBatch)%result.

Definition computeBatch (rc : RollupCompression) (BlockPtr ParentPtr : hash)
  (Transactions : list L2Tx) (AtTime : Z) (SequencerNo : Z) (Coinbase : address)
  (BaseFee : Z) : M ComputedBatch.t :=
  let ctx :=
    {| BatchExecutionContext.BlockPtr := BlockPtr;
       BatchExecutionContext.ParentPtr := ParentPtr;
       BatchExecutionContext.Transactions := Transactions;
       BatchExecutionContext.AtTime := AtTime;
       BatchExecutionContext.Creator := Coinbase;
       BatchExecutionContext.ChainConfig := chainConfig rc;
       BatchExecutionContext.SequencerNo := SequencerNo;
       BatchExecutionContext.BaseFee := BaseFee |} in
  (emit (EvComputeBatch ctx) ;;;
   lift (ComputeBatch (batchExecutor rc) ctx false))%node.

(** One iteration of the loop of [executeAndSaveIncompleteBatches]: the
    batch is skipped, stored as a reorg, created as genesis or computed; the
    result is the parent hash for the next iteration. *)
Definition executeAndSaveBatch (rc : RollupCompression)
  (calldataRollupHeader : CalldataRollupHeader.t) (parentHash : hash)
  (incompleteBatch : batchFromRollup.t) : M Z :=
  (* check whether the batch is already stored in the database *)
  (found <~ read (fun s => Ok (FetchBatchBySeqNo s
                                 (big_Uint64 (batchFromRollup.seqNo incompleteBatch)))) ;;
   match found with
   | Ok b =>
       (* chain to a parent only if the batch is not a reorg *)
       match batchFromRollup.header incompleteBatch with
       | None => ret (Batch.Hash b)
       | Some _ => ret parentHash
       end
   | Err err =>
       if negb (errors_Is err ErrNotFound) then fail err
       else
         match batchFromRollup.header incompleteBatch with
         | Some header =>
             (* this batch was re-orged *)
             StoreBatch {| Batch.Header := header;
                           Batch.Transactions :=
                             batchFromRollup.transactions incompleteBatch |} ;;;
             ret parentHash
         | None =>
             if big_Uint64 (batchFromRollup.seqNo incompleteBatch) =? L2GenesisSeqNo
             then
               (* handle genesis *)
               emit (EvCreateGenesisState
                       (batchFromRollup.l1Proof incompleteBatch)
                       (batchFromRollup.time incompleteBatch)
                       (CalldataRollupHeader.Coinbase calldataRollupHeader)
                       (CalldataRollupHeader.BaseFee calldataRollupHeader)) ;;;
               genBatch <~ lift (CreateGenesisState (batchExecutor rc)
                             (batchFromRollup.l1Proof incompleteBatch)
                             (batchFromRollup.time incompleteBatch)
                             (CalldataRollupHeader.Coinbase calldataRollupHeader)
                             (CalldataRollupHeader.BaseFee calldataRollupHeader)) ;;
               StoreBatch genBatch ;;;
               StoreExecutedBatch genBatch [] ;;;
               OnBatchExecuted genBatch ;;;
               ret (Batch.Hash genBatch)
             else
               (* transforms the incompleteBatch into a BatchHeader by executing
                  the transactions and then the info can be used to fill in the
                  parent *)
               computedBatch <~ computeBatch rc
                                  (batchFromRollup.l1Proof incompleteBatch)
                                  parentHash
                                  (batchFromRollup.transactions incompleteBatch)
                                  (batchFromRollup.time incompleteBatch)
                                  (batchFromRollup.seqNo incompleteBatch)
                                  (batchFromRollup.coinbase incompleteBatch)
                                  (batchFromRollup.baseFee incompleteBatch) ;;
               emit (EvCommit (ComputedBatch.Batch computedBatch)) ;;;
               match ComputedBatch.Commit computedBatch true with
               | Err err =>
                   fail (ErrWrap "cannot commit stateDB for incoming valid batch" err)
               | Ok _ =>
                   StoreBatch (ComputedBatch.Batch computedBatch) ;;;
                   StoreExecutedBatch (ComputedBatch.Batch computedBatch)
                     (ComputedBatch.Receipts computedBatch) ;;;
                   OnBatchExecuted (ComputedBatch.Batch computedBatch) ;;;
                   ret (Batch.Hash (ComputedBatch.Batch computedBatch))
               end
         end
   end)%node.

(** The loop of [executeAndSaveIncompleteBatches], in the order of the
    slice; the result is the parent hash after the last batch. *)
Fixpoint executeAndSaveFrom (rc : RollupCompression)
  (calldataRollupHeader : CalldataRollupHeader.t) (parentHash : hash)
  (incompleteBatches : list batchFromRollup.t) : M Z :=
  match incompleteBatches with
  | [] => ret parentHash
  | incompleteBatch :: rest =>
      (parentHash <~ executeAndSaveBatch rc calldataRollupHeader parentHash
                       incompleteBatch ;;
       executeAndSaveFrom rc calldataRollupHeader parentHash rest)%node
  end.

Definition executeAndSaveIncompleteBatches (rc : RollupCompression)
  (calldataRollupHeader : CalldataRollupHeader.t)
  (incompleteBatches : list batchFromRollup.t) : M unit :=
  let parentHash := CalldataRollupHeader.FirstCanonParentHash calldataRollupHeader in
  ((if negb (big_Uint64 (CalldataRollupHeader.FirstBatchSequence calldataRollupHeader)
              =? L2GenesisSeqNo)
    then
      found <~ read (fun s => Ok (FetchBatch s parentHash)) ;;
      match found with
      | Err err => fail err
      | Ok _ => ret tt
      end
    else ret tt) ;;;
   executeAndSaveFrom rc calldataRollupHeader parentHash incompleteBatches ;;;
   ret tt)%node.

(** ProcessExtRollup - given an External rollup, responsible with checking
    and saving all batches found inside *)
Definition ProcessExtRollup (fuel : nat) (rc : RollupCompression) (rollup : ExtRollup.t)
  : M CalldataRollupHeader.t :=
  (transactionsPerBatch <~
     lift (decryptDecompressAndDeserialise (A := list (list L2Tx)) rc
             (ExtRollup.BatchPayloads rollup)) ;;
   calldataRollupHeader <~
     lift (decryptDecompressAndDeserialise (A := CalldataRollupHeader.t) rc
             (ExtRollup.CalldataRollupHeader rollup)) ;;
   (* 1. calculate fields like: sequence, height, time, l1Proof, from the
      implicit and explicit information from the metadata *)
   incompleteBatches <~
     read (fun s => createIncompleteBatches fuel s calldataRollupHeader
                      transactionsPerBatch
                      (RollupHeader.CompressionL1Head (ExtRollup.Header rollup))) ;;
   (* 2. execute each batch to be able to calculate the hash which is
      necessary for the next batch as it is the parent. *)
   executeAndSaveIncompleteBatches rc calldataRollupHeader incompleteBatches ;;;
   ret calldataRollupHeader)%node.

End Engine.

(** ** Notions the properties are stated with *)

(** A batch of the reconstruction is canonical when it carries no header. *)
Definition isCanonical (b : batchFromRollup.t) : bool :=
  match batchFromRollup.header b with
  | Some _ => false
  | None => true
  end.

Definition canonicalCount (bs : list batchFromRollup.t) : Z :=
  Z.of_nat (length (filter (fun b => isCanonical b = true) bs)).

Definition sumZ (l : list Z) : Z := fold_right Z.add 0 l.


(** Every element through a function that may fail, in order. *)
Fixpoint traverse {A B : Type} (f : A -> result B) (l : list A) : result (list B) :=
  match l with
  | [] => Ok []
  | a :: rest => (b <- f a ;; bs <- traverse f rest ;; Ok (b :: bs))%result
  end.

(** The deltas of the builder, as lists: each time against the one before
    it, computed in [uint64] and read as an [int64]; each L1 height against
    the one before it, both read as [int64]; the first height as it is. *)
Fixpoint timeDeltas (prev : Z) (times : list Z) : list Z :=
  match times with
  | [] => []
  | t :: rest => i64 (u64 (t - prev)) :: timeDeltas t rest
  end.

Fixpoint heightDeltas (prev : Z) (heights : list Z) : list Z :=
  match heights with
  | [] => []
  | n :: rest => i64 (big_Int64 n - big_Int64 prev) :: heightDeltas n rest
  end.

Definition l1HeightDeltasOf (heights : list Z) : list Z :=
  match heights with
  | [] => []
  | n :: rest => n :: heightDeltas n rest
  end.

(** The batch is non-canonical for the builder: the storage has returned a
    batch with its sequence number. *)
Definition nonCanonicalIn (reorgedBatches : list Batch.t) (b : Batch.t) : Prop :=
  exists r, r ∈ reorgedBatches /\
            big_Uint64 (Batch.SeqNo r) = big_Uint64 (Batch.SeqNo b).

Definition reorgMapOf (reorgedBatches : list Batch.t) : gset Z :=
  list_to_set (map (fun b => big_Uint64 (Batch.SeqNo b)) reorgedBatches).

Definition reorgEntry (reorgMap : gset Z) (b : Batch.t) : option BatchHeader.t :=
  if decide (big_Uint64 (Batch.SeqNo b) ∈ reorgMap)
  then Some (Batch.Header b) else None.

(** The L1 proof of each batch is the hash of a known block. *)
Definition proofBlocks (Blocks : gmap Z Block.t) (batches : list Batch.t)
  (blocks : list Block.t) : Prop :=
  Forall2 (fun b block =>
             Blocks !! BatchHeader.L1Proof (Batch.Header b) = Some block)
    batches blocks.

(** [ancestor s b a]: [a] is reached from [b] by following parent hashes
    through the blocks of the storage. *)
Inductive ancestor (s : Storage.t) : Block.t -> Block.t -> Prop :=
| ancestor_self (b : Block.t) : ancestor s b b
| ancestor_parent (b p a : Block.t) :
    FetchBlock s (Block.ParentHash b) = Ok p ->
    ancestor s p a ->
    ancestor s b a.

(** The block is one of the storage. *)
Definition stored (s : Storage.t) (b : Block.t) : Prop :=
  exists k, Storage.blocks s !! k = Some b.

(** The stored L1 blocks form a chain: a stored parent is one below its
    child. *)
Definition linked (s : Storage.t) : Prop :=
  forall k b p,
    Storage.blocks s !! k = Some b ->
    Storage.blocks s !! Block.ParentHash b = Some p ->
    Block.NumberU64 p + 1 = Block.NumberU64 b.

(** The same, as a check over the stored blocks. *)
Definition linkedb (s : Storage.t) : bool :=
  forallb (fun kb : Z * Block.t =>
             match Storage.blocks s !! Block.ParentHash (snd kb) with
             | Some p => Block.NumberU64 p + 1 =? Block.NumberU64 (snd kb)
             | None => true
             end)
    (map_to_list (Storage.blocks s)).

Section NodeNotions.

Context `{Hasher}.

(** The node after events of which the last ones are [evs], its storage
    being [s]. *)
Definition node_after (n : Node.t) (s : Storage.t) (evs : list Event) : Node.t :=
  Node.mk s (Node.events n ++ evs).

(** The batches stored by the events, in order. *)
Definition storedBatches (evs : list Event) : list Batch.t :=
  omap (fun ev => match ev with EvStoreBatch b => Some b | _ => None end) evs.

(** The context in which the engine has a batch computed. *)
Definition contextOf (rc : RollupCompression) (parentHash : Z)
  (incompleteBatch : batchFromRollup.t) : BatchExecutionContext.t :=
  {| BatchExecutionContext.BlockPtr := batchFromRollup.l1Proof incompleteBatch;
     BatchExecutionContext.ParentPtr := parentHash;
     BatchExecutionContext.Transactions := batchFromRollup.transactions incompleteBatch;
     BatchExecutionContext.AtTime := batchFromRollup.time incompleteBatch;
     BatchExecutionContext.Creator := batchFromRollup.coinbase incompleteBatch;
     BatchExecutionContext.ChainConfig := chainConfig rc;
     BatchExecutionContext.SequencerNo := batchFromRollup.seqNo incompleteBatch;
     BatchExecutionContext.BaseFee := batchFromRollup.baseFee incompleteBatch |}.

(** What a batch carrying a reorg header adds to a node: nothing when a
    batch with its sequence number is stored already, the batch with the
    carried header otherwise. *)
Definition storeReorg (n : Node.t) (r : batchFromRollup.t) : Node.t :=
  match FetchBatchBySeqNo (Node.storage n) (big_Uint64 (batchFromRollup.seqNo r)),
        batchFromRollup.header r with
  | Err _, Some header =>
      let b := Batch.mk header (batchFromRollup.transactions r) in
      node_after n (store_batch b (Node.storage n)) [EvStoreBatch b]
  | _, _ => n
  end.

Definition storeReorgs (n : Node.t) (reorgs : list batchFromRollup.t) : Node.t :=
  fold_left storeReorg reorgs n.

(** The storage after a batch was stored as executed. *)
Definition store_executed_batch (b : Batch.t) (receipts : list Receipt)
  (s : Storage.t) : Storage.t :=
  store_executed b receipts (store_batch b s).

End NodeNotions.

(** The executor returns batches with the sequence number it was asked
    for, and a genesis batch has the genesis sequence number. *)
Definition executorKeepsSeqNo `{Genesis} (rc : RollupCompression) : Prop :=
  (forall ctx computedBatch,
     ComputeBatch (batchExecutor rc) ctx false = Ok computedBatch ->
     big_Uint64 (Batch.SeqNo (ComputedBatch.Batch computedBatch))
     = big_Uint64 (BatchExecutionContext.SequencerNo ctx)) /\
  (forall l1Proof time coinbase baseFee genBatch,
     CreateGenesisState (batchExecutor rc) l1Proof time coinbase baseFee = Ok genBatch ->
     big_Uint64 (Batch.SeqNo genBatch) = L2GenesisSeqNo).

(** A carried reorg header has the sequence number of its position in the
    rollup. *)
Definition reorgInPlace (ib : batchFromRollup.t) : Prop :=
  forall header,
    batchFromRollup.header ib = Some header ->
    big_Uint64 (BatchHeader.SequencerOrderNo header)
    = big_Uint64 (batchFromRollup.seqNo ib).

(** What the storage knows, it still knows after a batch is stored. *)
Definition grows (s s' : Storage.t) : Prop :=
  Storage.blocks s' = Storage.blocks s /\
  (forall seq, is_Some (Storage.batchesBySeq s !! seq) ->
               is_Some (Storage.batchesBySeq s' !! seq)) /\
  (forall h, is_Some (Storage.batches s !! h) -> is_Some (Storage.batches s' !! h)).


(** *** The round trip *)

Section RoundTripNotions.

Context `{Hasher} `{Genesis} `{RLP BatchHeader.t}.

(** The batches have the sequence numbers [seq], [seq + 1], ... *)
Fixpoint contiguousFrom (seq : Z) (batches : list Batch.t) : Prop :=
  match batches with
  | [] => True
  | b :: rest => Batch.SeqNo b = seq /\ contiguousFrom (seq + 1) rest
  end.



(** The header of the batch goes through the codec, and its encoding is
    not empty. *)
Definition headerRoundTrips (b : Batch.t) : Prop :=
  exists enc,
    rlp_EncodeToBytes (Batch.Header b) = Ok enc /\
    enc <> [] /\
    rlp_DecodeBytes enc = Ok (Batch.Header b).


End RoundTripNotions.
(** ** Further notions *)

(** The compression and the encryption services undo what they have done. *)
Definition servicesInvert (rc : RollupCompression) : Prop :=
  (forall buf compressed,
     CompressRollup (dataCompressionService rc) buf = Ok compressed ->
     Decompress (dataCompressionService rc) compressed = Ok buf) /\
  (forall buf encrypted,
     Encrypt (dataEncryptionService rc) buf = Ok encrypted ->
     Decrypt (dataEncryptionService rc) encrypted = Ok buf).

(** The value goes through the codec. *)
Definition decodesBack {A : Type} `{RLP A} (obj : A) : Prop :=
  forall enc, rlp_EncodeToBytes obj = Ok enc -> rlp_DecodeBytes enc = Ok obj.

(** A call of the executor. *)
Definition isExecution (ev : Event) : bool :=
  match ev with
  | EvComputeBatch _ | EvCreateGenesisState _ _ _ _ => true
  | _ => false
  end.

Definition executions (evs : list Event) : Z :=
  Z.of_nat (length (filter (fun ev => isExecution ev = true) evs)).

(** Two reconstructed batches that differ at most in their height, the hash
    of their transactions and their gas limit. *)
Definition sameForExecution (ib ib' : batchFromRollup.t) : Prop :=
  batchFromRollup.transactions ib = batchFromRollup.transactions ib' /\
  batchFromRollup.seqNo ib = batchFromRollup.seqNo ib' /\
  batchFromRollup.time ib = batchFromRollup.time ib' /\
  batchFromRollup.l1Proof ib = batchFromRollup.l1Proof ib' /\
  batchFromRollup.coinbase ib = batchFromRollup.coinbase ib' /\
  batchFromRollup.baseFee ib = batchFromRollup.baseFee ib' /\
  batchFromRollup.header ib = batchFromRollup.header ib'.

(** The sequence numbers for which the executor was asked to compute a
    batch, each with the parent hash it was given. *)
Definition computedWith (n : Node.t) : list (Z * Z) :=
  omap (fun ev => match ev with
                  | EvComputeBatch ctx =>
                      Some (BatchExecutionContext.SequencerNo ctx,
                            BatchExecutionContext.ParentPtr ctx)
                  | _ => None
                  end) (Node.events n).

(** The sequence numbers under which the loop looks the batches up and
    stores them, in the order of the rollup. *)
Definition lookupKeys (ibs : list batchFromRollup.t) : list Z :=
  (fun ib => big_Uint64 (batchFromRollup.seqNo ib)) <$> ibs.

Section CallNotions.

Context `{Hasher} `{Genesis}.

(** One iteration of the loop that returns, for the batch [ib] with the
    parent hash [parentHash] on the node [n]: the parent hash [parentHash']
    that it leaves and the node [n'] after it. A batch whose sequence number
    is stored is skipped: the node is as it was, and the parent hash is the
    hash of the stored batch for a canonical batch and unchanged for a reorg
    batch. Else a batch with a carried header is stored with it and the
    parent hash is unchanged; the batch with the genesis sequence number is
    created, stored, stored as executed and registered; any other batch is
    computed with [parentHash] as parent, committed, stored, stored as
    executed and registered; the parent hash is then the hash of the batch
    that the executor has returned. *)
Definition batchStep (rc : RollupCompression)
  (calldataRollupHeader : CalldataRollupHeader.t) (parentHash : Z)
  (ib : batchFromRollup.t) (n : Node.t) (parentHash' : Z) (n' : Node.t) : Prop :=
  match FetchBatchBySeqNo (Node.storage n) (big_Uint64 (batchFromRollup.seqNo ib)) with
  | Ok b =>
      parentHash' = (if isCanonical ib then Batch.Hash b else parentHash) /\
      n' = n
  | Err _ =>
      match batchFromRollup.header ib with
      | Some header =>
          let b := Batch.mk header (batchFromRollup.transactions ib) in
          parentHash' = parentHash /\
          n' = node_after n (store_batch b (Node.storage n)) [EvStoreBatch b]
      | None =>
          if decide (big_Uint64 (batchFromRollup.seqNo ib) = L2GenesisSeqNo) then
            exists genBatch,
              CreateGenesisState (batchExecutor rc) (batchFromRollup.l1Proof ib)
                (batchFromRollup.time ib)
                (CalldataRollupHeader.Coinbase calldataRollupHeader)
                (CalldataRollupHeader.BaseFee calldataRollupHeader) = Ok genBatch /\
              parentHash' = Batch.Hash genBatch /\
              n' = node_after n (store_executed_batch genBatch [] (Node.storage n))
                     [EvCreateGenesisState (batchFromRollup.l1Proof ib)
                        (batchFromRollup.time ib)
                        (CalldataRollupHeader.Coinbase calldataRollupHeader)
                        (CalldataRollupHeader.BaseFee calldataRollupHeader);
                      EvStoreBatch genBatch; EvStoreExecutedBatch genBatch [];
                      EvOnBatchExecuted genBatch]
          else
            exists computedBatch root,
              ComputeBatch (batchExecutor rc) (contextOf rc parentHash ib) false
              = Ok computedBatch /\
              ComputedBatch.Commit computedBatch true = Ok root /\
              parentHash' = Batch.Hash (ComputedBatch.Batch computedBatch) /\
              n' = node_after n
                     (store_executed_batch (ComputedBatch.Batch computedBatch)
                        (ComputedBatch.Receipts computedBatch) (Node.storage n))
                     [EvComputeBatch (contextOf rc parentHash ib);
                      EvCommit (ComputedBatch.Batch computedBatch);
                      EvStoreBatch (ComputedBatch.Batch computedBatch);
                      EvStoreExecutedBatch (ComputedBatch.Batch computedBatch)
                        (ComputedBatch.Receipts computedBatch);
                      EvOnBatchExecuted (ComputedBatch.Batch computedBatch)]
      end
  end.

(** The iterations one after the other, in the order of the rollup: each
    one starts from the parent hash and the node that the one before it has
    left. *)
Fixpoint loopSteps (rc : RollupCompression)
  (calldataRollupHeader : CalldataRollupHeader.t) (parentHash : Z)
  (ibs : list batchFromRollup.t) (n : Node.t) (parentHash' : Z) (n' : Node.t)
  : Prop :=
  match ibs with
  | [] => parentHash' = parentHash /\ n' = n
  | ib :: rest =>
      exists parentHash1 n1,
        batchStep rc calldataRollupHeader parentHash ib n parentHash1 n1 /\
        loopSteps rc calldataRollupHeader parentHash1 rest n1 parentHash' n'
  end.

(** The executor returns [b] for the batch [ib] with the parent hash
    [parentHash]: as the genesis batch when [ib] has the genesis sequence
    number, as a computed batch otherwise. *)
Definition executedAs (rc : RollupCompression)
  (calldataRollupHeader : CalldataRollupHeader.t) (parentHash : Z)
  (ib : batchFromRollup.t) (b : Batch.t) : Prop :=
  if decide (big_Uint64 (batchFromRollup.seqNo ib) = L2GenesisSeqNo) then
    CreateGenesisState (batchExecutor rc) (batchFromRollup.l1Proof ib)
      (batchFromRollup.time ib)
      (CalldataRollupHeader.Coinbase calldataRollupHeader)
      (CalldataRollupHeader.BaseFee calldataRollupHeader) = Ok b
  else
    exists computedBatch,
      ComputeBatch (batchExecutor rc) (contextOf rc parentHash ib) false
      = Ok computedBatch /\
      ComputedBatch.Batch computedBatch = b.

End CallNotions.

(** The header with other time deltas. *)
Definition withBatchTimeDeltas (encs : list bytes)
  (h : CalldataRollupHeader.t) : CalldataRollupHeader.t :=
  CalldataRollupHeader.mk
    (CalldataRollupHeader.FirstBatchSequence h)
    (CalldataRollupHeader.FirstCanonBatchHeight h)
    (CalldataRollupHeader.FirstCanonParentHash h)
    (CalldataRollupHeader.StartTime h)
    encs
    (CalldataRollupHeader.ReOrgs h)
    (CalldataRollupHeader.L1HeightDeltas h)
    (CalldataRollupHeader.Coinbase h)
    (CalldataRollupHeader.BaseFee h)
    (CalldataRollupHeader.GasLimit h).

Section HeldNotions.

Context `{Hasher} `{Genesis} `{RLP BatchHeader.t}.




End HeldNotions.

(** Two headers with the same entries at the positions that the
    reconstruction of [count] batches reads. *)
Definition sameEntries (count : nat) (hdr hdr' : CalldataRollupHeader.t) : Prop :=
  CalldataRollupHeader.FirstBatchSequence hdr
  = CalldataRollupHeader.FirstBatchSequence hdr' /\
  CalldataRollupHeader.FirstCanonBatchHeight hdr
  = CalldataRollupHeader.FirstCanonBatchHeight hdr' /\
  CalldataRollupHeader.StartTime hdr = CalldataRollupHeader.StartTime hdr' /\
  CalldataRollupHeader.Coinbase hdr = CalldataRollupHeader.Coinbase hdr' /\
  CalldataRollupHeader.BaseFee hdr = CalldataRollupHeader.BaseFee hdr' /\
  CalldataRollupHeader.GasLimit hdr = CalldataRollupHeader.GasLimit hdr' /\
  (forall i : nat,
     (i < Nat.max 1 count)%nat ->
     CalldataRollupHeader.L1HeightDeltas hdr !! i
     = CalldataRollupHeader.L1HeightDeltas hdr' !! i) /\
  (forall i : nat,
     (i < count)%nat ->
     CalldataRollupHeader.BatchTimeDeltas hdr !! i
     = CalldataRollupHeader.BatchTimeDeltas hdr' !! i) /\
  (CalldataRollupHeader.ReOrgs hdr = [] <-> CalldataRollupHeader.ReOrgs hdr' = []) /\
  (forall i : nat,
     (i < count)%nat ->
     CalldataRollupHeader.ReOrgs hdr !! i = CalldataRollupHeader.ReOrgs hdr' !! i).

(** ** A concrete node

    Simple collaborators on which the engine runs by computation: a
    length-prefixed codec, an envelope, a hash, an executor that fills a
    header from its context, and a short L1 chain. The examples below are
    stated on them. *)
Module Scenario.

(** Byte strings one after the other, each behind a one-byte length. *)
Fixpoint put_items (items : list bytes) : result bytes :=
  match items with
  | [] => Ok []
  | item :: rest =>
      if Nat.ltb 255 (length item) then Err (ErrOther "item too long")
      else (tail <- put_items rest ;;
            Ok (byte_of_Z (Z.of_nat (length item)) :: item ++ tail))%result
  end.

Fixpoint get_items (fuel : nat) (buf : bytes) : result (list bytes) :=
  match fuel, buf with
  | _, [] => Ok []
  | O, _ => Err ErrFuel
  | S fuel', n :: rest =>
      let len := Z.to_nat (Z_of_byte n) in
      if Nat.ltb (length rest) len then Err (ErrOther "truncated item")
      else (items <- get_items fuel' (drop len rest) ;;
            Ok (take len rest :: items))%result
  end.

Definition items_of (buf : bytes) : result (list bytes) :=
  get_items (length buf) buf.

Definition encode_header (h : BatchHeader.t) : result bytes :=
  put_items (map GobEncode
    [BatchHeader.ParentHash h; BatchHeader.TxHash h;
     BatchHeader.Number h; BatchHeader.SequencerOrderNo h; BatchHeader.GasLimit h;
     BatchHeader.Time h; BatchHeader.L1Proof h; BatchHeader.BaseFee h;
     BatchHeader.Coinbase h]).

Definition decode_header (buf : bytes) : result BatchHeader.t :=
  (items <- items_of buf ;;
   fields <- traverse GobDecode items ;;
   match fields with
   | [parent; txs; number; seq; gas; time; proof; fee; coinbase] =>
       Ok (BatchHeader.mk parent txs number seq gas time proof fee coinbase)
   | _ => Err (ErrOther "rlp: wrong number of fields")
   end)%result.

Definition encode_calldata (h : CalldataRollupHeader.t) : result bytes :=
  (deltas <- put_items (CalldataRollupHeader.BatchTimeDeltas h) ;;
   reorgs <- put_items (CalldataRollupHeader.ReOrgs h) ;;
   heights <- put_items (CalldataRollupHeader.L1HeightDeltas h) ;;
   put_items
     [GobEncode (CalldataRollupHeader.FirstBatchSequence h);
      GobEncode (CalldataRollupHeader.FirstCanonBatchHeight h);
      GobEncode (CalldataRollupHeader.FirstCanonParentHash h);
      GobEncode (CalldataRollupHeader.StartTime h);
      deltas; reorgs; heights;
      GobEncode (CalldataRollupHeader.Coinbase h);
      GobEncode (CalldataRollupHeader.BaseFee h);
      GobEncode (CalldataRollupHeader.GasLimit h)])%result.

Definition decode_calldata (buf : bytes) : result CalldataRollupHeader.t :=
  (items <- items_of buf ;;
   match items with
   | [seq; height; parent; start; deltas; reorgs; heights; coinbase; fee; gas] =>
       seq <- GobDecode seq ;;
       height <- GobDecode height ;;
       parent <- GobDecode parent ;;
       start <- GobDecode start ;;
       deltas <- items_of deltas ;;
       reorgs <- items_of reorgs ;;
       heights <- items_of heights ;;
       coinbase <- GobDecode coinbase ;;
       fee <- GobDecode fee ;;
       gas <- GobDecode gas ;;
       Ok (CalldataRollupHeader.mk seq height parent start deltas reorgs heights
             coinbase fee gas)
   | _ => Err (ErrOther "rlp: wrong number of fields")
   end)%result.

Definition encode_transactions (txs : list (list L2Tx)) : result bytes :=
  (perBatch <- traverse put_items txs ;; put_items perBatch)%result.

Definition decode_transactions (buf : bytes) : result (list (list L2Tx)) :=
  (perBatch <- items_of buf ;; traverse items_of perBatch)%result.

#[export] Instance rlp_header : RLP BatchHeader.t :=
  {| rlp_EncodeToBytes := encode_header; rlp_DecodeBytes := decode_header |}.

#[export] Instance rlp_calldata : RLP CalldataRollupHeader.t :=
  {| rlp_EncodeToBytes := encode_calldata; rlp_DecodeBytes := decode_calldata |}.

#[export] Instance rlp_transactions : RLP (list (list L2Tx)) :=
  {| rlp_EncodeToBytes := encode_transactions;
     rlp_DecodeBytes := decode_transactions |}.

(** A hash that keeps the height in its high part and mixes the rest. *)
#[export] Instance hasher : Hasher := fun h =>
  BatchHeader.Number h * 2 ^ 32
  + (BatchHeader.SequencerOrderNo h mod 2 ^ 16) * 2 ^ 16
  + (BatchHeader.ParentHash h + BatchHeader.TxHash h
     + BatchHeader.GasLimit h + BatchHeader.Time h + BatchHeader.L1Proof h
     + BatchHeader.BaseFee h + BatchHeader.Coinbase h) mod 2 ^ 16.

#[export] Instance genesis : Genesis := 0.

#[export] Instance trie : Trie :=
  {| EmptyRootHash := 4242;
     DeriveSha := fun txs => 1 + Z.of_nat (length (concat txs)) |}.

(** The envelope: a marker byte for the compression, a mask for the
    encryption. *)
Definition mask (b : byte) : byte := byte_of_Z (Z.lxor (Z_of_byte b) 90).

Definition encryption : DataEncryptionService :=
  {| Encrypt := fun buf => Ok (map mask buf);
     Decrypt := fun buf => Ok (map mask buf) |}.

Definition compression : DataCompressionService :=
  {| CompressRollup := fun buf => Ok (Byte.x01 :: buf);
     Decompress := fun buf =>
       match buf with
       | Byte.x01 :: rest => Ok rest
       | _ => Err (ErrOther "not a compressed blob")
       end |}.

(** The executor: the header of a batch from the context it is computed in;
    the height is one more than the parent's, read off the parent's hash. *)
Definition computed_header (ctx : BatchExecutionContext.t) : BatchHeader.t :=
  let txs := BatchExecutionContext.Transactions ctx in
  {| BatchHeader.ParentHash := BatchExecutionContext.ParentPtr ctx;
     BatchHeader.TxHash :=
       if Nat.eqb (length txs) 0 then EmptyRootHash else DeriveSha txs;
     BatchHeader.Number := BatchExecutionContext.ParentPtr ctx / 2 ^ 32 + 1;
     BatchHeader.SequencerOrderNo := BatchExecutionContext.SequencerNo ctx;
     BatchHeader.GasLimit := 30000000;
     BatchHeader.Time := BatchExecutionContext.AtTime ctx;
     BatchHeader.L1Proof := BatchExecutionContext.BlockPtr ctx;
     BatchHeader.BaseFee := BatchExecutionContext.BaseFee ctx;
     BatchHeader.Coinbase := BatchExecutionContext.Creator ctx |}.

Definition computed_batch (ctx : BatchExecutionContext.t) : Batch.t :=
  {| Batch.Header := computed_header ctx;
     Batch.Transactions := BatchExecutionContext.Transactions ctx |}.

Definition genesis_batch (l1Proof : Z) (time : Z) (coinbase : Z) (baseFee : Z)
  : Batch.t :=
  {| Batch.Header :=
       {| BatchHeader.ParentHash := 0;
          BatchHeader.TxHash := EmptyRootHash; BatchHeader.Number := 0;
          BatchHeader.SequencerOrderNo := L2GenesisSeqNo;
          BatchHeader.GasLimit := 30000000; BatchHeader.Time := time;
          BatchHeader.L1Proof := l1Proof; BatchHeader.BaseFee := baseFee;
          BatchHeader.Coinbase := coinbase |};
     Batch.Transactions := [] |}.

Definition executor : BatchExecutor :=
  {| ComputeBatch := fun ctx _ =>
       Ok {| ComputedBatch.Batch := computed_batch ctx;
             ComputedBatch.Receipts := BatchExecutionContext.Transactions ctx;
             ComputedBatch.Commit := fun _ =>
               Ok (9000 + BatchExecutionContext.SequencerNo ctx) |};
     CreateGenesisState := fun l1Proof time coinbase baseFee =>
       Ok (genesis_batch l1Proof time coinbase baseFee) |}.

Definition rc : RollupCompression :=
  {| dataEncryptionService := encryption;
     dataCompressionService := compression;
     batchExecutor := executor;
     chainConfig := 443 |}.

(** The L1 chain: block [n] has hash [100 + n] and parent [100 + n - 1];
    blocks 0 to 9 are known. *)
Definition l1_block (n : Z) : Block.t :=
  {| Block.Number := n; Block.Hash := 100 + n; Block.ParentHash := 100 + n - 1 |}.

Definition l1_chain : gmap Z Block.t :=
  list_to_map (map (fun n => (100 + n, l1_block n)) [0; 1; 2; 3; 4; 5; 6; 7; 8; 9]).

Definition context (proof parent : Z) (txs : list L2Tx) (time seq : Z)
  : BatchExecutionContext.t :=
  {| BatchExecutionContext.BlockPtr := proof;
     BatchExecutionContext.ParentPtr := parent;
     BatchExecutionContext.Transactions := txs;
     BatchExecutionContext.AtTime := time;
     BatchExecutionContext.Creator := 77;
     BatchExecutionContext.ChainConfig := 443;
     BatchExecutionContext.SequencerNo := seq;
     BatchExecutionContext.BaseFee := 1 |}.

(** The batch before the rollups of the examples (sequence number 9), and
    three batches after it: [batch10] and [batch12] canonical, [batch11]
    either canonical or, as [reorg11], a batch of an abandoned fork. *)
Definition tx_a : L2Tx := [Byte.x0a; Byte.x0b].
Definition tx_b : L2Tx := [Byte.x0c].

Definition batch9 : Batch.t := computed_batch (context 106 (8 * 2 ^ 32) [] 1990 9).
Definition batch10 : Batch.t :=
  computed_batch (context 107 (Batch.Hash batch9) [tx_a] 2000 10).
Definition batch11 : Batch.t :=
  computed_batch (context 108 (Batch.Hash batch10) [] 2002 11).
Definition reorg11 : Batch.t :=
  {| Batch.Header :=
       {| BatchHeader.ParentHash := Batch.Hash batch9;
          BatchHeader.TxHash := DeriveSha [tx_b]; BatchHeader.Number := 10;
          BatchHeader.SequencerOrderNo := 11; BatchHeader.GasLimit := 30000000;
          BatchHeader.Time := 2001; BatchHeader.L1Proof := 107;
          BatchHeader.BaseFee := 1; BatchHeader.Coinbase := 77 |};
     Batch.Transactions := [tx_b] |}.
Definition batch12 : Batch.t :=
  computed_batch (context 108 (Batch.Hash batch10) [tx_a; tx_b] 2003 12).

(** Two batches whose times are [2^63] seconds apart. *)
Definition batch_early : Batch.t :=
  computed_batch (context 107 (Batch.Hash batch9) [] 0 10).
Definition batch_late : Batch.t :=
  computed_batch (context 108 (Batch.Hash batch_early) [] (2 ^ 63) 11).

Definition empty_storage : Storage.t :=
  Storage.mk ∅ ∅ ∅ ∅ [].

(** The sequencer's storage: with no non-canonical batch, or holding
    [reorg11] as non-canonical. *)
Definition sequencer_plain : Storage.t :=
  Storage.mk l1_chain ∅ ∅ ∅ [].

Definition sequencer_storage : Storage.t :=
  Storage.mk l1_chain ∅ ∅ ∅ [reorg11].

(** A receiving node that has the L1 chain and the batch with sequence
    number 9. *)
Definition receiver_storage : Storage.t :=
  store_batch batch9 (Storage.mk l1_chain ∅ ∅ ∅ []).

Definition receiver : Node.t := Node.mk receiver_storage [].

Definition proof_blocks : gmap Z Block.t :=
  list_to_map [(107, l1_block 7); (108, l1_block 8)].

Definition rollup_plain : Rollup.t :=
  {| Rollup.Header := RollupHeader.mk 109;
     Rollup.Batches := [batch10; batch11];
     Rollup.Blocks := proof_blocks |}.

Definition rollup_far_times : Rollup.t :=
  {| Rollup.Header := RollupHeader.mk 109;
     Rollup.Batches := [batch_early; batch_late];
     Rollup.Blocks := proof_blocks |}.

Definition rollup_reorg : Rollup.t :=
  {| Rollup.Header := RollupHeader.mk 109;
     Rollup.Batches := [batch10; reorg11; batch12];
     Rollup.Blocks := proof_blocks |}.

(** The decoded header of [rollup_plain] and the transactions of its
    batches. *)
Definition calldata_plain : CalldataRollupHeader.t :=
  {| CalldataRollupHeader.FirstBatchSequence := 10;
     CalldataRollupHeader.FirstCanonBatchHeight := 10;
     CalldataRollupHeader.FirstCanonParentHash := Batch.Hash batch9;
     CalldataRollupHeader.StartTime := 2000;
     CalldataRollupHeader.BatchTimeDeltas := [GobEncode 0; GobEncode 2];
     CalldataRollupHeader.ReOrgs := [];
     CalldataRollupHeader.L1HeightDeltas := [GobEncode 7; GobEncode 1];
     CalldataRollupHeader.Coinbase := 77;
     CalldataRollupHeader.BaseFee := 1;
     CalldataRollupHeader.GasLimit := 30000000 |}.

Definition transactions_plain : list (list L2Tx) := [[tx_a]; []].

(** The same header with fields a forger may set. *)
Definition with_time_deltas (deltas : list Z) (h : CalldataRollupHeader.t)
  : CalldataRollupHeader.t :=
  CalldataRollupHeader.mk
    (CalldataRollupHeader.FirstBatchSequence h)
    (CalldataRollupHeader.FirstCanonBatchHeight h)
    (CalldataRollupHeader.FirstCanonParentHash h)
    (CalldataRollupHeader.StartTime h)
    (map GobEncode deltas)
    (CalldataRollupHeader.ReOrgs h)
    (CalldataRollupHeader.L1HeightDeltas h)
    (CalldataRollupHeader.Coinbase h)
    (CalldataRollupHeader.BaseFee h)
    (CalldataRollupHeader.GasLimit h).

Definition with_first_height (height : Z) (h : CalldataRollupHeader.t)
  : CalldataRollupHeader.t :=
  CalldataRollupHeader.mk
    (CalldataRollupHeader.FirstBatchSequence h)
    height
    (CalldataRollupHeader.FirstCanonParentHash h)
    (CalldataRollupHeader.StartTime h)
    (CalldataRollupHeader.BatchTimeDeltas h)
    (CalldataRollupHeader.ReOrgs h)
    (CalldataRollupHeader.L1HeightDeltas h)
    (CalldataRollupHeader.Coinbase h)
    (CalldataRollupHeader.BaseFee h)
    (CalldataRollupHeader.GasLimit h).

Definition with_anchor (seq parent : Z) (h : CalldataRollupHeader.t)
  : CalldataRollupHeader.t :=
  CalldataRollupHeader.mk
    seq
    (CalldataRollupHeader.FirstCanonBatchHeight h)
    parent
    (CalldataRollupHeader.StartTime h)
    (CalldataRollupHeader.BatchTimeDeltas h)
    (CalldataRollupHeader.ReOrgs h)
    (CalldataRollupHeader.L1HeightDeltas h)
    (CalldataRollupHeader.Coinbase h)
    (CalldataRollupHeader.BaseFee h)
    (CalldataRollupHeader.GasLimit h).

Definition with_l1_deltas (deltas : list Z) (h : CalldataRollupHeader.t)
  : CalldataRollupHeader.t :=
  CalldataRollupHeader.mk
    (CalldataRollupHeader.FirstBatchSequence h)
    (CalldataRollupHeader.FirstCanonBatchHeight h)
    (CalldataRollupHeader.FirstCanonParentHash h)
    (CalldataRollupHeader.StartTime h)
    (CalldataRollupHeader.BatchTimeDeltas h)
    (CalldataRollupHeader.ReOrgs h)
    (map GobEncode deltas)
    (CalldataRollupHeader.Coinbase h)
    (CalldataRollupHeader.BaseFee h)
    (CalldataRollupHeader.GasLimit h).

(** What [createIncompleteBatches] returns on the receiving node, or no
    batch when it fails. *)
Definition reconstructed (h : CalldataRollupHeader.t) (txs : list (list L2Tx))
  : list batchFromRollup.t :=
  match createIncompleteBatches 10 receiver_storage h txs 109 with
  | Ok bs => bs
  | Err _ => []
  end.

Definition batches_plain : list batchFromRollup.t :=
  Eval vm_compute in reconstructed calldata_plain transactions_plain.

(** The decoded header of [rollup_reorg], as the sequencer builds it. *)
Definition calldata_reorg : CalldataRollupHeader.t :=
  Eval vm_compute in
    match createRollupHeader sequencer_storage rollup_reorg with
    | Ok h => h
    | Err _ => calldata_plain
    end.

Definition transactions_reorg : list (list L2Tx) :=
  [[tx_a]; [tx_b]; [tx_a; tx_b]].

Definition batches_reorg : list batchFromRollup.t :=
  Eval vm_compute in reconstructed calldata_reorg transactions_reorg.

(** Forged headers: a negative time delta, a first height at the end of
    the [int64] range, a first sequence number past the [uint64] range with
    a parent hash no batch has. *)
Definition calldata_negative_delta : CalldataRollupHeader.t :=
  with_time_deltas [0; -1] calldata_plain.

Definition calldata_last_height : CalldataRollupHeader.t :=
  with_first_height (2 ^ 63 - 1) calldata_plain.

Definition calldata_wrapped_sequence : CalldataRollupHeader.t :=
  with_anchor (2 ^ 64) 12345 calldata_plain.

Definition calldata_unknown_parent : CalldataRollupHeader.t :=
  with_anchor 10 12345 calldata_plain.

(** A header whose second batch refers to the L1 height 9, for a rollup
    compressed at the L1 block of height 8. *)
Definition calldata_above_head : CalldataRollupHeader.t :=
  with_l1_deltas [7; 2] calldata_plain.

(** The rollups as they are published. *)
Definition sealed {A : Type} `{RLP A} (obj : A) : list byte :=
  match serialiseCompressAndEncrypt rc obj with
  | Ok blob => blob
  | Err _ => []
  end.

Definition ext_plain : ExtRollup.t :=
  Eval vm_compute in
    match CreateExtRollup rc sequencer_plain rollup_plain with
    | Ok ext => ext
    | Err _ => ExtRollup.mk (RollupHeader.mk 0) [] []
    end.

Definition ext_reorg : ExtRollup.t :=
  Eval vm_compute in
    match CreateExtRollup rc sequencer_storage rollup_reorg with
    | Ok ext => ext
    | Err _ => ExtRollup.mk (RollupHeader.mk 0) [] []
    end.


(** The batches reconstructed from the rollup with a reorg. *)
Definition no_batch : batchFromRollup.t :=
  batchFromRollup.mk [] 0 0 0 0 0 0 0 0 None.

Definition incomplete10 : batchFromRollup.t :=
  Eval vm_compute in default no_batch (batches_reorg !! 0%nat).
Definition incomplete11 : batchFromRollup.t :=
  Eval vm_compute in default no_batch (batches_reorg !! 1%nat).
Definition incomplete12 : batchFromRollup.t :=
  Eval vm_compute in default no_batch (batches_reorg !! 2%nat).

(** The receiving node after the rollup with a reorg. *)
Definition receiver_after_reorg : Node.t :=
  Eval vm_compute in snd (ProcessExtRollup 10 rc ext_reorg receiver).

(** A node that holds batch 11, which the rollup with a reorg replaces. *)
Definition receiver_with_batch11 : Node.t :=
  Node.mk (store_batch batch11 (store_batch batch10 receiver_storage)) [].

(** A forged rollup: the header carried at position 1 bears the sequence
    number 99. *)
Definition misplaced : Batch.t :=
  {| Batch.Header :=
       {| BatchHeader.ParentHash := Batch.Hash batch9;
          BatchHeader.TxHash := DeriveSha [tx_b]; BatchHeader.Number := 10;
          BatchHeader.SequencerOrderNo := 99; BatchHeader.GasLimit := 30000000;
          BatchHeader.Time := 2001; BatchHeader.L1Proof := 107;
          BatchHeader.BaseFee := 1; BatchHeader.Coinbase := 77 |};
     Batch.Transactions := [tx_b] |}.

Definition calldata_misplaced : CalldataRollupHeader.t :=
  CalldataRollupHeader.mk
    (CalldataRollupHeader.FirstBatchSequence calldata_reorg)
    (CalldataRollupHeader.FirstCanonBatchHeight calldata_reorg)
    (CalldataRollupHeader.FirstCanonParentHash calldata_reorg)
    (CalldataRollupHeader.StartTime calldata_reorg)
    (CalldataRollupHeader.BatchTimeDeltas calldata_reorg)
    [[];
     match rlp_EncodeToBytes (Batch.Header misplaced) with
     | Ok enc => enc
     | Err _ => []
     end;
     []]
    (CalldataRollupHeader.L1HeightDeltas calldata_reorg)
    (CalldataRollupHeader.Coinbase calldata_reorg)
    (CalldataRollupHeader.BaseFee calldata_reorg)
    (CalldataRollupHeader.GasLimit calldata_reorg).

Definition ext_misplaced : ExtRollup.t :=
  Eval vm_compute in
    {| ExtRollup.Header := RollupHeader.mk 109;
       ExtRollup.BatchPayloads := sealed transactions_reorg;
       ExtRollup.CalldataRollupHeader := sealed calldata_misplaced |}.

(** A rollup whose second batch was produced for another coinbase. *)
Definition batch11_other : Batch.t :=
  computed_batch
    {| BatchExecutionContext.BlockPtr := 108;
       BatchExecutionContext.ParentPtr := Batch.Hash batch10;
       BatchExecutionContext.Transactions := [];
       BatchExecutionContext.AtTime := 2002;
       BatchExecutionContext.Creator := 88;
       BatchExecutionContext.ChainConfig := 443;
       BatchExecutionContext.SequencerNo := 11;
       BatchExecutionContext.BaseFee := 1 |}.

Definition rollup_two_coinbases : Rollup.t :=
  {| Rollup.Header := RollupHeader.mk 109;
     Rollup.Batches := [batch10; batch11_other];
     Rollup.Blocks := proof_blocks |}.

Definition ext_two_coinbases : ExtRollup.t :=
  Eval vm_compute in
    match CreateExtRollup rc sequencer_plain rollup_two_coinbases with
    | Ok ext => ext
    | Err _ => ExtRollup.mk (RollupHeader.mk 0) [] []
    end.

End Scenario.
(** ** Further concrete values *)
Module Faults.
Import Scenario.

(** An executor that cannot compute the batch with the sequence number 12. *)
Definition failing_executor : BatchExecutor :=
  {| ComputeBatch := fun ctx validate =>
       if BatchExecutionContext.SequencerNo ctx =? 12
       then Err (ErrOther "execution failed")
       else ComputeBatch Scenario.executor ctx validate;
     CreateGenesisState := CreateGenesisState Scenario.executor |}.

Definition failing_rc : RollupCompression :=
  {| dataEncryptionService := encryption;
     dataCompressionService := compression;
     batchExecutor := failing_executor;
     chainConfig := 443 |}.

(** The receiving node after the rollup with a reorg has failed at its
    third batch. *)
Definition receiver_after_failure : Node.t :=
  Eval vm_compute in
    snd (executeAndSaveFrom failing_rc calldata_reorg
           (CalldataRollupHeader.FirstCanonParentHash calldata_reorg)
           batches_reorg receiver).

(** A reconstructed batch with another height, another hash of the
    transactions and another gas limit. *)
Definition relabelled (ib : batchFromRollup.t) : batchFromRollup.t :=
  {| batchFromRollup.transactions := batchFromRollup.transactions ib;
     batchFromRollup.seqNo := batchFromRollup.seqNo ib;
     batchFromRollup.height := 0;
     batchFromRollup.txHash := 0;
     batchFromRollup.time := batchFromRollup.time ib;
     batchFromRollup.l1Proof := batchFromRollup.l1Proof ib;
     batchFromRollup.coinbase := batchFromRollup.coinbase ib;
     batchFromRollup.baseFee := batchFromRollup.baseFee ib;
     batchFromRollup.gasLimit := 0;
     batchFromRollup.header := batchFromRollup.header ib |}.

(** The header of the plain rollup with one more entry in each array of
    deltas. *)
Definition calldata_padded : CalldataRollupHeader.t :=
  {| CalldataRollupHeader.FirstBatchSequence := 10;
     CalldataRollupHeader.FirstCanonBatchHeight := 10;
     CalldataRollupHeader.FirstCanonParentHash := Batch.Hash batch9;
     CalldataRollupHeader.StartTime := 2000;
     CalldataRollupHeader.BatchTimeDeltas := [GobEncode 0; GobEncode 2; GobEncode 99];
     CalldataRollupHeader.ReOrgs := [];
     CalldataRollupHeader.L1HeightDeltas := [GobEncode 7; GobEncode 1; GobEncode 99];
     CalldataRollupHeader.Coinbase := 77;
     CalldataRollupHeader.BaseFee := 1;
     CalldataRollupHeader.GasLimit := 30000000 |}.

(** The header of the rollup whose batches are [2^63] seconds apart, and
    what the receiving node reconstructs from it. *)
Definition calldata_far_times : CalldataRollupHeader.t :=
  Eval vm_compute in
    match createRollupHeader sequencer_plain rollup_far_times with
    | Ok h => h
    | Err _ => calldata_plain
    end.

Definition batches_far_times : list batchFromRollup.t :=
  Eval vm_compute in reconstructed calldata_far_times [[]; []].

(** A forged rollup of four batches, with the sequence numbers 10 to 13:
    the header carried at position 1 bears the sequence number 12. *)
Definition displaced : Batch.t :=
  {| Batch.Header :=
       {| BatchHeader.ParentHash := Batch.Hash batch9;
          BatchHeader.TxHash := DeriveSha [tx_b]; BatchHeader.Number := 10;
          BatchHeader.SequencerOrderNo := 12; BatchHeader.GasLimit := 30000000;
          BatchHeader.Time := 2001; BatchHeader.L1Proof := 107;
          BatchHeader.BaseFee := 1; BatchHeader.Coinbase := 77 |};
     Batch.Transactions := [tx_b] |}.

Definition calldata_displaced : CalldataRollupHeader.t :=
  {| CalldataRollupHeader.FirstBatchSequence := 10;
     CalldataRollupHeader.FirstCanonBatchHeight := 10;
     CalldataRollupHeader.FirstCanonParentHash := Batch.Hash batch9;
     CalldataRollupHeader.StartTime := 2000;
     CalldataRollupHeader.BatchTimeDeltas :=
       [GobEncode 0; GobEncode 1; GobEncode 1; GobEncode 1];
     CalldataRollupHeader.ReOrgs :=
       [[];
        match rlp_EncodeToBytes (Batch.Header displaced) with
        | Ok enc => enc
        | Err _ => []
        end;
        []; []];
     CalldataRollupHeader.L1HeightDeltas :=
       [GobEncode 7; GobEncode 0; GobEncode 1; GobEncode 0];
     CalldataRollupHeader.Coinbase := 77;
     CalldataRollupHeader.BaseFee := 1;
     CalldataRollupHeader.GasLimit := 30000000 |}.

Definition transactions_displaced : list (list L2Tx) :=
  [[tx_a]; [tx_b]; [tx_a; tx_b]; []].

Definition batches_displaced : list batchFromRollup.t :=
  Eval vm_compute in reconstructed calldata_displaced transactions_displaced.

Definition ext_displaced : ExtRollup.t :=
  Eval vm_compute in
    {| ExtRollup.Header := RollupHeader.mk 109;
       ExtRollup.BatchPayloads := sealed transactions_displaced;
       ExtRollup.CalldataRollupHeader := sealed calldata_displaced |}.

(** What the executor returns for the batches 10 and 13 of that rollup,
    the second with the hash of [displaced] as parent. *)
Definition displaced10 : Batch.t :=
  computed_batch (context 107 (Batch.Hash batch9) [tx_a] 2000 10).
Definition displaced13 : Batch.t :=
  computed_batch (context 108 (Batch.Hash displaced) [] 2003 13).

(** A forged rollup of three batches whose first sequence number is the
    last [uint64]: read as an [int64], the sequence numbers are -1, 0 and 1,
    and the first and the third batch are looked up under 1. *)
Definition calldata_mirrored : CalldataRollupHeader.t :=
  {| CalldataRollupHeader.FirstBatchSequence := 2 ^ 64 - 1;
     CalldataRollupHeader.FirstCanonBatchHeight := 10;
     CalldataRollupHeader.FirstCanonParentHash := Batch.Hash batch9;
     CalldataRollupHeader.StartTime := 2000;
     CalldataRollupHeader.BatchTimeDeltas := [GobEncode 0; GobEncode 1; GobEncode 1];
     CalldataRollupHeader.ReOrgs := [];
     CalldataRollupHeader.L1HeightDeltas := [GobEncode 7; GobEncode 0; GobEncode 1];
     CalldataRollupHeader.Coinbase := 77;
     CalldataRollupHeader.BaseFee := 1;
     CalldataRollupHeader.GasLimit := 30000000 |}.

Definition batches_mirrored : list batchFromRollup.t :=
  Eval vm_compute in reconstructed calldata_mirrored [[tx_a]; []; [tx_b]].

(** An executor that numbers a batch one above the sequence number it is
    asked for. *)
Definition renumbering_executor : BatchExecutor :=
  {| ComputeBatch := fun ctx validate =>
       ComputeBatch Scenario.executor
         {| BatchExecutionContext.BlockPtr := BatchExecutionContext.BlockPtr ctx;
            BatchExecutionContext.ParentPtr := BatchExecutionContext.ParentPtr ctx;
            BatchExecutionContext.Transactions :=
              BatchExecutionContext.Transactions ctx;
            BatchExecutionContext.AtTime := BatchExecutionContext.AtTime ctx;
            BatchExecutionContext.Creator := BatchExecutionContext.Creator ctx;
            BatchExecutionContext.ChainConfig :=
              BatchExecutionContext.ChainConfig ctx;
            BatchExecutionContext.SequencerNo :=
              BatchExecutionContext.SequencerNo ctx + 1;
            BatchExecutionContext.BaseFee := BatchExecutionContext.BaseFee ctx |}
         validate;
     CreateGenesisState := CreateGenesisState Scenario.executor |}.

Definition renumbering_rc : RollupCompression :=
  {| dataEncryptionService := encryption;
     dataCompressionService := compression;
     batchExecutor := renumbering_executor;
     chainConfig := 443 |}.

(** A receiving node that holds batch 10 already. *)
Definition receiver_with_batch10 : Node.t :=
  Node.mk (store_batch batch10 receiver_storage) [].

End Faults.
(** *** The integer layer *)

Lemma u64_id z : in_u64 z -> u64 z = z.
Proof. unfold in_u64, u64. intros H. apply Z.mod_small. lia. Qed.

Lemma i64_id z : in_i64 z -> i64 z = z.
Proof.
  unfold in_i64, i64. intros H.
  rewrite Z.mod_small by lia. lia.
Qed.

Lemma i64_range z : in_i64 (i64 z).
Proof.
  unfold in_i64, i64.
  pose proof (Z.mod_pos_bound (z + 2 ^ 63) (2 ^ 64) ltac:(lia)). lia.
Qed.

Lemma u64_range z : in_u64 (u64 z).
Proof. unfold in_u64, u64. apply Z.mod_pos_bound. lia. Qed.

Lemma i64_cong a b : (a - b) mod 2 ^ 64 = 0 -> i64 a = i64 b.
Proof.
  unfold i64. intros H.
  replace (a + 2 ^ 63) with (b + 2 ^ 63 + (a - b)) by lia.
  rewrite Z.add_mod by lia. rewrite H, Z.add_0_r.
  rewrite Z.mod_mod by lia. reflexivity.
Qed.

Lemma u64_cong a b : (a - b) mod 2 ^ 64 = 0 -> u64 a = u64 b.
Proof.
  unfold u64. intros H.
  replace a with (b + (a - b)) by lia.
  rewrite Z.add_mod by lia. rewrite H, Z.add_0_r.
  rewrite Z.mod_mod by lia. reflexivity.
Qed.

Lemma i64_mod_eq z : (i64 z - z) mod 2 ^ 64 = 0.
Proof.
  unfold i64.
  rewrite (Z.mod_eq (z + 2 ^ 63) (2 ^ 64)) by lia.
  replace (z + 2 ^ 63 - 2 ^ 64 * ((z + 2 ^ 63) / 2 ^ 64) - 2 ^ 63 - z)
    with ((- ((z + 2 ^ 63) / 2 ^ 64)) * 2 ^ 64) by lia.
  apply Z.mod_mul. lia.
Qed.

Lemma u64_mod_eq z : (u64 z - z) mod 2 ^ 64 = 0.
Proof.
  unfold u64.
  rewrite (Z.mod_eq z (2 ^ 64)) by lia.
  replace (z - 2 ^ 64 * (z / 2 ^ 64) - z) with ((- (z / 2 ^ 64)) * 2 ^ 64) by lia.
  apply Z.mod_mul. lia.
Qed.

Lemma mod64_add a b :
  a mod 2 ^ 64 = 0 -> b mod 2 ^ 64 = 0 -> (a + b) mod 2 ^ 64 = 0.
Proof. intros Ha Hb. rewrite Z.add_mod by lia. rewrite Ha, Hb. reflexivity. Qed.

Lemma mod64_opp a : a mod 2 ^ 64 = 0 -> (- a) mod 2 ^ 64 = 0.
Proof.
  intros Ha. apply Z.mod_divide in Ha; [|lia]. apply Z.mod_divide; [lia|].
  now apply Z.divide_opp_r.
Qed.

Lemma big_Int64_id x : in_i64 x -> big_Int64 x = x.
Proof.
  unfold big_Int64, low64, in_i64. intros H.
  destruct (Z.ltb_spec x 0) as [Hneg|Hpos].
  - rewrite (Z.mod_small (Z.abs x)) by lia.
    destruct (Z.eq_dec x (- 2 ^ 63)) as [->|Hne]; [reflexivity|].
    rewrite (i64_id (Z.abs x)) by (unfold in_i64; lia).
    rewrite i64_id by (unfold in_i64; lia). lia.
  - rewrite (Z.mod_small (Z.abs x)) by lia.
    rewrite i64_id by (unfold in_i64; lia). lia.
Qed.

Lemma big_Int64_range x : in_i64 (big_Int64 x).
Proof. unfold big_Int64. destruct (x <? 0); apply i64_range. Qed.

Lemma big_Uint64_id x : in_u64 x -> big_Uint64 x = x.
Proof.
  unfold big_Uint64, low64, in_u64. intros H.
  rewrite Z.abs_eq by lia. apply Z.mod_small. lia.
Qed.

Lemma big_Uint64_range x : in_u64 (big_Uint64 x).
Proof. unfold big_Uint64, low64, in_u64. apply Z.mod_pos_bound. lia. Qed.

(** *** The Gob encoding round trip *)

Lemma Z_of_byte_of_Z z : Z_of_byte (byte_of_Z z) = z mod 256.
Proof.
  unfold Z_of_byte, byte_of_Z.
  pose proof (Z.mod_pos_bound z 256 ltac:(lia)) as Hb.
  destruct (Byte.of_N (Z.to_N (z mod 256))) as [b|] eqn:Hof.
  - apply Byte.to_of_N in Hof. rewrite Hof. lia.
  - apply Byte.of_N_None_iff in Hof. lia.
Qed.

Lemma nat_setBytes_aux fuel : forall magnitude acc,
  0 <= magnitude < 2 ^ Z.of_nat fuel ->
  fold_left (fun a b => a * 256 + Z_of_byte b) (nat_bytes_aux fuel magnitude acc) 0
  = fold_left (fun a b => a * 256 + Z_of_byte b) acc magnitude.
Proof.
  induction fuel as [|fuel IH]; intros magnitude acc Hm.
  - simpl in *. replace magnitude with 0 by lia. reflexivity.
  - cbn [nat_bytes_aux]. destruct (Z.leb_spec magnitude 0) as [Hle|Hgt].
    + replace magnitude with 0 by lia. reflexivity.
    + rewrite IH.
      * cbn [fold_left]. rewrite Z_of_byte_of_Z. f_equal.
        pose proof (Z.div_mod magnitude 256 ltac:(lia)). lia.
      * rewrite Nat2Z.inj_succ, Z.pow_succ_r in Hm by lia.
        split; [apply Z.div_pos; lia|].
        apply Z.div_lt_upper_bound; lia.
Qed.

Lemma nat_setBytes_bytes magnitude :
  0 <= magnitude -> nat_setBytes (nat_bytes magnitude) = magnitude.
Proof.
  intros Hm. unfold nat_setBytes, nat_bytes.
  rewrite nat_setBytes_aux; [reflexivity|].
  destruct (Z.eq_dec magnitude 0) as [->|Hne]; [simpl; lia|].
  rewrite Nat2Z.inj_succ, Z2Nat.id by apply Z.log2_nonneg.
  split; [lia|]. apply Z.log2_spec. lia.
Qed.

Lemma GobDecode_GobEncode x : GobDecode (GobEncode x) = Ok x.
Proof.
  unfold GobEncode, GobDecode, intGobVersion.
  rewrite Z_of_byte_of_Z, nat_setBytes_bytes by lia.
  destruct (Z.ltb_spec x 0) as [Hneg|Hpos]; simpl; f_equal; lia.
Qed.

Lemma GobEncode_nonempty x : GobEncode x <> [].
Proof. unfold GobEncode. discriminate. Qed.

Lemma big_Int64_mod_eq x : (big_Int64 x - x) mod 2 ^ 64 = 0.
Proof.
  unfold big_Int64, low64.
  pose proof (u64_mod_eq (Z.abs x)) as Hlow. unfold u64 in Hlow.
  pose proof (i64_mod_eq (Z.abs x mod 2 ^ 64)) as Hv.
  destruct (Z.ltb_spec x 0) as [Hneg|Hpos].
  - pose proof (i64_mod_eq (- i64 (Z.abs x mod 2 ^ 64))) as Hn.
    replace (i64 (- i64 (Z.abs x mod 2 ^ 64)) - x)
      with ((i64 (- i64 (Z.abs x mod 2 ^ 64)) - - i64 (Z.abs x mod 2 ^ 64))
            + (- (i64 (Z.abs x mod 2 ^ 64) - Z.abs x mod 2 ^ 64)
               + - (Z.abs x mod 2 ^ 64 - Z.abs x))) by lia.
    auto using mod64_add, mod64_opp.
  - replace (i64 (Z.abs x mod 2 ^ 64) - x)
      with ((i64 (Z.abs x mod 2 ^ 64) - Z.abs x mod 2 ^ 64)
            + (Z.abs x mod 2 ^ 64 - Z.abs x)) by lia.
    auto using mod64_add.
Qed.

Lemma u64_i64 z : u64 (i64 z) = u64 z.
Proof. apply u64_cong, i64_mod_eq. Qed.

Lemma i64_add_l a b : i64 (i64 a + b) = i64 (a + b).
Proof.
  apply i64_cong. replace (i64 a + b - (a + b)) with (i64 a - a) by lia.
  apply i64_mod_eq.
Qed.

Lemma i64_add_Int64 a x : i64 (a + big_Int64 x) = i64 (a + x).
Proof.
  apply i64_cong. replace (a + big_Int64 x - (a + x)) with (big_Int64 x - x) by lia.
  apply big_Int64_mod_eq.
Qed.

(** * Properties *)

(** ** The monad of the node *)

Lemma bind_ok {A B : Type} (m : M A) (k : A -> M B) n a n' :
  m n = (Ok a, n') -> bind m k n = k a n'.
Proof. intros Hm. unfold bind. rewrite Hm. reflexivity. Qed.


Lemma bind_inv_ok {A B : Type} (m : M A) (k : A -> M B) n b n2 :
  bind m k n = (Ok b, n2) ->
  exists a n1, m n = (Ok a, n1) /\ k a n1 = (Ok b, n2).
Proof.
  unfold bind. destruct (m n) as [[a|e] n1]; intros Hk; [eauto|discriminate].
Qed.

Lemma rbind_inv_ok {A B : Type} (r : result A) (k : A -> result B) b :
  rbind r k = Ok b -> exists a, r = Ok a /\ k a = Ok b.
Proof. destruct r as [a|e]; simpl; intros Hk; [eauto|discriminate]. Qed.

Lemma index_inv_Ok {A : Type} (l : list A) (i : nat) a :
  index l i = Ok a -> l !! i = Some a.
Proof. unfold index. destruct (l !! i); congruence. Qed.

(** Splits the hypotheses that a chain of binds has returned a value. *)
Ltac inv_rbind :=
  repeat match goal with
  | H : rbind _ _ = Ok _ |- _ =>
      let a := fresh "a" in
      let Ha := fresh "Ha" in
      apply rbind_inv_ok in H; destruct H as (a & Ha & H)
  | H : Ok _ = Ok _ |- _ => injection H as H
  | H : Err _ = Ok _ |- _ => discriminate H
  end.

Section ExecuteAndSave.

Context `{Hasher} `{Genesis} `{Trie}.
Context `{RLP BatchHeader.t} `{RLP CalldataRollupHeader.t} `{RLP (list (list L2Tx))}.

Variable rc : RollupCompression.

(** C10, as amended. When the first sequence number of the decoded header,
    read as the engine reads it (its low 64 bits), is not the genesis
    sequence number and the storage has no batch with the hash
    [FirstCanonParentHash], [executeAndSaveIncompleteBatches] returns the
    error of the lookup and leaves the node as it was: nothing is stored,
    executed or notified. *)
Theorem executeAndSave_unknown_parent
  (calldataRollupHeader : CalldataRollupHeader.t)
  (incompleteBatches : list batchFromRollup.t) (n : Node.t) (err : error) :
  big_Uint64 (CalldataRollupHeader.FirstBatchSequence calldataRollupHeader)
    <> L2GenesisSeqNo ->
  FetchBatch (Node.storage n)
    (CalldataRollupHeader.FirstCanonParentHash calldataRollupHeader) = Err err ->
  executeAndSaveIncompleteBatches rc calldataRollupHeader incompleteBatches n
  = (Err err, n).
Proof.
  intros Hseq Hfetch. unfold executeAndSaveIncompleteBatches.
  apply Z.eqb_neq in Hseq. rewrite Hseq. cbn [negb].
  unfold bind at 1. unfold bind at 1. unfold read. rewrite Hfetch.
  reflexivity.
Qed.

End ExecuteAndSave.

(** ** The reconstructor: the loop of [createIncompleteBatches] *)

Section Reconstruct.

Context `{Hasher} `{Genesis} `{Trie}.
Context `{RLP BatchHeader.t} `{RLP CalldataRollupHeader.t} `{RLP (list (list L2Tx))}.

Lemma canonicalCount_cons b bs :
  canonicalCount (b :: bs)
  = (if isCanonical b then 1 else 0) + canonicalCount bs.
Proof.
  unfold canonicalCount. destruct (isCanonical b) eqn:Hb.
  - rewrite filter_cons_True by done. simpl length. lia.
  - rewrite filter_cons_False by (rewrite Hb; done). lia.
Qed.

Lemma canonicalCount_nonneg bs : 0 <= canonicalCount bs.
Proof. unfold canonicalCount. lia. Qed.

Lemma canonicalCount_app bs1 bs2 :
  canonicalCount (bs1 ++ bs2) = canonicalCount bs1 + canonicalCount bs2.
Proof.
  unfold canonicalCount. rewrite filter_app, length_app. lia.
Qed.

Lemma canonicalCount_take_le k bs :
  canonicalCount (take k bs) <= canonicalCount bs.
Proof.
  rewrite <- (take_drop k bs) at 2. rewrite canonicalCount_app.
  pose proof (canonicalCount_nonneg (drop k bs)). lia.
Qed.

(** One iteration of the loop, read back from its result. *)
Lemma incompleteBatchesFrom_cons hdr l1Heights l1BlocksAtHeight startAtSeq idx
  currentHeight currentTime batchTransactions rest bs :
  incompleteBatchesFrom hdr l1Heights l1BlocksAtHeight startAtSeq idx
    currentHeight currentTime (batchTransactions :: rest) = Ok bs ->
  exists l1Height block enc timeDelta reorg bs',
    index l1Heights idx = Ok l1Height /\
    l1BlocksAtHeight !! l1Height = Some block /\
    index (CalldataRollupHeader.BatchTimeDeltas hdr) idx = Ok enc /\
    GobDecode enc = Ok timeDelta /\
    reorgedHeader (CalldataRollupHeader.ReOrgs hdr) idx = Ok reorg /\
    incompleteBatchesFrom hdr l1Heights l1BlocksAtHeight startAtSeq (S idx)
      (match reorg with Some _ => currentHeight | None => i64 (currentHeight + 1) end)
      (i64 (currentTime + big_Int64 timeDelta)) rest = Ok bs' /\
    bs =
      {| batchFromRollup.transactions := batchTransactions;
         batchFromRollup.seqNo := big_NewInt (i64 (startAtSeq + Z.of_nat idx));
         batchFromRollup.height :=
           big_NewInt (match reorg with
                       | Some _ => currentHeight
                       | None => i64 (currentHeight + 1)
                       end);
         batchFromRollup.txHash :=
           if Nat.eqb (length batchTransactions) 0 then EmptyRootHash
           else DeriveSha batchTransactions;
         batchFromRollup.time := u64 (i64 (currentTime + big_Int64 timeDelta));
         batchFromRollup.l1Proof := Block.Hash block;
         batchFromRollup.header := reorg;
         batchFromRollup.coinbase := CalldataRollupHeader.Coinbase hdr;
         batchFromRollup.baseFee := CalldataRollupHeader.BaseFee hdr;
         batchFromRollup.gasLimit := CalldataRollupHeader.GasLimit hdr |} :: bs'.
Proof.
  cbn [incompleteBatchesFrom]. intros Hrun.
  apply rbind_inv_ok in Hrun as (l1Height & Hheight & Hrun).
  apply rbind_inv_ok in Hrun as (block & Hblock & Hrun).
  apply rbind_inv_ok in Hrun as (enc & Henc & Hrun).
  apply rbind_inv_ok in Hrun as (timeDelta & Hdelta & Hrun).
  apply rbind_inv_ok in Hrun as (reorg & Hreorg & Hrun).
  apply rbind_inv_ok in Hrun as (bs' & Hrest & Hrun).
  injection Hrun as <-.
  exists l1Height, block, enc, timeDelta, reorg, bs'.
  destruct (l1BlocksAtHeight !! l1Height) as [block'|] eqn:Hlookup;
    [|discriminate]. injection Hblock as ->.
  destruct reorg; repeat split; assumption || reflexivity.
Qed.

Lemma incompleteBatchesFrom_length hdr l1Heights l1BlocksAtHeight startAtSeq txs :
  forall idx currentHeight currentTime bs,
    incompleteBatchesFrom hdr l1Heights l1BlocksAtHeight startAtSeq idx
      currentHeight currentTime txs = Ok bs ->
    length bs = length txs.
Proof.
  induction txs as [|tx rest IH]; intros idx h t bs Hrun.
  - injection Hrun as <-. reflexivity.
  - apply incompleteBatchesFrom_cons in Hrun
      as (? & ? & ? & ? & ? & bs' & _ & _ & _ & _ & _ & Hrest & ->).
    simpl. f_equal. eauto.
Qed.

(** The loop is reached only when everything before it has succeeded. *)
Lemma createIncompleteBatches_loop fuel s hdr txs head bs :
  createIncompleteBatches fuel s hdr txs head = Ok bs ->
  exists l1Heights l1BlocksAtHeight,
    incompleteBatchesFrom hdr l1Heights l1BlocksAtHeight
      (big_Int64 (CalldataRollupHeader.FirstBatchSequence hdr)) 0
      (i64 (big_Int64 (CalldataRollupHeader.FirstCanonBatchHeight hdr) - 1))
      (i64 (CalldataRollupHeader.StartTime hdr)) txs = Ok bs.
Proof.
  unfold createIncompleteBatches. intros Hrun.
  apply rbind_inv_ok in Hrun as (rollupL1Block & _ & Hrun).
  apply rbind_inv_ok in Hrun as (l1Heights & _ & Hrun).
  apply rbind_inv_ok in Hrun as (minHeight & _ & Hrun).
  apply rbind_inv_ok in Hrun as (l1BlocksAtHeight & _ & Hrun).
  eauto.
Qed.

(** *** Transaction roots *)

Lemma incompleteBatchesFrom_txHash hdr l1Heights l1BlocksAtHeight startAtSeq txs :
  forall idx currentHeight currentTime bs,
    incompleteBatchesFrom hdr l1Heights l1BlocksAtHeight startAtSeq idx
      currentHeight currentTime txs = Ok bs ->
    forall (i : nat) b batchTransactions,
      bs !! i = Some b -> txs !! i = Some batchTransactions ->
      batchFromRollup.transactions b = batchTransactions /\
      batchFromRollup.txHash b =
        match batchTransactions with
        | [] => EmptyRootHash
        | _ :: _ => DeriveSha batchTransactions
        end.
Proof.
  induction txs as [|tx rest IH]; intros idx h t bs Hrun i b batchTxs Hb Htx.
  - discriminate.
  - apply incompleteBatchesFrom_cons in Hrun
      as (? & ? & ? & ? & ? & bs' & _ & _ & _ & _ & _ & Hrest & ->).
    destruct i as [|i].
    + injection Hb as <-. injection Htx as <-. simpl.
      split; [reflexivity|]. destruct tx; reflexivity.
    + simpl in Hb, Htx. eapply IH; eauto.
Qed.

(** C6. When the reconstruction returns its batches, there is one for each
    transaction list, in order; a batch with no transaction has the
    empty-trie root as transaction root, and a batch with transactions has
    the root derived from them over a stack trie. *)
Theorem tx_root_of_reconstructed_batches fuel s hdr txs head bs :
  createIncompleteBatches fuel s hdr txs head = Ok bs ->
  length bs = length txs /\
  forall (i : nat) b batchTransactions,
    bs !! i = Some b -> txs !! i = Some batchTransactions ->
    batchFromRollup.transactions b = batchTransactions /\
    (batchTransactions = [] -> batchFromRollup.txHash b = EmptyRootHash) /\
    (batchTransactions <> [] ->
     batchFromRollup.txHash b = DeriveSha batchTransactions).
Proof.
  intros Hrun.
  apply createIncompleteBatches_loop in Hrun as (l1Heights & blocks & Hloop).
  split; [eapply incompleteBatchesFrom_length; eauto|].
  intros i b batchTxs Hb Htx.
  destruct (incompleteBatchesFrom_txHash _ _ _ _ _ _ _ _ _ Hloop i b batchTxs Hb Htx)
    as [Htxs Hroot].
  split; [assumption|]. destruct batchTxs; split; congruence.
Qed.

(** *** Heights *)

Lemma incompleteBatchesFrom_height hdr l1Heights l1BlocksAtHeight startAtSeq txs :
  forall idx currentHeight currentTime bs,
    incompleteBatchesFrom hdr l1Heights l1BlocksAtHeight startAtSeq idx
      currentHeight currentTime txs = Ok bs ->
    in_i64 currentHeight ->
    forall (k : nat) b,
      bs !! k = Some b ->
      batchFromRollup.height b
      = i64 (currentHeight + canonicalCount (take (S k) bs)).
Proof.
  induction txs as [|tx rest IH]; intros idx h t bs Hrun Hh k b Hb.
  - injection Hrun as <-. discriminate.
  - apply incompleteBatchesFrom_cons in Hrun
      as (? & ? & ? & ? & reorg & bs' & _ & _ & _ & _ & _ & Hrest & ->).
    destruct k as [|k].
    + injection Hb as <-. cbn [take batchFromRollup.height].
      rewrite canonicalCount_cons. unfold isCanonical, big_NewInt.
      cbn [batchFromRollup.header]. rewrite take_0.
      change (canonicalCount []) with 0.
      destruct reorg; [rewrite i64_id by (unfold in_i64 in *; lia)|]; f_equal; lia.
    + cbn [lookup] in Hb. simpl in Hb.
      rewrite (IH _ _ _ _ Hrest) with (k := k) (b := b); [| |assumption].
      * rewrite firstn_cons, canonicalCount_cons.
        unfold isCanonical at 1. cbn [batchFromRollup.header].
        destruct reorg.
        -- f_equal; lia.
        -- rewrite i64_add_l. f_equal; lia.
      * destruct reorg; [assumption|apply i64_range].
Qed.

Lemma canonicalCount_take_S (k : nat) bs b :
  bs !! k = Some b ->
  canonicalCount (take (S k) bs)
  = canonicalCount (take k bs) + (if isCanonical b then 1 else 0).
Proof.
  intros Hb. rewrite (take_S_r _ _ _ Hb), canonicalCount_app.
  rewrite canonicalCount_cons. change (canonicalCount []) with 0. lia.
Qed.

Lemma canonicalCount_take_mono (i j : nat) bs :
  (i <= j)%nat -> canonicalCount (take i bs) <= canonicalCount (take j bs).
Proof.
  intros Hij. replace i with (i `min` j)%nat by lia.
  rewrite <- take_take. apply canonicalCount_take_le.
Qed.

(** C7, as amended. The running height starts one below
    [FirstCanonBatchHeight] and is incremented once for each canonical batch,
    in 64-bit arithmetic. When [FirstCanonBatchHeight] is a non-negative
    [int64] and adding the rollup's canonical batches to it does not pass
    [2^63], a canonical batch at index [k] has the height
    [FirstCanonBatchHeight] plus the number of canonical batches before [k]; a
    reorg batch has the running height unchanged (one less than that sum);
    and of two canonical batches the later has the greater height. *)
Theorem heights_of_reconstructed_batches fuel s hdr txs head bs :
  createIncompleteBatches fuel s hdr txs head = Ok bs ->
  0 <= CalldataRollupHeader.FirstCanonBatchHeight hdr < 2 ^ 63 ->
  CalldataRollupHeader.FirstCanonBatchHeight hdr + canonicalCount bs <= 2 ^ 63 ->
  (forall (k : nat) b,
     bs !! k = Some b -> isCanonical b = true ->
     batchFromRollup.height b
     = CalldataRollupHeader.FirstCanonBatchHeight hdr + canonicalCount (take k bs)) /\
  (forall (k : nat) b,
     bs !! k = Some b -> isCanonical b = false ->
     batchFromRollup.height b
     = CalldataRollupHeader.FirstCanonBatchHeight hdr - 1 + canonicalCount (take k bs)) /\
  (forall (i j : nat) bi bj,
     (i < j)%nat -> bs !! i = Some bi -> bs !! j = Some bj ->
     isCanonical bi = true -> isCanonical bj = true ->
     batchFromRollup.height bi < batchFromRollup.height bj).
Proof.
  intros Hrun Hfirst Hlast.
  apply createIncompleteBatches_loop in Hrun as (l1Heights & blocks & Hloop).
  set (first := CalldataRollupHeader.FirstCanonBatchHeight hdr) in *.
  assert (Hformula : forall (k : nat) b, bs !! k = Some b ->
            batchFromRollup.height b
            = first - 1 + canonicalCount (take k bs)
              + (if isCanonical b then 1 else 0)).
  { intros k b Hb.
    rewrite (incompleteBatchesFrom_height _ _ _ _ _ _ _ _ _ Hloop (i64_range _) k b Hb).
    rewrite i64_add_l, (canonicalCount_take_S k bs b Hb).
    rewrite big_Int64_id by (unfold in_i64; lia).
    pose proof (canonicalCount_take_le (S k) bs) as Hle.
    rewrite (canonicalCount_take_S k bs b Hb) in Hle.
    pose proof (canonicalCount_nonneg (take k bs)).
    rewrite i64_id; [lia|]. unfold in_i64. destruct (isCanonical b); lia. }
  split; [|split].
  - intros k b Hb Hcanon. rewrite (Hformula k b Hb), Hcanon. lia.
  - intros k b Hb Hcanon. rewrite (Hformula k b Hb), Hcanon. lia.
  - intros i j bi bj Hij Hbi Hbj Hci Hcj.
    rewrite (Hformula i bi Hbi), (Hformula j bj Hbj), Hci, Hcj.
    pose proof (canonicalCount_take_mono (S i) j bs ltac:(lia)) as Hmono.
    rewrite (canonicalCount_take_S i bs bi Hbi), Hci in Hmono. lia.
Qed.

(** *** Times *)

Lemma index_lookup {A : Type} (l : list A) (i : nat) a :
  index l i = Ok a -> l !! i = Some a.
Proof. unfold index. destruct (l !! i); intros Hi; [congruence|discriminate]. Qed.

Lemma incompleteBatchesFrom_time hdr l1Heights l1BlocksAtHeight startAtSeq txs :
  forall idx currentHeight currentTime bs,
    incompleteBatchesFrom hdr l1Heights l1BlocksAtHeight startAtSeq idx
      currentHeight currentTime txs = Ok bs ->
    exists deltas,
      traverse GobDecode
        (take (length txs) (drop idx (CalldataRollupHeader.BatchTimeDeltas hdr)))
      = Ok deltas /\
      forall (k : nat) b,
        bs !! k = Some b ->
        batchFromRollup.time b = u64 (currentTime + sumZ (take (S k) deltas)).
Proof.
  induction txs as [|tx rest IH]; intros idx h t bs Hrun.
  - injection Hrun as <-. exists []. split; [reflexivity|]. discriminate.
  - apply incompleteBatchesFrom_cons in Hrun
      as (? & ? & enc & timeDelta & reorg & bs' & _ & _ & Henc & Hdelta & _ & Hrest & ->).
    apply index_lookup in Henc.
    destruct (IH _ _ _ _ Hrest) as (deltas & Hdeltas & Htimes).
    exists (timeDelta :: deltas). split.
    + rewrite (drop_S _ _ _ Henc). cbn [length take traverse].
      rewrite Hdelta. cbn [rbind]. rewrite Hdeltas. reflexivity.
    + intros [|k] b Hb.
      * injection Hb as <-. cbn [batchFromRollup.time take]. rewrite take_0.
        unfold sumZ. cbn [fold_right].
        rewrite u64_i64. apply u64_cong.
        replace (t + big_Int64 timeDelta - (t + (timeDelta + 0)))
          with (big_Int64 timeDelta - timeDelta) by lia.
        apply big_Int64_mod_eq.
      * simpl in Hb. rewrite (Htimes k b Hb).
        cbn [take sumZ fold_right]. fold (sumZ (take (S k) deltas)).
        apply u64_cong.
        replace (i64 (t + big_Int64 timeDelta) + sumZ (take (S k) deltas)
                 - (t + (timeDelta + sumZ (take (S k) deltas))))
          with ((i64 (t + big_Int64 timeDelta) - (t + big_Int64 timeDelta))
                + (big_Int64 timeDelta - timeDelta)) by lia.
        auto using mod64_add, i64_mod_eq, big_Int64_mod_eq.
Qed.

(** What [createIncompleteBatches] has gone through when it returns. *)
Lemma createIncompleteBatches_inv fuel s hdr txs head bs :
  createIncompleteBatches fuel s hdr txs head = Ok bs ->
  exists rollupL1Block l1Heights minHeight path,
    FetchBlock s head = Ok rollupL1Block /\
    calculateL1HeightsFromDeltas hdr txs = Ok l1Heights /\
    slices_Min l1Heights = Ok minHeight /\
    calcL1AncestorsOfHeight fuel s (big_NewInt (i64 minHeight)) rollupL1Block ∅
    = Ok path /\
    incompleteBatchesFrom hdr l1Heights path
      (big_Int64 (CalldataRollupHeader.FirstBatchSequence hdr)) 0
      (i64 (big_Int64 (CalldataRollupHeader.FirstCanonBatchHeight hdr) - 1))
      (i64 (CalldataRollupHeader.StartTime hdr)) txs = Ok bs.
Proof.
  intros Hrun. unfold createIncompleteBatches in Hrun.
  apply rbind_inv_ok in Hrun as (rollupL1Block & Hhead & Hrun).
  apply rbind_inv_ok in Hrun as (l1Heights & Hheights & Hrun).
  apply rbind_inv_ok in Hrun as (minHeight & Hmin & Hrun).
  apply rbind_inv_ok in Hrun as (path & Hpath & Hrun).
  exists rollupL1Block, l1Heights, minHeight, path.
  destruct (FetchBlock s head) as [b|e]; [|discriminate].
  injection Hhead as ->. auto.
Qed.

(** The loop goes on whatever the time deltas are, as long as there is one
    that decodes for each batch. *)
Lemma incompleteBatchesFrom_any_deltas hdr encs l1Heights l1BlocksAtHeight startAtSeq txs :
  forall idx currentHeight currentTime bs deltas currentTime',
    incompleteBatchesFrom hdr l1Heights l1BlocksAtHeight startAtSeq idx
      currentHeight currentTime txs = Ok bs ->
    traverse GobDecode (take (length txs) (drop idx encs)) = Ok deltas ->
    (length txs <= length (drop idx encs))%nat ->
    exists bs',
      incompleteBatchesFrom (withBatchTimeDeltas encs hdr) l1Heights l1BlocksAtHeight
        startAtSeq idx currentHeight currentTime' txs = Ok bs'.
Proof.
  induction txs as [|tx rest IH]; intros idx h t bs deltas t' Hrun Hdeltas Hlen.
  - exists []. reflexivity.
  - apply incompleteBatchesFrom_cons in Hrun
      as (l1Height & block & enc & timeDelta & reorg & bs' & Hheight & Hblock
          & _ & _ & Hreorg & Hrest & _).
    destruct (drop idx encs) as [|enc' encs'] eqn:Hdrop; [simpl in Hlen; lia|].
    cbn [length take traverse] in Hdeltas.
    apply rbind_inv_ok in Hdeltas as (delta' & Hdelta' & Hdeltas).
    apply rbind_inv_ok in Hdeltas as (deltas' & Hdeltas' & _).
    assert (Hlookup : encs !! idx = Some enc').
    { rewrite <- (Nat.add_0_r idx), <- lookup_drop, Hdrop. reflexivity. }
    assert (Hnext : drop (S idx) encs = encs').
    { rewrite (drop_S _ _ _ Hlookup) in Hdrop. congruence. }
    destruct (IH (S idx)
                (match reorg with Some _ => h | None => i64 (h + 1) end)
                _ bs' deltas' (i64 (t' + big_Int64 delta')) Hrest)
      as (bs'' & Hrest'').
    { rewrite Hnext. exact Hdeltas'. }
    { rewrite Hnext. simpl in Hlen. lia. }
    cbn [incompleteBatchesFrom]. rewrite Hheight. cbn [rbind].
    rewrite Hblock.
    cbn [withBatchTimeDeltas CalldataRollupHeader.BatchTimeDeltas
           CalldataRollupHeader.ReOrgs].
    unfold index. rewrite Hlookup. cbn [rbind]. rewrite Hdelta'. cbn [rbind].
    rewrite Hreorg. cbn [rbind].
    destruct reorg; rewrite Hrest''; cbn [rbind]; eexists; reflexivity.
Qed.

Lemma withBatchTimeDeltas_heights encs hdr txs :
  calculateL1HeightsFromDeltas (withBatchTimeDeltas encs hdr) txs
  = calculateL1HeightsFromDeltas hdr txs.
Proof. reflexivity. Qed.

(** C4, as amended. A negative entry of [BatchTimeDeltas] is not an error:
    every entry is decoded and added to the running time whatever its sign.
    When the reconstruction returns its batches, the time of the batch at
    index [k] is [StartTime] plus the sum of the decoded deltas up to [k],
    modulo [2^64]. And when it returns for a header, it returns for the same
    header with any other time deltas that decode, one for each batch,
    whatever their signs, with the times that these deltas give. *)
Theorem times_of_reconstructed_batches fuel s hdr txs head bs :
  createIncompleteBatches fuel s hdr txs head = Ok bs ->
  (exists deltas,
     traverse GobDecode
       (take (length txs) (CalldataRollupHeader.BatchTimeDeltas hdr)) = Ok deltas /\
     forall (k : nat) b,
       bs !! k = Some b ->
       batchFromRollup.time b
       = u64 (CalldataRollupHeader.StartTime hdr + sumZ (take (S k) deltas))) /\
  forall encs deltas,
    (length txs <= length encs)%nat ->
    traverse GobDecode (take (length txs) encs) = Ok deltas ->
    exists bs',
      createIncompleteBatches fuel s (withBatchTimeDeltas encs hdr) txs head = Ok bs' /\
      length bs' = length txs /\
      forall (k : nat) b,
        bs' !! k = Some b ->
        batchFromRollup.time b
        = u64 (CalldataRollupHeader.StartTime hdr + sumZ (take (S k) deltas)).
Proof.
  intros Hrun.
  assert (Htimes : forall hdr' bs',
             CalldataRollupHeader.StartTime hdr'
             = CalldataRollupHeader.StartTime hdr ->
             createIncompleteBatches fuel s hdr' txs head = Ok bs' ->
             exists deltas,
               traverse GobDecode
                 (take (length txs) (CalldataRollupHeader.BatchTimeDeltas hdr'))
               = Ok deltas /\
               forall (k : nat) b,
                 bs' !! k = Some b ->
                 batchFromRollup.time b
                 = u64 (CalldataRollupHeader.StartTime hdr
                        + sumZ (take (S k) deltas))).
  { intros hdr' bs' Hstart Hrun'.
    apply createIncompleteBatches_loop in Hrun' as (l1Heights & blocks & Hloop).
    destruct (incompleteBatchesFrom_time _ _ _ _ _ _ _ _ _ Hloop)
      as (deltas & Hdeltas & Htimes).
    exists deltas. split; [exact Hdeltas|].
    intros k b Hb. rewrite (Htimes k b Hb), Hstart. apply u64_cong.
    replace (i64 (CalldataRollupHeader.StartTime hdr) + sumZ (take (S k) deltas)
             - (CalldataRollupHeader.StartTime hdr + sumZ (take (S k) deltas)))
      with (i64 (CalldataRollupHeader.StartTime hdr)
            - CalldataRollupHeader.StartTime hdr) by lia.
    apply i64_mod_eq. }
  split; [exact (Htimes hdr bs eq_refl Hrun)|].
  intros encs deltas Hlen Hdeltas.
  apply createIncompleteBatches_inv in Hrun
    as (rollupL1Block & l1Heights & minHeight & path & Hhead & Hheights & Hmin
        & Hpath & Hloop).
  destruct (incompleteBatchesFrom_any_deltas hdr encs l1Heights path _ txs 0 _ _ bs
              deltas (i64 (CalldataRollupHeader.StartTime hdr)) Hloop Hdeltas Hlen)
    as (bs' & Hloop').
  assert (Hrun' : createIncompleteBatches fuel s (withBatchTimeDeltas encs hdr) txs
                    head = Ok bs').
  { unfold createIncompleteBatches. rewrite Hhead. cbn [rbind].
    rewrite withBatchTimeDeltas_heights, Hheights. cbn [rbind].
    rewrite Hmin. cbn [rbind]. rewrite Hpath. cbn [rbind]. exact Hloop'. }
  exists bs'. split; [exact Hrun'|].
  split; [eapply incompleteBatchesFrom_length; exact Hloop'|].
  destruct (Htimes (withBatchTimeDeltas encs hdr) bs' eq_refl Hrun') as (deltas' & Hdeltas' & Htimes').
  cbn [withBatchTimeDeltas CalldataRollupHeader.BatchTimeDeltas] in Hdeltas'.
  rewrite Hdeltas in Hdeltas'. injection Hdeltas' as <-. exact Htimes'.
Qed.

End Reconstruct.

(** ** The L1 ancestor resolver *)

Section Ancestors.

Variable s : Storage.t.
Variable fromHeight : Z.

Lemma FetchBlock_Ok h b : FetchBlock s h = Ok b -> Storage.blocks s !! h = Some b.
Proof. unfold FetchBlock. destruct (Storage.blocks s !! h); congruence. Qed.

Lemma FetchBlock_Err h e : FetchBlock s h = Err e -> e = ErrNotFound.
Proof. unfold FetchBlock. destruct (Storage.blocks s !! h); congruence. Qed.

Lemma ancestor_trans b p a : ancestor s b p -> ancestor s p a -> ancestor s b a.
Proof.
  induction 1 as [|b p' q Hfetch Hanc IH]; [auto|].
  intros Ha. eapply ancestor_parent; eauto.
Qed.

(** Whatever the storage, the walk puts the blocks it meets under their
    numbers, and fails only at a parent the storage does not have. *)
Lemma calcL1AncestorsOfHeight_walk fuel : forall toBlock path,
  match calcL1AncestorsOfHeight fuel s fromHeight toBlock path with
  | Ok path' =>
      forall z block,
        path' !! z = Some block ->
        path !! z = Some block \/
        (ancestor s toBlock block /\ Block.NumberU64 block = z)
  | Err e =>
      e = ErrFuel \/
      (e = ErrNotFound /\
       exists block, ancestor s toBlock block /\
                     FetchBlock s (Block.ParentHash block) = Err ErrNotFound)
  end.
Proof.
  induction fuel as [|fuel IH]; intros toBlock path; cbn [calcL1AncestorsOfHeight].
  - left. reflexivity.
  - destruct (Z.eqb_spec (Block.NumberU64 toBlock) (big_Uint64 fromHeight)) as [Heq|Hne].
    + intros z block Hz. rewrite lookup_insert in Hz. case_decide as Hk.
      * injection Hz as <-. right. split; [constructor|auto].
      * left. assumption.
    + destruct (FetchBlock s (Block.ParentHash toBlock)) as [p|e] eqn:Hfetch;
        cbn [rbind].
      * specialize (IH p (<[Block.NumberU64 toBlock := toBlock]> path)).
        destruct (calcL1AncestorsOfHeight fuel s fromHeight p _) as [path'|e].
        -- intros z block Hz. destruct (IH _ _ Hz) as [Hold|[Hanc Hnum]].
           ++ rewrite lookup_insert in Hold. case_decide as Hk.
              ** injection Hold as <-. right. split; [constructor|auto].
              ** left. assumption.
           ++ right. split; [|assumption].
              eapply ancestor_parent; eauto.
        -- destruct IH as [->|(-> & block & Hanc & Hmiss)]; [left; reflexivity|].
           right. split; [reflexivity|]. exists block. split; [|assumption].
           eapply ancestor_parent; eauto.
      * right. pose proof (FetchBlock_Err _ _ Hfetch) as ->.
        split; [reflexivity|]. exists toBlock. split; [constructor|assumption].
Qed.

(** On a chain, with fuel for the blocks down from [toBlock], the walk does
    not run out of fuel, and what it returns has every height from
    [fromHeight] to that of [toBlock], and leaves the others as they were. *)
Lemma calcL1AncestorsOfHeight_linked fuel : forall toBlock path k,
  linked s ->
  Storage.blocks s !! k = Some toBlock ->
  Block.NumberU64 toBlock < Z.of_nat fuel ->
  match calcL1AncestorsOfHeight fuel s fromHeight toBlock path with
  | Ok path' =>
      big_Uint64 fromHeight <= Block.NumberU64 toBlock /\
      (forall z, big_Uint64 fromHeight <= z <= Block.NumberU64 toBlock ->
                 is_Some (path' !! z)) /\
      (forall z, z < big_Uint64 fromHeight \/ Block.NumberU64 toBlock < z ->
                 path' !! z = path !! z)
  | Err e => e <> ErrFuel
  end.
Proof.
  induction fuel as [|fuel IH]; intros toBlock path k Hlinked Hstored Hfuel.
  - pose proof (big_Uint64_range (Block.Number toBlock)) as Hrange.
    unfold Block.NumberU64, in_u64 in *. lia.
  - cbn [calcL1AncestorsOfHeight].
    destruct (Z.eqb_spec (Block.NumberU64 toBlock) (big_Uint64 fromHeight)) as [Heq|Hne].
    + split; [lia|]. split.
      * intros z Hz. replace z with (Block.NumberU64 toBlock) by lia.
        rewrite lookup_insert_eq. eauto.
      * intros z Hz. apply lookup_insert_ne. lia.
    + destruct (FetchBlock s (Block.ParentHash toBlock)) as [p|e] eqn:Hfetch;
        cbn [rbind].
      * apply FetchBlock_Ok in Hfetch.
        pose proof (Hlinked _ _ _ Hstored Hfetch) as Hnum.
        specialize (IH p (<[Block.NumberU64 toBlock := toBlock]> path) _
                      Hlinked Hfetch ltac:(lia)).
        destruct (calcL1AncestorsOfHeight fuel s fromHeight p _) as [path'|e];
          [|assumption].
        destruct IH as (Hlo & Hcover & Hframe).
        split; [lia|]. split.
        -- intros z Hz.
           destruct (Z.eq_dec z (Block.NumberU64 toBlock)) as [->|Hz'].
           ++ rewrite Hframe by lia. rewrite lookup_insert_eq. eauto.
           ++ apply Hcover. lia.
        -- intros z Hz. rewrite Hframe by lia. apply lookup_insert_ne. lia.
      * apply FetchBlock_Err in Hfetch as ->. discriminate.
Qed.

End Ancestors.

Lemma l1HeightsFrom_range deltas txs : forall idx prevHeight l1Heights,
  l1HeightsFrom deltas idx prevHeight txs = Ok l1Heights ->
  Forall in_u64 l1Heights.
Proof.
  induction txs as [|tx rest IH]; intros idx prevHeight l1Heights Hrun.
  - injection Hrun as <-. constructor.
  - cbn [l1HeightsFrom] in Hrun. destruct (Nat.ltb 0 idx).
    + apply rbind_inv_ok in Hrun as (enc & _ & Hrun).
      apply rbind_inv_ok in Hrun as (l1Delta & _ & Hrun).
      destruct (_ <? 0); [discriminate|].
      apply rbind_inv_ok in Hrun as (tail & Htail & Hrun).
      injection Hrun as <-. constructor; [apply u64_range|eauto].
    + eauto.
Qed.

Lemma calculateL1HeightsFromDeltas_range hdr txs l1Heights :
  calculateL1HeightsFromDeltas hdr txs = Ok l1Heights -> Forall in_u64 l1Heights.
Proof.
  unfold calculateL1HeightsFromDeltas. intros Hrun.
  apply rbind_inv_ok in Hrun as (enc & _ & Hrun).
  apply rbind_inv_ok in Hrun as (referenceHeight & _ & Hrun).
  apply rbind_inv_ok in Hrun as (tail & Htail & Hrun).
  injection Hrun as <-.
  constructor; [apply big_Uint64_range|eapply l1HeightsFrom_range; eauto].
Qed.

Lemma fold_left_min_le l : forall x,
  fold_left Z.min l x <= x /\ Forall (fun y => fold_left Z.min l x <= y) l.
Proof.
  induction l as [|y rest IH]; intros x; cbn [fold_left].
  - split; [lia|constructor].
  - destruct (IH (Z.min x y)) as [Hle Hall]. split; [lia|].
    constructor; [lia|assumption].
Qed.

Lemma fold_left_min_elem l : forall x,
  fold_left Z.min l x = x \/ fold_left Z.min l x ∈ l.
Proof.
  induction l as [|y rest IH]; intros x; cbn [fold_left]; [left; reflexivity|].
  destruct (IH (Z.min x y)) as [Heq|Hin].
  - rewrite Heq. destruct (Z.min_spec x y) as [[_ ->]|[_ ->]];
      [left; reflexivity|right; left].
  - right. right. assumption.
Qed.

Lemma slices_Min_spec l m :
  slices_Min l = Ok m -> m ∈ l /\ Forall (fun y => m <= y) l.
Proof.
  destruct l as [|x rest]; [discriminate|]. cbn [slices_Min]. intros [= <-].
  destruct (fold_left_min_le rest x) as [Hle Hall].
  split; [|constructor; assumption].
  destruct (fold_left_min_elem rest x) as [->|Hin]; [left|right; assumption].
Qed.

(** C8, as amended. The resolver starts at the block of
    [compression_l1_head] and follows parent hashes down to the minimum of the
    heights decoded from the deltas. With fuel for the blocks below the head,
    on a storage whose L1 blocks form a chain and for heights below [2^63]:
    when it fails, a parent lookup has missed and the error is the storage's;
    when it returns, the map holds ancestors of the head under their heights,
    exactly the heights from the minimum to the head's, hence every height
    referenced by the deltas that is not above the head's height. *)
Theorem l1_ancestors_resolved (fuel : nat) (s : Storage.t)
  (hdr : CalldataRollupHeader.t) (txs : list (list L2Tx))
  (compressionL1Head : Z) (rollupL1Block : Block.t)
  (l1Heights : list Z) (minHeight : Z) :
  linked s ->
  FetchBlock s compressionL1Head = Ok rollupL1Block ->
  calculateL1HeightsFromDeltas hdr txs = Ok l1Heights ->
  slices_Min l1Heights = Ok minHeight ->
  minHeight < 2 ^ 63 ->
  Block.NumberU64 rollupL1Block < Z.of_nat fuel ->
  match calcL1AncestorsOfHeight fuel s (big_NewInt (i64 minHeight)) rollupL1Block ∅ with
  | Ok path =>
      (forall z block,
         path !! z = Some block ->
         ancestor s rollupL1Block block /\ Block.NumberU64 block = z) /\
      (forall z, is_Some (path !! z)
                 <-> minHeight <= z <= Block.NumberU64 rollupL1Block) /\
      (forall h, h ∈ l1Heights -> h <= Block.NumberU64 rollupL1Block ->
                 is_Some (path !! h))
  | Err e =>
      e = ErrNotFound /\
      exists block, ancestor s rollupL1Block block /\
                    FetchBlock s (Block.ParentHash block) = Err ErrNotFound
  end.
Proof.
  intros Hlinked Hhead Hheights Hmin Hsmall Hfuel.
  apply FetchBlock_Ok in Hhead.
  apply calculateL1HeightsFromDeltas_range in Hheights.
  destruct (slices_Min_spec _ _ Hmin) as [Hin Hleast].
  rewrite Forall_forall in Hheights, Hleast.
  pose proof (Hheights _ Hin) as Hrange. unfold in_u64 in Hrange.
  assert (Hfrom : big_Uint64 (big_NewInt (i64 minHeight)) = minHeight).
  { unfold big_NewInt. rewrite i64_id by (unfold in_i64; lia).
    apply big_Uint64_id. unfold in_u64. lia. }
  pose proof (calcL1AncestorsOfHeight_walk s (big_NewInt (i64 minHeight)) fuel
                rollupL1Block ∅) as Hwalk.
  pose proof (calcL1AncestorsOfHeight_linked s (big_NewInt (i64 minHeight)) fuel
                rollupL1Block ∅ _ Hlinked Hhead Hfuel) as Hchain.
  destruct (calcL1AncestorsOfHeight fuel s _ rollupL1Block ∅) as [path|e].
  - rewrite Hfrom in Hchain. destruct Hchain as (Hlo & Hcover & Hframe).
    assert (Hiff : forall z, is_Some (path !! z)
                             <-> minHeight <= z <= Block.NumberU64 rollupL1Block).
    { intros z. split; [|apply Hcover].
      intros [block Hz].
      destruct (Z.lt_ge_cases z minHeight) as [Hlt|Hge].
      { rewrite Hframe, lookup_empty in Hz by lia. discriminate. }
      destruct (Z.lt_ge_cases (Block.NumberU64 rollupL1Block) z) as [Hgt|Hle];
        [|lia].
      rewrite Hframe, lookup_empty in Hz by lia. discriminate. }
    split; [|split].
    + intros z block Hz. destruct (Hwalk _ _ Hz) as [Hold|Hanc]; [|assumption].
      rewrite lookup_empty in Hold. discriminate.
    + exact Hiff.
    + intros h Hh Hle. apply Hiff. split; [apply Hleast, Hh|assumption].
  - destruct Hwalk as [->|Hmiss]; [congruence|assumption].
Qed.

Lemma linkedb_linked s : linkedb s = true -> linked s.
Proof.
  unfold linkedb, linked. rewrite forallb_forall. intros Hall k b p Hb Hp.
  specialize (Hall (k, b)). cbn [snd] in Hall. rewrite Hp in Hall.
  apply Z.eqb_eq, Hall, list_elem_of_In, elem_of_map_to_list, Hb.
Qed.

(** ** The builder *)

Section Builder.

Context `{Hasher} `{Genesis} `{Trie}.
Context `{RLP BatchHeader.t} `{RLP CalldataRollupHeader.t} `{RLP (list (list L2Tx))}.

Lemma elem_of_reorgMapOf reorgedBatches b :
  big_Uint64 (Batch.SeqNo b) ∈ reorgMapOf reorgedBatches
  <-> nonCanonicalIn reorgedBatches b.
Proof.
  unfold reorgMapOf, nonCanonicalIn.
  rewrite elem_of_list_to_set, list_elem_of_In, in_map_iff.
  split; intros (r & Hr1 & Hr2); exists r.
  - apply list_elem_of_In in Hr2. auto.
  - apply list_elem_of_In in Hr1. auto.
Qed.

(** The loop after its first iteration. *)
Lemma compressBatches_next Blocks reorgMap batches :
  forall blocks i prev p,
    proofBlocks Blocks batches blocks ->
    compressBatches Blocks reorgMap (S i) prev (Some p) batches
    = Ok (map (reorgEntry reorgMap) batches,
          timeDeltas prev (map (fun b => BatchHeader.Time (Batch.Header b)) batches),
          heightDeltas p (map Block.Number blocks)).
Proof.
  induction batches as [|b rest IH]; intros blocks i prev p Hblocks.
  - inversion Hblocks; subst. reflexivity.
  - inversion Hblocks as [|? block ? blocks' Hblock Hrest]; subst.
    cbn [compressBatches]. rewrite Hblock. cbn [rbind Nat.eqb].
    rewrite (IH blocks' (S i) _ (Block.Number block) Hrest).
    reflexivity.
Qed.

Lemma compressBatches_first Blocks reorgMap batches blocks prev :
  proofBlocks Blocks batches blocks ->
  compressBatches Blocks reorgMap 0 prev None batches
  = Ok (map (reorgEntry reorgMap) batches,
        timeDeltas prev (map (fun b => BatchHeader.Time (Batch.Header b)) batches),
        l1HeightDeltasOf (map Block.Number blocks)).
Proof.
  intros Hblocks.
  destruct Hblocks as [|b block rest blocks' Hblock Hrest]; [reflexivity|].
  cbn [compressBatches]. rewrite Hblock. cbn [rbind Nat.eqb].
  rewrite (compressBatches_next _ _ _ blocks' 0 _ (Block.Number block) Hrest).
  reflexivity.
Qed.

Lemma transformToByteArray_length reorgs : forall reorgsBA,
  transformToByteArray reorgs = Ok reorgsBA -> length reorgsBA = length reorgs.
Proof.
  induction reorgs as [|[reorg|] rest IH]; intros reorgsBA Hrun;
    cbn [transformToByteArray] in Hrun; inv_rbind; subst; simpl; auto.
Qed.

Lemma transformToByteArray_lookup reorgs : forall reorgsBA (i : nat),
  transformToByteArray reorgs = Ok reorgsBA ->
  match reorgs !! i with
  | Some (Some reorg) =>
      exists enc, rlp_EncodeToBytes reorg = Ok enc /\ reorgsBA !! i = Some enc
  | Some None => reorgsBA !! i = Some []
  | None => reorgsBA !! i = None
  end.
Proof.
  induction reorgs as [|[reorg|] rest IH]; intros reorgsBA i Hrun;
    cbn [transformToByteArray] in Hrun; inv_rbind; subst.
  - reflexivity.
  - destruct i as [|i]; [simpl; eauto|]. apply (IH _ i). assumption.
  - destruct i as [|i]; [reflexivity|]. apply (IH _ i). assumption.
Qed.

Lemma transformToByteArray_ok reorgs :
  (forall reorg, Some reorg ∈ reorgs -> exists enc, rlp_EncodeToBytes reorg = Ok enc) ->
  exists reorgsBA, transformToByteArray reorgs = Ok reorgsBA.
Proof.
  induction reorgs as [|[reorg|] rest IH]; intros Henc.
  - eexists. reflexivity.
  - destruct (Henc reorg) as (enc & Hreorg); [left|].
    destruct IH as (reorgsBA & Hrest); [intros; apply Henc; right; assumption|].
    cbn [transformToByteArray]. rewrite Hreorg, Hrest. eexists. reflexivity.
  - destruct IH as (reorgsBA & Hrest); [intros; apply Henc; right; assumption|].
    cbn [transformToByteArray]. rewrite Hrest. eexists. reflexivity.
Qed.

(** What [createRollupHeader] returns for a non-empty rollup whose proof
    blocks are known and whose reorged headers encode. *)
Lemma createRollupHeader_ok s rollup first last blocks reorgsBA :
  let batches := Rollup.Batches rollup in
  let reorgedBatches :=
    filter (fun b => big_Uint64 (Batch.SeqNo first) <= big_Uint64 (Batch.SeqNo b)
                     <= big_Uint64 (Batch.SeqNo last))
      (Storage.nonCanonical s) in
  let reorgs := map (reorgEntry (reorgMapOf reorgedBatches)) batches in
  batches !! 0%nat = Some first ->
  batches !! (length batches - 1)%nat = Some last ->
  proofBlocks (Rollup.Blocks rollup) batches blocks ->
  transformToByteArray reorgs = Ok reorgsBA ->
  createRollupHeader s rollup
  = Ok {| CalldataRollupHeader.FirstBatchSequence := Batch.SeqNo first;
          CalldataRollupHeader.FirstCanonBatchHeight :=
            fst (firstCanon reorgs batches
                   (Batch.Number first, BatchHeader.ParentHash (Batch.Header first)));
          CalldataRollupHeader.FirstCanonParentHash :=
            snd (firstCanon reorgs batches
                   (Batch.Number first, BatchHeader.ParentHash (Batch.Header first)));
          CalldataRollupHeader.StartTime := BatchHeader.Time (Batch.Header first);
          CalldataRollupHeader.BatchTimeDeltas :=
            map GobEncode
              (timeDeltas (BatchHeader.Time (Batch.Header first))
                 (map (fun b => BatchHeader.Time (Batch.Header b)) batches));
          CalldataRollupHeader.ReOrgs :=
            if Nat.eqb (length reorgedBatches) 0 then [] else reorgsBA;
          CalldataRollupHeader.L1HeightDeltas :=
            map GobEncode (l1HeightDeltasOf (map Block.Number blocks));
          CalldataRollupHeader.Coinbase := BatchHeader.Coinbase (Batch.Header first);
          CalldataRollupHeader.BaseFee := BatchHeader.BaseFee (Batch.Header first);
          CalldataRollupHeader.GasLimit := BatchHeader.GasLimit (Batch.Header first) |}.
Proof.
  intros batches reorgedBatches reorgs Hfirst Hlast Hblocks Hreorgs.
  unfold createRollupHeader, index. fold batches.
  rewrite Hfirst, Hlast. cbn [rbind].
  unfold FetchNonCanonicalBatchesBetween. cbn [rbind].
  fold reorgedBatches. fold (reorgMapOf reorgedBatches).
  rewrite (compressBatches_first _ _ _ blocks _ Hblocks). cbn [rbind].
  fold reorgs. rewrite Hreorgs. cbn [rbind].
  destruct (firstCanon reorgs batches _) as [height parent]. reflexivity.
Qed.

(** A run of the loop that returns has found every proof block. *)
Lemma compressBatches_blocks Blocks reorgMap batches : forall i prev prevL1 r,
  compressBatches Blocks reorgMap i prev prevL1 batches = Ok r ->
  exists blocks, proofBlocks Blocks batches blocks.
Proof.
  induction batches as [|b rest IH]; intros i prev prevL1 r Hrun.
  - exists []. constructor.
  - cbn [compressBatches] in Hrun.
    destruct (Blocks !! BatchHeader.L1Proof (Batch.Header b)) as [block|] eqn:Hblock;
      [|discriminate].
    cbn [rbind] in Hrun.
    apply rbind_inv_ok in Hrun as (delta & _ & Hrun).
    apply rbind_inv_ok in Hrun as (tail & Htail & _).
    destruct (IH _ _ _ _ Htail) as (blocks & Hblocks).
    exists (block :: blocks). constructor; assumption.
Qed.

(** A header that the builder returns is the one of [createRollupHeader_ok]. *)
Lemma createRollupHeader_inv s rollup h :
  createRollupHeader s rollup = Ok h ->
  exists first last blocks reorgsBA,
    Rollup.Batches rollup !! 0%nat = Some first /\
    Rollup.Batches rollup !! (length (Rollup.Batches rollup) - 1)%nat = Some last /\
    proofBlocks (Rollup.Blocks rollup) (Rollup.Batches rollup) blocks /\
    transformToByteArray
      (map (reorgEntry
              (reorgMapOf
                 (filter (fun b => big_Uint64 (Batch.SeqNo first)
                                   <= big_Uint64 (Batch.SeqNo b)
                                   <= big_Uint64 (Batch.SeqNo last))
                    (Storage.nonCanonical s))))
         (Rollup.Batches rollup))
    = Ok reorgsBA.
Proof.
  intros Hrun. unfold createRollupHeader in Hrun.
  apply rbind_inv_ok in Hrun as (first & Hfirst & Hrun).
  apply rbind_inv_ok in Hrun as (last & Hlast & Hrun).
  apply rbind_inv_ok in Hrun as (reorged & Hquery & Hrun).
  apply rbind_inv_ok in Hrun as (compressed & Hloop & Hrun).
  unfold FetchNonCanonicalBatchesBetween in Hquery. injection Hquery as <-.
  destruct (compressBatches_blocks _ _ _ _ _ _ _ Hloop) as (blocks & Hblocks).
  fold (reorgMapOf
          (filter (fun b => big_Uint64 (Batch.SeqNo first)
                            <= big_Uint64 (Batch.SeqNo b)
                            <= big_Uint64 (Batch.SeqNo last))
             (Storage.nonCanonical s))) in Hloop.
  rewrite (compressBatches_first _ _ _ blocks _ Hblocks) in Hloop.
  injection Hloop as <-.
  apply rbind_inv_ok in Hrun as (reorgsBA & Hreorgs & _).
  apply index_inv_Ok in Hfirst. apply index_inv_Ok in Hlast.
  exists first, last, blocks, reorgsBA. auto.
Qed.

(** *** Deltas *)

Lemma timeDeltas_lookup_S times : forall prev (k : nat) t t',
  times !! k = Some t -> times !! S k = Some t' ->
  timeDeltas prev times !! S k = Some (i64 (u64 (t' - t))).
Proof.
  induction times as [|t0 rest IH]; intros prev k t t' Ht Ht'; [discriminate|].
  destruct k as [|k].
  - injection Ht as ->. destruct rest as [|t1 rest]; [discriminate|].
    injection Ht' as ->. reflexivity.
  - cbn [timeDeltas]. apply (IH t0 k t t'); assumption.
Qed.

Lemma heightDeltas_lookup_S heights : forall prev (k : nat) n n',
  heights !! k = Some n -> heights !! S k = Some n' ->
  heightDeltas prev heights !! S k = Some (i64 (big_Int64 n' - big_Int64 n)).
Proof.
  induction heights as [|n0 rest IH]; intros prev k n n' Hn Hn'; [discriminate|].
  destruct k as [|k].
  - injection Hn as ->. destruct rest as [|n1 rest]; [discriminate|].
    injection Hn' as ->. reflexivity.
  - cbn [heightDeltas]. apply (IH n0 k n n'); assumption.
Qed.

Lemma l1HeightDeltasOf_lookup_S heights (k : nat) n n' :
  heights !! k = Some n -> heights !! S k = Some n' ->
  l1HeightDeltasOf heights !! S k = Some (i64 (big_Int64 n' - big_Int64 n)).
Proof.
  destruct heights as [|n0 rest]; [discriminate|]. intros Hn Hn'.
  destruct k as [|k].
  - injection Hn as ->. destruct rest as [|n1 rest]; [discriminate|].
    injection Hn' as ->. reflexivity.
  - cbn [l1HeightDeltasOf]. apply (heightDeltas_lookup_S rest n0 k n n'); assumption.
Qed.

Lemma i64_u64 z : i64 (u64 z) = i64 z.
Proof. apply i64_cong, u64_mod_eq. Qed.

Lemma i64_sub_Int64 a b : i64 (big_Int64 a - big_Int64 b) = i64 (a - b).
Proof.
  apply i64_cong.
  replace (big_Int64 a - big_Int64 b - (a - b))
    with ((big_Int64 a - a) + - (big_Int64 b - b)) by lia.
  auto using mod64_add, mod64_opp, big_Int64_mod_eq.
Qed.

Lemma last_batch (batches : list Batch.t) first :
  batches !! 0%nat = Some first ->
  exists last, batches !! (length batches - 1)%nat = Some last.
Proof.
  intros Hfirst. apply lookup_lt_is_Some_2.
  apply lookup_lt_Some in Hfirst. lia.
Qed.

Lemma reorged_headers_encode (reorgMap : gset Z) (batches : list Batch.t) :
  (forall b, b ∈ batches -> exists enc, rlp_EncodeToBytes (Batch.Header b) = Ok enc) ->
  exists reorgsBA,
    transformToByteArray (map (reorgEntry reorgMap) batches) = Ok reorgsBA.
Proof.
  intros Henc. apply transformToByteArray_ok. intros reorg Hreorg.
  apply list_elem_of_In, in_map_iff in Hreorg as (b & Hentry & Hb).
  unfold reorgEntry in Hentry. case_decide; [|discriminate].
  injection Hentry as <-. apply Henc, list_elem_of_In, Hb.
Qed.

(** C3, as amended. A header that the builder returns (for a non-empty
    batch list whose proof blocks are in the rollup's block map) has
    [StartTime] the time of batch 0, time delta 0 at position 0 and the
    height of batch 0's proof block at position 0 of the L1 height deltas; at
    a position [i + 1] the time delta is the difference of the times of
    batches [i + 1] and [i], and the L1 height delta the difference of the
    heights of their proof blocks, whenever that difference is an [int64]
    (the differences are computed in 64-bit arithmetic). *)
Theorem deltas_of_rollup_header s rollup h :
  createRollupHeader s rollup = Ok h ->
  exists first blocks firstBlock,
    Rollup.Batches rollup !! 0%nat = Some first /\
    proofBlocks (Rollup.Blocks rollup) (Rollup.Batches rollup) blocks /\
    blocks !! 0%nat = Some firstBlock /\
    CalldataRollupHeader.StartTime h = BatchHeader.Time (Batch.Header first) /\
    CalldataRollupHeader.BatchTimeDeltas h !! 0%nat = Some (GobEncode 0) /\
    CalldataRollupHeader.L1HeightDeltas h !! 0%nat
    = Some (GobEncode (Block.Number firstBlock)) /\
    (forall (i : nat) b b',
       Rollup.Batches rollup !! i = Some b ->
       Rollup.Batches rollup !! S i = Some b' ->
       in_i64 (BatchHeader.Time (Batch.Header b') - BatchHeader.Time (Batch.Header b)) ->
       CalldataRollupHeader.BatchTimeDeltas h !! S i
       = Some (GobEncode (BatchHeader.Time (Batch.Header b')
                          - BatchHeader.Time (Batch.Header b)))) /\
    (forall (i : nat) block block',
       blocks !! i = Some block -> blocks !! S i = Some block' ->
       in_i64 (Block.Number block' - Block.Number block) ->
       CalldataRollupHeader.L1HeightDeltas h !! S i
       = Some (GobEncode (Block.Number block' - Block.Number block))).
Proof.
  intros Hheader.
  destruct (createRollupHeader_inv _ _ _ Hheader)
    as (first & last & blocks & reorgsBA & Hfirst & Hlast & Hblocks & Hreorgs).
  pose proof (createRollupHeader_ok s rollup first last blocks reorgsBA
                Hfirst Hlast Hblocks Hreorgs) as Hrun.
  rewrite Hheader in Hrun. injection Hrun as ->.
  destruct (Rollup.Batches rollup) as [|b0 rest] eqn:Hbatches; [discriminate|].
  injection Hfirst as ->.
  inversion Hblocks as [|? firstBlock ? blocks' Hblock Hrest]; subst blocks.
  exists first, (firstBlock :: blocks'), firstBlock.
  cbn [CalldataRollupHeader.StartTime CalldataRollupHeader.BatchTimeDeltas
       CalldataRollupHeader.L1HeightDeltas].
  split; [reflexivity|]. split; [assumption|].
  split; [reflexivity|]. split; [reflexivity|].
  split; [cbn; rewrite Z.sub_diag; reflexivity|].
  split; [reflexivity|]. split.
  - intros i b b' Hb Hb' Hrange.
    rewrite list_lookup_fmap.
    rewrite (timeDeltas_lookup_S _ _ i (BatchHeader.Time (Batch.Header b))
               (BatchHeader.Time (Batch.Header b'))).
    + cbn [fmap option_fmap option_map]. rewrite i64_u64, i64_id by assumption.
      reflexivity.
    + rewrite list_lookup_fmap, Hb. reflexivity.
    + rewrite list_lookup_fmap, Hb'. reflexivity.
  - intros i block block' Hi Hi' Hrange.
    rewrite list_lookup_fmap.
    rewrite (l1HeightDeltasOf_lookup_S _ i (Block.Number block) (Block.Number block')).
    + cbn [fmap option_fmap option_map].
      rewrite i64_sub_Int64, i64_id by assumption. reflexivity.
    + rewrite list_lookup_fmap, Hi. reflexivity.
    + rewrite list_lookup_fmap, Hi'. reflexivity.
Qed.

(** *** The reorgs array *)

(** The builder returns a header for a non-empty batch list whose proof
    blocks are in the rollup's block map and whose headers encode. *)
Lemma createRollupHeader_returns s rollup first blocks :
  Rollup.Batches rollup !! 0%nat = Some first ->
  proofBlocks (Rollup.Blocks rollup) (Rollup.Batches rollup) blocks ->
  (forall b, b ∈ Rollup.Batches rollup ->
             exists enc, rlp_EncodeToBytes (Batch.Header b) = Ok enc) ->
  exists h, createRollupHeader s rollup = Ok h.
Proof.
  intros Hfirst Hblocks Henc.
  destruct (last_batch _ _ Hfirst) as (last & Hlast).
  destruct (reorged_headers_encode
              (reorgMapOf
                 (filter (fun b => big_Uint64 (Batch.SeqNo first)
                                   <= big_Uint64 (Batch.SeqNo b)
                                   <= big_Uint64 (Batch.SeqNo last))
                    (Storage.nonCanonical s)))
              _ Henc) as (reorgsBA & Hreorgs).
  eexists.
  exact (createRollupHeader_ok s rollup first last blocks reorgsBA
           Hfirst Hlast Hblocks Hreorgs).
Qed.

(** C5. Take a header that the builder returns. When the storage's query
    for the non-canonical batches of the rollup's sequence range returns
    none, its [ReOrgs] is nil, which is not an array of one empty entry per
    batch. When the query returns a batch, [ReOrgs] has one entry per batch:
    the encoded header at the position of a batch whose sequence number is
    among those returned, the empty byte string at the others. *)
Theorem reorgs_of_rollup_header s rollup h :
  createRollupHeader s rollup = Ok h ->
  exists first last reorgedBatches,
    Rollup.Batches rollup !! 0%nat = Some first /\
    Rollup.Batches rollup !! (length (Rollup.Batches rollup) - 1)%nat = Some last /\
    FetchNonCanonicalBatchesBetween s
      (big_Uint64 (Batch.SeqNo first)) (big_Uint64 (Batch.SeqNo last))
    = Ok reorgedBatches /\
    (reorgedBatches = [] ->
     CalldataRollupHeader.ReOrgs h = [] /\
     CalldataRollupHeader.ReOrgs h
     <> replicate (length (Rollup.Batches rollup)) []) /\
    (reorgedBatches <> [] ->
     length (CalldataRollupHeader.ReOrgs h) = length (Rollup.Batches rollup) /\
     forall (i : nat) b,
       Rollup.Batches rollup !! i = Some b ->
       (nonCanonicalIn reorgedBatches b ->
        exists enc, rlp_EncodeToBytes (Batch.Header b) = Ok enc /\
                    CalldataRollupHeader.ReOrgs h !! i = Some enc) /\
       (~ nonCanonicalIn reorgedBatches b ->
        CalldataRollupHeader.ReOrgs h !! i = Some [])).
Proof.
  intros Hheader.
  destruct (createRollupHeader_inv _ _ _ Hheader)
    as (first & last & blocks & reorgsBA & Hfirst & Hlast & Hblocks & Hreorgs).
  pose proof (createRollupHeader_ok s rollup first last blocks reorgsBA
                Hfirst Hlast Hblocks Hreorgs) as Hrun.
  rewrite Hheader in Hrun. injection Hrun as ->.
  exists first, last. eexists.
  split; [assumption|]. split; [assumption|]. split; [reflexivity|].
  cbn [CalldataRollupHeader.ReOrgs].
  set (reorgedBatches := filter _ (Storage.nonCanonical s)) in *.
  split.
  - intros ->. cbn [length Nat.eqb]. split; [reflexivity|].
    destruct (Rollup.Batches rollup); [discriminate|]. discriminate.
  - intros Hsome.
    destruct reorgedBatches as [|r reorged']; [congruence|].
    cbn [length Nat.eqb].
    split.
    + rewrite (transformToByteArray_length _ _ Hreorgs), length_map. reflexivity.
    + intros i b Hb.
      pose proof (transformToByteArray_lookup _ _ i Hreorgs) as Hentry.
      rewrite list_lookup_fmap, Hb in Hentry.
      cbn [fmap option_fmap option_map] in Hentry. unfold reorgEntry in Hentry.
      split; intros Hcanon.
      * apply elem_of_reorgMapOf in Hcanon.
        rewrite decide_True in Hentry by assumption. exact Hentry.
      * rewrite decide_False in Hentry; [exact Hentry|].
        intros Hin. apply Hcanon, elem_of_reorgMapOf, Hin.
Qed.

End Builder.

(** ** Executing and saving the batches *)

Section Execute.

Context `{Hasher} `{Genesis} `{Trie}.
Context `{RLP BatchHeader.t} `{RLP CalldataRollupHeader.t} `{RLP (list (list L2Tx))}.

Variable rc : RollupCompression.
Variable calldataRollupHeader : CalldataRollupHeader.t.

Lemma FetchBatchBySeqNo_store_batch b s seq :
  FetchBatchBySeqNo (store_batch b s) seq
  = if decide (big_Uint64 (Batch.SeqNo b) = seq) then Ok b
    else FetchBatchBySeqNo s seq.
Proof.
  unfold FetchBatchBySeqNo, store_batch. cbn [Storage.batchesBySeq].
  rewrite lookup_insert. case_decide; reflexivity.
Qed.

Lemma FetchBatchBySeqNo_store_executed_batch b receipts s seq :
  FetchBatchBySeqNo (store_executed_batch b receipts s) seq
  = FetchBatchBySeqNo (store_batch b s) seq.
Proof. reflexivity. Qed.

Lemma FetchBatchBySeqNo_Err s seq e :
  FetchBatchBySeqNo s seq = Err e -> e = ErrNotFound.
Proof. unfold FetchBatchBySeqNo. destruct (_ !! _); congruence. Qed.

Lemma StoreBatch_run b n :
  StoreBatch b n = (Ok tt, node_after n (store_batch b (Node.storage n)) [EvStoreBatch b]).
Proof. reflexivity. Qed.

(** The four ways of one iteration. *)

Lemma executeAndSaveBatch_skip parentHash ib n b :
  FetchBatchBySeqNo (Node.storage n) (big_Uint64 (batchFromRollup.seqNo ib)) = Ok b ->
  executeAndSaveBatch rc calldataRollupHeader parentHash ib n
  = (Ok (if isCanonical ib then Batch.Hash b else parentHash), n).
Proof.
  intros Hfound. unfold executeAndSaveBatch, bind, read. rewrite Hfound.
  unfold isCanonical. destruct (batchFromRollup.header ib); reflexivity.
Qed.

Lemma executeAndSaveBatch_reorg parentHash ib n header :
  FetchBatchBySeqNo (Node.storage n) (big_Uint64 (batchFromRollup.seqNo ib))
  = Err ErrNotFound ->
  batchFromRollup.header ib = Some header ->
  let b := Batch.mk header (batchFromRollup.transactions ib) in
  executeAndSaveBatch rc calldataRollupHeader parentHash ib n
  = (Ok parentHash, node_after n (store_batch b (Node.storage n)) [EvStoreBatch b]).
Proof.
  intros Hmiss Hheader. unfold executeAndSaveBatch, bind, read.
  rewrite Hmiss, Hheader. reflexivity.
Qed.

Lemma executeAndSaveBatch_genesis parentHash ib n genBatch :
  FetchBatchBySeqNo (Node.storage n) (big_Uint64 (batchFromRollup.seqNo ib))
  = Err ErrNotFound ->
  batchFromRollup.header ib = None ->
  big_Uint64 (batchFromRollup.seqNo ib) = L2GenesisSeqNo ->
  CreateGenesisState (batchExecutor rc) (batchFromRollup.l1Proof ib)
    (batchFromRollup.time ib) (CalldataRollupHeader.Coinbase calldataRollupHeader)
    (CalldataRollupHeader.BaseFee calldataRollupHeader) = Ok genBatch ->
  executeAndSaveBatch rc calldataRollupHeader parentHash ib n
  = (Ok (Batch.Hash genBatch),
     node_after n (store_executed_batch genBatch [] (Node.storage n))
       [EvCreateGenesisState (batchFromRollup.l1Proof ib) (batchFromRollup.time ib)
          (CalldataRollupHeader.Coinbase calldataRollupHeader)
          (CalldataRollupHeader.BaseFee calldataRollupHeader);
        EvStoreBatch genBatch; EvStoreExecutedBatch genBatch [];
        EvOnBatchExecuted genBatch]).
Proof.
  intros Hmiss Hheader Hseq Hgen. unfold executeAndSaveBatch, bind, read.
  rewrite Hmiss, Hheader. cbn [errors_Is negb].
  apply Z.eqb_eq in Hseq. rewrite Hseq.
  unfold emit, lift. rewrite Hgen.
  unfold StoreBatch, StoreExecutedBatch, OnBatchExecuted, bind, emit, write, ret,
    node_after, store_executed_batch.
  cbn [Node.storage Node.events]. rewrite <- !app_assoc. reflexivity.
Qed.

Lemma executeAndSaveBatch_computed parentHash ib n computedBatch root :
  FetchBatchBySeqNo (Node.storage n) (big_Uint64 (batchFromRollup.seqNo ib))
  = Err ErrNotFound ->
  batchFromRollup.header ib = None ->
  big_Uint64 (batchFromRollup.seqNo ib) <> L2GenesisSeqNo ->
  ComputeBatch (batchExecutor rc) (contextOf rc parentHash ib) false = Ok computedBatch ->
  ComputedBatch.Commit computedBatch true = Ok root ->
  let b := ComputedBatch.Batch computedBatch in
  executeAndSaveBatch rc calldataRollupHeader parentHash ib n
  = (Ok (Batch.Hash b),
     node_after n
       (store_executed_batch b (ComputedBatch.Receipts computedBatch) (Node.storage n))
       [EvComputeBatch (contextOf rc parentHash ib); EvCommit b;
        EvStoreBatch b;
        EvStoreExecutedBatch b (ComputedBatch.Receipts computedBatch);
        EvOnBatchExecuted b]).
Proof.
  intros Hmiss Hheader Hseq Hcompute Hcommit. unfold executeAndSaveBatch, bind, read.
  rewrite Hmiss, Hheader. cbn [errors_Is negb].
  apply Z.eqb_neq in Hseq. rewrite Hseq.
  unfold computeBatch, bind, emit, lift. fold (contextOf rc parentHash ib).
  cbn [Node.storage Node.events]. rewrite Hcompute. rewrite Hcommit.
  unfold StoreBatch, StoreExecutedBatch, OnBatchExecuted, bind, emit, write, ret,
    node_after, store_executed_batch.
  cbn [Node.storage Node.events]. rewrite <- !app_assoc. reflexivity.
Qed.

(** One iteration that has returned is one of the four. *)
Lemma executeAndSaveBatch_inv parentHash ib n parentHash' n' :
  executeAndSaveBatch rc calldataRollupHeader parentHash ib n = (Ok parentHash', n') ->
  (exists b,
     FetchBatchBySeqNo (Node.storage n) (big_Uint64 (batchFromRollup.seqNo ib)) = Ok b /\
     parentHash' = (if isCanonical ib then Batch.Hash b else parentHash) /\
     n' = n) \/
  (FetchBatchBySeqNo (Node.storage n) (big_Uint64 (batchFromRollup.seqNo ib))
   = Err ErrNotFound /\
   ((exists header,
       batchFromRollup.header ib = Some header /\
       parentHash' = parentHash /\
       n' = node_after n
              (store_batch (Batch.mk header (batchFromRollup.transactions ib))
                 (Node.storage n))
              [EvStoreBatch (Batch.mk header (batchFromRollup.transactions ib))]) \/
    (exists genBatch,
       batchFromRollup.header ib = None /\
       big_Uint64 (batchFromRollup.seqNo ib) = L2GenesisSeqNo /\
       CreateGenesisState (batchExecutor rc) (batchFromRollup.l1Proof ib)
         (batchFromRollup.time ib) (CalldataRollupHeader.Coinbase calldataRollupHeader)
         (CalldataRollupHeader.BaseFee calldataRollupHeader) = Ok genBatch /\
       parentHash' = Batch.Hash genBatch /\
       n' = node_after n (store_executed_batch genBatch [] (Node.storage n))
              [EvCreateGenesisState (batchFromRollup.l1Proof ib)
                 (batchFromRollup.time ib)
                 (CalldataRollupHeader.Coinbase calldataRollupHeader)
                 (CalldataRollupHeader.BaseFee calldataRollupHeader);
               EvStoreBatch genBatch; EvStoreExecutedBatch genBatch [];
               EvOnBatchExecuted genBatch]) \/
    (exists computedBatch root,
       batchFromRollup.header ib = None /\
       big_Uint64 (batchFromRollup.seqNo ib) <> L2GenesisSeqNo /\
       ComputeBatch (batchExecutor rc) (contextOf rc parentHash ib) false
       = Ok computedBatch /\
       ComputedBatch.Commit computedBatch true = Ok root /\
       parentHash' = Batch.Hash (ComputedBatch.Batch computedBatch) /\
       n' = node_after n
              (store_executed_batch (ComputedBatch.Batch computedBatch)
                 (ComputedBatch.Receipts computedBatch) (Node.storage n))
              [EvComputeBatch (contextOf rc parentHash ib);
               EvCommit (ComputedBatch.Batch computedBatch);
               EvStoreBatch (ComputedBatch.Batch computedBatch);
               EvStoreExecutedBatch (ComputedBatch.Batch computedBatch)
                 (ComputedBatch.Receipts computedBatch);
               EvOnBatchExecuted (ComputedBatch.Batch computedBatch)]))).
Proof.
  intros Hrun.
  destruct (FetchBatchBySeqNo (Node.storage n)
              (big_Uint64 (batchFromRollup.seqNo ib))) as [b|e] eqn:Hlookup.
  - left. exists b. rewrite (executeAndSaveBatch_skip _ _ _ _ Hlookup) in Hrun.
    injection Hrun as <- <-. auto.
  - right. pose proof (FetchBatchBySeqNo_Err _ _ _ Hlookup) as ->.
    split; [reflexivity|].
    destruct (batchFromRollup.header ib) as [header|] eqn:Hheader.
    + left. exists header.
      rewrite (executeAndSaveBatch_reorg _ _ _ _ Hlookup Hheader) in Hrun.
      injection Hrun as <- <-. auto.
    + right.
      destruct (Z.eq_dec (big_Uint64 (batchFromRollup.seqNo ib)) L2GenesisSeqNo)
        as [Hseq|Hseq].
      * left.
        destruct (CreateGenesisState (batchExecutor rc) (batchFromRollup.l1Proof ib)
                    (batchFromRollup.time ib)
                    (CalldataRollupHeader.Coinbase calldataRollupHeader)
                    (CalldataRollupHeader.BaseFee calldataRollupHeader))
          as [genBatch|e] eqn:Hgen.
        -- exists genBatch.
           rewrite (executeAndSaveBatch_genesis _ _ _ _ Hlookup Hheader Hseq Hgen)
             in Hrun.
           injection Hrun as <- <-. auto.
        -- exfalso. revert Hrun. unfold executeAndSaveBatch, bind, read.
           rewrite Hlookup, Hheader. cbn [errors_Is negb].
           apply Z.eqb_eq in Hseq. rewrite Hseq.
           unfold emit, lift. rewrite Hgen. discriminate.
      * right.
        destruct (ComputeBatch (batchExecutor rc) (contextOf rc parentHash ib) false)
          as [computedBatch|e] eqn:Hcompute.
        -- destruct (ComputedBatch.Commit computedBatch true) as [root|e] eqn:Hcommit.
           ++ exists computedBatch, root.
              rewrite (executeAndSaveBatch_computed _ _ _ _ _ Hlookup Hheader Hseq
                         Hcompute Hcommit) in Hrun.
              injection Hrun as <- <-. auto 10.
           ++ exfalso. revert Hrun. unfold executeAndSaveBatch, bind, read.
              rewrite Hlookup, Hheader. cbn [errors_Is negb].
              apply Z.eqb_neq in Hseq. rewrite Hseq.
              unfold computeBatch, bind, emit, lift.
              fold (contextOf rc parentHash ib).
              cbn [Node.storage Node.events]. rewrite Hcompute, Hcommit.
              discriminate.
        -- exfalso. revert Hrun. unfold executeAndSaveBatch, bind, read.
           rewrite Hlookup, Hheader. cbn [errors_Is negb].
           apply Z.eqb_neq in Hseq. rewrite Hseq.
           unfold computeBatch, bind, emit, lift.
           fold (contextOf rc parentHash ib).
           cbn [Node.storage Node.events]. rewrite Hcompute. discriminate.
Qed.

(** The loop over two lists one after the other. *)
Lemma executeAndSaveFrom_app parentHash bs1 bs2 n :
  executeAndSaveFrom rc calldataRollupHeader parentHash (bs1 ++ bs2) n
  = bind (executeAndSaveFrom rc calldataRollupHeader parentHash bs1)
      (fun parentHash' =>
         executeAndSaveFrom rc calldataRollupHeader parentHash' bs2) n.
Proof.
  revert parentHash n. induction bs1 as [|ib rest IH]; intros parentHash n.
  - reflexivity.
  - cbn [app executeAndSaveFrom]. unfold bind.
    destruct (executeAndSaveBatch rc calldataRollupHeader parentHash ib n)
      as [[ph|e] n1]; [|reflexivity].
    rewrite IH. reflexivity.
Qed.

(** Reorg batches never fail and leave the parent hash as it is; each one
    that is not stored yet is stored with the carried header. *)
Lemma executeAndSaveFrom_reorgs reorgs : forall parentHash n,
  Forall (fun r => isCanonical r = false) reorgs ->
  executeAndSaveFrom rc calldataRollupHeader parentHash reorgs n
  = (Ok parentHash, storeReorgs n reorgs).
Proof.
  induction reorgs as [|r rest IH]; intros parentHash n Hall.
  - reflexivity.
  - inversion Hall as [|? ? Hreorg Hall']; subst.
    cbn [executeAndSaveFrom]. unfold storeReorgs. cbn [fold_left].
    unfold isCanonical in Hreorg.
    destruct (batchFromRollup.header r) as [header|] eqn:Hheader; [|discriminate].
    unfold storeReorg at 2. rewrite Hheader.
    destruct (FetchBatchBySeqNo (Node.storage n)
                (big_Uint64 (batchFromRollup.seqNo r))) as [b|e] eqn:Hfetch.
    + erewrite bind_ok.
      2:{ rewrite (executeAndSaveBatch_skip _ _ _ _ Hfetch).
          unfold isCanonical. rewrite Hheader. reflexivity. }
      apply IH. assumption.
    + apply FetchBatchBySeqNo_Err in Hfetch as Hnot. subst e.
      erewrite bind_ok.
      2:{ apply executeAndSaveBatch_reorg; eassumption. }
      apply IH. assumption.
Qed.

(** An iteration writes under the sequence number of its batch only. *)
Lemma executeAndSaveBatch_lookup parentHash ib n parentHash' n' seq :
  executorKeepsSeqNo rc ->
  reorgInPlace ib ->
  executeAndSaveBatch rc calldataRollupHeader parentHash ib n = (Ok parentHash', n') ->
  seq <> big_Uint64 (batchFromRollup.seqNo ib) ->
  FetchBatchBySeqNo (Node.storage n') seq = FetchBatchBySeqNo (Node.storage n) seq.
Proof.
  intros [Hcompute Hgenesis] Hplace Hrun Hne.
  apply executeAndSaveBatch_inv in Hrun
    as [(b & Hfound & _ & ->)
       |(Hmiss & [(header & Hheader & _ & ->)
                 |[(g & _ & Hseq & Hgen & _ & ->)
                  |(cb & root & _ & _ & Hcb & _ & _ & ->)]])].
  - reflexivity.
  - cbn [node_after Node.storage]. rewrite FetchBatchBySeqNo_store_batch.
    rewrite decide_False; [reflexivity|].
    unfold Batch.SeqNo. cbn [Batch.Header]. rewrite (Hplace _ Hheader). congruence.
  - cbn [node_after Node.storage].
    rewrite FetchBatchBySeqNo_store_executed_batch, FetchBatchBySeqNo_store_batch.
    rewrite decide_False; [reflexivity|].
    rewrite (Hgenesis _ _ _ _ _ Hgen). congruence.
  - cbn [node_after Node.storage].
    rewrite FetchBatchBySeqNo_store_executed_batch, FetchBatchBySeqNo_store_batch.
    rewrite decide_False; [reflexivity|].
    rewrite (Hcompute _ _ Hcb). cbn [contextOf BatchExecutionContext.SequencerNo].
    congruence.
Qed.

(** A run of the loop writes under the sequence numbers of its batches
    only. *)
Lemma executeAndSaveFrom_lookup ibs : forall parentHash n parentHash' n' seq,
  executorKeepsSeqNo rc ->
  Forall reorgInPlace ibs ->
  executeAndSaveFrom rc calldataRollupHeader parentHash ibs n = (Ok parentHash', n') ->
  seq ∉ lookupKeys ibs ->
  FetchBatchBySeqNo (Node.storage n') seq = FetchBatchBySeqNo (Node.storage n) seq.
Proof.
  induction ibs as [|ib rest IH]; intros parentHash n parentHash' n' seq
    Hexec Hplace Hrun Hseq.
  - injection Hrun as <- <-. reflexivity.
  - cbn [executeAndSaveFrom] in Hrun.
    apply bind_inv_ok in Hrun as (ph1 & n1 & Hstep & Hrest).
    inversion Hplace as [|? ? Hib Hplace']; subst.
    unfold lookupKeys in Hseq. rewrite fmap_cons in Hseq.
    apply not_elem_of_cons in Hseq as [Hne Hseq].
    rewrite (IH _ _ _ _ _ Hexec Hplace' Hrest Hseq).
    apply (executeAndSaveBatch_lookup _ _ _ _ _ seq Hexec Hib Hstep). assumption.
Qed.

(** The iteration of a canonical batch leaves the hash of the batch that
    the node has under its sequence number afterwards: the batch that was
    there, or the batch that the executor has returned. *)
Lemma executeAndSaveBatch_executed parentHash ib n parentHash' n' :
  executorKeepsSeqNo rc ->
  isCanonical ib = true ->
  executeAndSaveBatch rc calldataRollupHeader parentHash ib n = (Ok parentHash', n') ->
  exists b,
    parentHash' = Batch.Hash b /\
    FetchBatchBySeqNo (Node.storage n') (big_Uint64 (batchFromRollup.seqNo ib)) = Ok b /\
    ((FetchBatchBySeqNo (Node.storage n) (big_Uint64 (batchFromRollup.seqNo ib)) = Ok b /\
      n' = n) \/
     (FetchBatchBySeqNo (Node.storage n) (big_Uint64 (batchFromRollup.seqNo ib))
      = Err ErrNotFound /\
      executedAs rc calldataRollupHeader parentHash ib b /\
      exists evs, Node.events n' = Node.events n ++ evs /\ EvStoreBatch b ∈ evs)).
Proof.
  intros [Hcompute Hgenesis] Hcanon Hrun.
  apply executeAndSaveBatch_inv in Hrun
    as [(b & Hfound & -> & ->)
       |(Hmiss & [(header & Hheader & _)
                 |[(g & _ & Hseq & Hgen & -> & ->)
                  |(cb & root & _ & Hseq & Hcb & _ & -> & ->)]])].
  - rewrite Hcanon. exists b. auto.
  - unfold isCanonical in Hcanon. rewrite Hheader in Hcanon. discriminate.
  - exists g. split; [reflexivity|]. split.
    + cbn [node_after Node.storage].
      rewrite FetchBatchBySeqNo_store_executed_batch, FetchBatchBySeqNo_store_batch.
      rewrite decide_True; [reflexivity|].
      rewrite (Hgenesis _ _ _ _ _ Hgen). congruence.
    + right. split; [assumption|]. split.
      * unfold executedAs. rewrite decide_True by assumption. assumption.
      * eexists. split; [reflexivity|].
        apply list_elem_of_further, list_elem_of_here.
  - exists (ComputedBatch.Batch cb). split; [reflexivity|]. split.
    + cbn [node_after Node.storage].
      rewrite FetchBatchBySeqNo_store_executed_batch, FetchBatchBySeqNo_store_batch.
      rewrite decide_True; [reflexivity|].
      rewrite (Hcompute _ _ Hcb). reflexivity.
    + right. split; [assumption|]. split.
      * unfold executedAs. rewrite decide_False by assumption. eauto.
      * eexists. split; [reflexivity|].
        do 2 apply list_elem_of_further. apply list_elem_of_here.
Qed.

(** C2, as amended. The loop takes the batches in the order of the rollup.
    Take a rollup in which every carried reorg header bears the sequence
    number of its position and no two positions have the same sequence
    number, and an executor that returns batches with the sequence number it
    was asked for. In a run that has returned, take a canonical batch, the
    reorg batches after it and the next canonical batch. The canonical batch
    leaves as parent hash the hash of a batch [b]: the batch that the node
    held under that sequence number before the rollup was processed, or else
    the batch that the executor has returned at this iteration, which is then
    stored. Each reorg batch leaves the parent hash as it is; it is stored
    with the carried header as it is unless a batch with its sequence number
    is stored already, and then it is skipped. The next canonical batch is
    therefore processed with the hash of [b], and [b] is still what the node
    has under its sequence number: when the next canonical batch was not held
    before the rollup and is not genesis, the executor is given the hash of
    [b] as parent and its result is the new parent hash. *)
Theorem parent_hash_flows_through_canonical_batches
  (parentHash : Z) (before : list batchFromRollup.t) (canonical : batchFromRollup.t)
  (reorgs : list batchFromRollup.t) (next : batchFromRollup.t) (n : Node.t)
  (parentHash' : Z) (n' : Node.t) :
  executorKeepsSeqNo rc ->
  Forall reorgInPlace (before ++ canonical :: reorgs ++ [next]) ->
  NoDup (lookupKeys (before ++ canonical :: reorgs ++ [next])) ->
  isCanonical canonical = true ->
  Forall (fun r => isCanonical r = false) reorgs ->
  isCanonical next = true ->
  executeAndSaveFrom rc calldataRollupHeader parentHash
    (before ++ canonical :: reorgs ++ [next]) n = (Ok parentHash', n') ->
  exists parentHash0 n0 b n1,
    executeAndSaveFrom rc calldataRollupHeader parentHash before n
    = (Ok parentHash0, n0) /\
    executeAndSaveBatch rc calldataRollupHeader parentHash0 canonical n0
    = (Ok (Batch.Hash b), n1) /\
    ((FetchBatchBySeqNo (Node.storage n)
        (big_Uint64 (batchFromRollup.seqNo canonical)) = Ok b /\ n1 = n0) \/
     (FetchBatchBySeqNo (Node.storage n)
        (big_Uint64 (batchFromRollup.seqNo canonical)) = Err ErrNotFound /\
      executedAs rc calldataRollupHeader parentHash0 canonical b /\
      exists evs, Node.events n1 = Node.events n0 ++ evs /\ EvStoreBatch b ∈ evs)) /\
    executeAndSaveFrom rc calldataRollupHeader (Batch.Hash b) reorgs n1
    = (Ok (Batch.Hash b), storeReorgs n1 reorgs) /\
    executeAndSaveBatch rc calldataRollupHeader (Batch.Hash b) next
      (storeReorgs n1 reorgs)
    = (Ok parentHash', n') /\
    FetchBatchBySeqNo (Node.storage n')
      (big_Uint64 (batchFromRollup.seqNo canonical)) = Ok b /\
    (FetchBatchBySeqNo (Node.storage n) (big_Uint64 (batchFromRollup.seqNo next))
     = Err ErrNotFound ->
     big_Uint64 (batchFromRollup.seqNo next) <> L2GenesisSeqNo ->
     BatchExecutionContext.ParentPtr (contextOf rc (Batch.Hash b) next) = Batch.Hash b /\
     exists computedBatch evs,
       ComputeBatch (batchExecutor rc) (contextOf rc (Batch.Hash b) next) false
       = Ok computedBatch /\
       parentHash' = Batch.Hash (ComputedBatch.Batch computedBatch) /\
       Node.events n' = Node.events (storeReorgs n1 reorgs)
                        ++ EvComputeBatch (contextOf rc (Batch.Hash b) next) :: evs).
Proof.
  intros Hexec Hplace Hkeys Hcanon Hreorgs Hnext Hrun.
  rewrite executeAndSaveFrom_app in Hrun.
  apply bind_inv_ok in Hrun as (ph0 & n0 & Hbefore & Hrun).
  cbn [executeAndSaveFrom] in Hrun.
  apply bind_inv_ok in Hrun as (ph1 & n1 & Hstep & Hrun).
  rewrite executeAndSaveFrom_app in Hrun.
  apply bind_inv_ok in Hrun as (ph2 & n2 & Hmiddle & Hlast).
  cbn [executeAndSaveFrom] in Hlast.
  apply bind_inv_ok in Hlast as (ph3 & n3 & Hlast & Hend).
  injection Hend as <- <-.
  pose proof Hmiddle as Hmiddle'.
  rewrite (executeAndSaveFrom_reorgs _ _ _ Hreorgs) in Hmiddle'.
  injection Hmiddle' as <- <-.
  apply Forall_app in Hplace as [Hplace0 Hplace].
  apply Forall_cons in Hplace as [Hplace1 Hplace].
  apply Forall_app in Hplace as [Hplace2 Hplace3].
  rewrite Forall_singleton in Hplace3.
  unfold lookupKeys in Hkeys. rewrite fmap_app, fmap_cons, fmap_app in Hkeys.
  cbn [fmap list_fmap] in Hkeys.
  apply NoDup_app in Hkeys as (_ & Hbefore_keys & Hkeys).
  apply NoDup_cons in Hkeys as [Hcanon_key Hkeys].
  apply NoDup_app in Hkeys as (_ & Hreorg_keys & _).
  fold (lookupKeys before) in Hbefore_keys.
  fold (lookupKeys reorgs) in Hcanon_key, Hreorg_keys.
  assert (Hcanon_before :
            big_Uint64 (batchFromRollup.seqNo canonical) ∉ lookupKeys before).
  { intros Hin. apply (Hbefore_keys _ Hin). apply list_elem_of_here. }
  assert (Hnext_before :
            big_Uint64 (batchFromRollup.seqNo next) ∉ lookupKeys before).
  { intros Hin. apply (Hbefore_keys _ Hin). apply list_elem_of_further.
    apply elem_of_app. right. apply list_elem_of_here. }
  assert (Hnext_canon : big_Uint64 (batchFromRollup.seqNo next)
                        <> big_Uint64 (batchFromRollup.seqNo canonical)).
  { intros Heq. apply Hcanon_key. rewrite <- Heq. apply elem_of_app. right.
    apply list_elem_of_here. }
  assert (Hnext_reorgs :
            big_Uint64 (batchFromRollup.seqNo next) ∉ lookupKeys reorgs).
  { intros Hin. apply (Hreorg_keys _ Hin). apply list_elem_of_here. }
  assert (Hcanon_reorgs :
            big_Uint64 (batchFromRollup.seqNo canonical) ∉ lookupKeys reorgs).
  { intros Hin. apply Hcanon_key. apply elem_of_app. left. exact Hin. }
  pose proof (executeAndSaveFrom_lookup _ _ _ _ _ _ Hexec Hplace0 Hbefore
                Hcanon_before) as Hsame0.
  destruct (executeAndSaveBatch_executed _ _ _ _ _ Hexec Hcanon Hstep)
    as (b & -> & Hstored & Horigin).
  exists ph0, n0, b, n1.
  split; [exact Hbefore|]. split; [exact Hstep|].
  split.
  { rewrite <- Hsame0. exact Horigin. }
  split; [exact Hmiddle|]. split; [exact Hlast|].
  assert (Hstored2 : FetchBatchBySeqNo (Node.storage (storeReorgs n1 reorgs))
                       (big_Uint64 (batchFromRollup.seqNo canonical)) = Ok b).
  { rewrite (executeAndSaveFrom_lookup _ _ _ _ _ _ Hexec Hplace2 Hmiddle
               Hcanon_reorgs). exact Hstored. }
  split.
  { rewrite (executeAndSaveBatch_lookup _ _ _ _ _
               (big_Uint64 (batchFromRollup.seqNo canonical))
               Hexec Hplace3 Hlast); [exact Hstored2|congruence]. }
  intros Hmiss Hseq. split; [reflexivity|].
  assert (Hmiss2 : FetchBatchBySeqNo (Node.storage (storeReorgs n1 reorgs))
                     (big_Uint64 (batchFromRollup.seqNo next)) = Err ErrNotFound).
  { rewrite (executeAndSaveFrom_lookup _ _ _ _ _ _ Hexec Hplace2 Hmiddle
               Hnext_reorgs).
    rewrite (executeAndSaveBatch_lookup _ _ _ _ _
               (big_Uint64 (batchFromRollup.seqNo next))
               Hexec Hplace1 Hstep Hnext_canon).
    rewrite (executeAndSaveFrom_lookup _ _ _ _ _ _ Hexec Hplace0 Hbefore
               Hnext_before).
    exact Hmiss. }
  apply executeAndSaveBatch_inv in Hlast
    as [(b' & Hfound & _)
       |(_ & [(header & Hheader & _)
             |[(g & _ & Hgen & _)|(cb & root & _ & _ & Hcb & _ & -> & ->)]])].
  - congruence.
  - unfold isCanonical in Hnext. rewrite Hheader in Hnext. discriminate.
  - contradiction.
  - exists cb. eexists. split; [exact Hcb|]. split; reflexivity.
Qed.

(** *** Processing a rollup again *)

Lemma calcL1AncestorsOfHeight_blocks fuel s s' fromHeight :
  Storage.blocks s = Storage.blocks s' ->
  forall toBlock path,
    calcL1AncestorsOfHeight fuel s fromHeight toBlock path
    = calcL1AncestorsOfHeight fuel s' fromHeight toBlock path.
Proof.
  intros Hblocks. induction fuel as [|fuel IH]; intros toBlock path; [reflexivity|].
  cbn [calcL1AncestorsOfHeight]. unfold FetchBlock. rewrite Hblocks.
  destruct (_ =? _); [reflexivity|].
  destruct (Storage.blocks s' !! _); [|reflexivity]. cbn [rbind]. apply IH.
Qed.

Lemma createIncompleteBatches_blocks fuel s s' hdr txs head :
  Storage.blocks s = Storage.blocks s' ->
  createIncompleteBatches fuel s hdr txs head
  = createIncompleteBatches fuel s' hdr txs head.
Proof.
  intros Hblocks. unfold createIncompleteBatches, FetchBlock. rewrite Hblocks.
  destruct (Storage.blocks s' !! head); [|reflexivity]. cbn [rbind].
  destruct (calculateL1HeightsFromDeltas hdr txs); [|reflexivity]. cbn [rbind].
  destruct (slices_Min _); [|reflexivity]. cbn [rbind].
  rewrite (calcL1AncestorsOfHeight_blocks fuel s s' _ Hblocks). reflexivity.
Qed.

Lemma grows_refl s : grows s s.
Proof. repeat split; auto. Qed.

Lemma grows_trans s1 s2 s3 : grows s1 s2 -> grows s2 s3 -> grows s1 s3.
Proof.
  intros (Hb & Hs & Hh) (Hb' & Hs' & Hh'). repeat split; [congruence|auto|auto].
Qed.

Lemma grows_store_batch b s : grows s (store_batch b s).
Proof.
  repeat split; cbn [store_batch Storage.batchesBySeq Storage.batches].
  - intros seq Hseq. rewrite lookup_insert. case_decide; [eauto|assumption].
  - intros h Hh. rewrite lookup_insert. case_decide; [eauto|assumption].
Qed.

Lemma grows_store_executed_batch b receipts s :
  grows s (store_executed_batch b receipts s).
Proof.
  eapply grows_trans; [apply (grows_store_batch b)|].
  repeat split; auto.
Qed.

Lemma known_store_batch b s :
  is_Some (Storage.batchesBySeq (store_batch b s) !! big_Uint64 (Batch.SeqNo b)).
Proof. cbn [store_batch Storage.batchesBySeq]. rewrite lookup_insert_eq. eauto. Qed.

Lemma executeAndSaveBatch_grows parentHash ib n parentHash' n' :
  executorKeepsSeqNo rc ->
  reorgInPlace ib ->
  executeAndSaveBatch rc calldataRollupHeader parentHash ib n = (Ok parentHash', n') ->
  grows (Node.storage n) (Node.storage n') /\
  is_Some (Storage.batchesBySeq (Node.storage n')
             !! big_Uint64 (batchFromRollup.seqNo ib)).
Proof.
  intros [Hcomputed Hgenesis] Hplace Hrun.
  apply executeAndSaveBatch_inv in Hrun
    as [(b & Hfound & _ & ->)
       |(_ & [(header & Hheader & _ & ->)
             |[(g & _ & Hseq & Hgen & _ & ->)
              |(cb & root & _ & _ & Hcompute & _ & _ & ->)]])];
    cbn [node_after Node.storage].
  - split; [apply grows_refl|].
    unfold FetchBatchBySeqNo in Hfound.
    destruct (_ !! _) eqn:Hlookup; [eauto|discriminate].
  - split; [apply grows_store_batch|].
    rewrite <- (Hplace _ Hheader). apply known_store_batch.
  - split; [apply grows_store_executed_batch|].
    rewrite Hseq, <- (Hgenesis _ _ _ _ _ Hgen).
    apply (known_store_batch g).
  - split; [apply grows_store_executed_batch|].
    pose proof (Hcomputed _ _ Hcompute) as Hseq.
    cbn [contextOf BatchExecutionContext.SequencerNo] in Hseq.
    rewrite <- Hseq. apply (known_store_batch (ComputedBatch.Batch cb)).
Qed.

Lemma executeAndSaveFrom_grows ibs : forall parentHash n parentHash' n',
  executorKeepsSeqNo rc ->
  Forall reorgInPlace ibs ->
  executeAndSaveFrom rc calldataRollupHeader parentHash ibs n = (Ok parentHash', n') ->
  grows (Node.storage n) (Node.storage n') /\
  Forall (fun ib =>
            is_Some (Storage.batchesBySeq (Node.storage n')
                       !! big_Uint64 (batchFromRollup.seqNo ib))) ibs.
Proof.
  induction ibs as [|ib rest IH]; intros parentHash n parentHash' n' Hexec Hplace Hrun.
  - injection Hrun as <- <-. split; [apply grows_refl|constructor].
  - cbn [executeAndSaveFrom] in Hrun.
    apply bind_inv_ok in Hrun as (ph1 & n1 & Hstep & Hrest).
    inversion Hplace as [|? ? Hib Hplace']; subst.
    destruct (executeAndSaveBatch_grows _ _ _ _ _ Hexec Hib Hstep) as [Hgrow Hknown].
    destruct (IH _ _ _ _ Hexec Hplace' Hrest) as [Hgrow' Hall].
    split; [eapply grows_trans; eauto|].
    constructor; [|assumption]. destruct Hgrow' as (_ & Hseqs & _). auto.
Qed.

(** When every batch is known by its sequence number, the loop skips them
    all and leaves the node as it is. *)
Lemma executeAndSaveFrom_skips ibs : forall parentHash n,
  Forall (fun ib =>
            is_Some (Storage.batchesBySeq (Node.storage n)
                       !! big_Uint64 (batchFromRollup.seqNo ib))) ibs ->
  exists parentHash',
    executeAndSaveFrom rc calldataRollupHeader parentHash ibs n = (Ok parentHash', n).
Proof.
  induction ibs as [|ib rest IH]; intros parentHash n Hknown.
  - exists parentHash. reflexivity.
  - inversion Hknown as [|? ? [b Hb] Hknown']; subst.
    cbn [executeAndSaveFrom].
    assert (Hfound : FetchBatchBySeqNo (Node.storage n)
                       (big_Uint64 (batchFromRollup.seqNo ib)) = Ok b)
      by (unfold FetchBatchBySeqNo; rewrite Hb; reflexivity).
    destruct (IH (if isCanonical ib then Batch.Hash b else parentHash) n Hknown')
      as (ph' & Hrest).
    exists ph'. erewrite bind_ok; [exact Hrest|].
    apply executeAndSaveBatch_skip. assumption.
Qed.

(** C9, as amended. Let the first call of [ProcessExtRollup] succeed, on an
    engine whose executor returns batches with the sequence number it was
    asked for, and for a rollup whose carried reorg headers have the sequence
    number of their position. Then, on the node the first call has left,
    every batch of the rollup is found by its sequence number, and a second
    call with the same rollup returns the same header and leaves the node as
    it is: the storage is the same and nothing is stored, executed or
    notified again. *)
Theorem process_ext_rollup_twice (fuel : nat) (rollup : ExtRollup.t)
  (n n1 : Node.t) (transactionsPerBatch : list (list L2Tx))
  (incompleteBatches : list batchFromRollup.t) :
  decryptDecompressAndDeserialise rc (ExtRollup.BatchPayloads rollup)
  = Ok transactionsPerBatch ->
  decryptDecompressAndDeserialise rc (ExtRollup.CalldataRollupHeader rollup)
  = Ok calldataRollupHeader ->
  createIncompleteBatches fuel (Node.storage n) calldataRollupHeader
    transactionsPerBatch (RollupHeader.CompressionL1Head (ExtRollup.Header rollup))
  = Ok incompleteBatches ->
  executorKeepsSeqNo rc ->
  Forall reorgInPlace incompleteBatches ->
  ProcessExtRollup fuel rc rollup n = (Ok calldataRollupHeader, n1) ->
  Forall (fun ib =>
            exists b, FetchBatchBySeqNo (Node.storage n1)
                        (big_Uint64 (batchFromRollup.seqNo ib)) = Ok b)
    incompleteBatches /\
  ProcessExtRollup fuel rc rollup n1 = (Ok calldataRollupHeader, n1).
Proof.
  intros Htxs Hhdr Hbatches Hexec Hplace Hfirst.
  unfold ProcessExtRollup, bind, lift, read in Hfirst.
  rewrite Htxs, Hhdr, Hbatches in Hfirst.
  destruct (executeAndSaveIncompleteBatches rc calldataRollupHeader
              incompleteBatches n) as [[[]|e] n1'] eqn:Hsave; [|discriminate].
  injection Hfirst as ->.
  unfold executeAndSaveIncompleteBatches in Hsave.
  apply bind_inv_ok in Hsave as ([] & n0 & Hcheck & Hsave).
  apply bind_inv_ok in Hsave as (ph & n2 & Hloop & Hend).
  injection Hend as ->.
  assert (Hn0 : n0 = n).
  { destruct (negb _); [|injection Hcheck as <-; reflexivity].
    unfold bind, read in Hcheck.
    destruct (FetchBatch (Node.storage n) _); [|discriminate].
    injection Hcheck as <-. reflexivity. }
  subst n0.
  destruct (executeAndSaveFrom_grows _ _ _ _ _ Hexec Hplace Hloop)
    as [(Hblocks & Hseqs & Hhashes) Hknown].
  split.
  - eapply Forall_impl; [exact Hknown|]. intros ib [b Hb]. exists b.
    unfold FetchBatchBySeqNo. rewrite Hb. reflexivity.
  - unfold ProcessExtRollup, bind, lift, read.
    rewrite Htxs, Hhdr.
    rewrite (createIncompleteBatches_blocks fuel (Node.storage n1) (Node.storage n))
      by assumption.
    rewrite Hbatches.
    destruct (executeAndSaveFrom_skips _
                (CalldataRollupHeader.FirstCanonParentHash calldataRollupHeader)
                _ Hknown) as (ph' & Hskip).
    assert (Hcheck' :
              (if negb (big_Uint64
                          (CalldataRollupHeader.FirstBatchSequence calldataRollupHeader)
                        =? L2GenesisSeqNo)
               then
                 (found <~ read (fun s => Ok (FetchBatch s
                    (CalldataRollupHeader.FirstCanonParentHash calldataRollupHeader))) ;;
                  match found with
                  | Err err => fail err
                  | Ok _ => ret tt
                  end)%node
               else ret tt) n1 = (Ok tt, n1)).
    { destruct (negb _); [|reflexivity].
      unfold bind, read in Hcheck |- *.
      unfold FetchBatch in Hcheck |- *.
      destruct (Storage.batches (Node.storage n) !! _) eqn:Hparent; [|discriminate].
      destruct (Hhashes _ (mk_is_Some _ _ Hparent)) as [p ->]. reflexivity. }
    assert (Hagain : executeAndSaveIncompleteBatches rc calldataRollupHeader
                       incompleteBatches n1 = (Ok tt, n1)).
    { unfold executeAndSaveIncompleteBatches.
      erewrite bind_ok by exact Hcheck'.
      erewrite bind_ok by exact Hskip. reflexivity. }
    rewrite Hagain. reflexivity.
Qed.

End Execute.

(** ** The round trip *)

Section Chain.

Variable s : Storage.t.
Hypothesis Hlinked : linked s.

Local Abbreviation stored := (stored s).

Lemma ancestor_stored b a : ancestor s b a -> stored b -> stored a.
Proof.
  induction 1 as [|b p a Hfetch Hanc IH]; [auto|].
  intros _. apply IH. exists (Block.ParentHash b). apply FetchBlock_Ok, Hfetch.
Qed.

Lemma ancestor_le b a :
  ancestor s b a -> stored b -> Block.NumberU64 a <= Block.NumberU64 b.
Proof.
  induction 1 as [|b p a Hfetch Hanc IH]; [lia|].
  intros [k Hb]. pose proof (FetchBlock_Ok _ _ _ Hfetch) as Hp.
  pose proof (Hlinked _ _ _ Hb Hp) as Hnum.
  specialize (IH (ex_intro _ _ Hp)). lia.
Qed.



End Chain.

Lemma drop_eq_cons {A : Type} (l : list A) (i : nat) x t :
  drop i l = x :: t -> l !! i = Some x /\ drop (S i) l = t.
Proof.
  intros Hdrop. split.
  - rewrite <- (Nat.add_0_r i), <- lookup_drop, Hdrop. reflexivity.
  - replace (S i) with (i + 1)%nat by lia.
    rewrite <- drop_drop, Hdrop. reflexivity.
Qed.


Lemma index_Ok {A : Type} (l : list A) (i : nat) a :
  l !! i = Some a -> index l i = Ok a.
Proof. unfold index. intros ->. reflexivity. Qed.

(** *** The L1 heights come back from their deltas *)

Lemma l1HeightsFrom_heightDeltas deltas txs :
  forall (idx : nat) prev heights,
    (0 < idx)%nat ->
    drop idx deltas = map GobEncode (heightDeltas prev heights) ->
    length txs = length heights ->
    0 <= prev < 2 ^ 63 ->
    Forall (fun n => 0 <= n < 2 ^ 63) heights ->
    l1HeightsFrom deltas idx prev txs = Ok heights.
Proof.
  induction txs as [|tx rest IH]; intros idx prev heights Hidx Hdrop Hlen Hprev Hall.
  - destruct heights; [reflexivity|discriminate].
  - destruct heights as [|n hs]; [discriminate|].
    inversion Hall as [|? ? Hn Hhs]; subst.
    cbn [heightDeltas map] in Hdrop.
    apply drop_eq_cons in Hdrop as [Hat Hdrop].
    cbn [l1HeightsFrom].
    destruct (Nat.ltb_spec 0 idx) as [_|]; [|lia].
    rewrite (index_Ok _ _ _ Hat). cbn [rbind].
    rewrite GobDecode_GobEncode. cbn [rbind].
    assert (Hvalue : i64 (big_Int64 (i64 (big_Int64 n - big_Int64 prev)) + i64 prev) = n).
    { rewrite (big_Int64_id n), (big_Int64_id prev) by (unfold in_i64; lia).
      rewrite (i64_id (n - prev)) by (unfold in_i64; lia).
      rewrite (big_Int64_id (n - prev)) by (unfold in_i64; lia).
      rewrite (i64_id prev) by (unfold in_i64; lia).
      replace (n - prev + prev) with n by lia.
      apply i64_id. unfold in_i64. lia. }
    rewrite Hvalue.
    destruct (Z.ltb_spec n 0) as [|_]; [lia|].
    rewrite u64_id by (unfold in_u64; lia).
    rewrite (IH (S idx) n hs); [reflexivity|lia|assumption| |assumption|assumption].
    simpl in Hlen. lia.
Qed.

Lemma calculateL1HeightsFromDeltas_deltas hdr (txs : list (list L2Tx)) heights :
  CalldataRollupHeader.L1HeightDeltas hdr = map GobEncode (l1HeightDeltasOf heights) ->
  length txs = length heights ->
  txs <> [] ->
  Forall (fun n => 0 <= n < 2 ^ 63) heights ->
  calculateL1HeightsFromDeltas hdr txs = Ok heights.
Proof.
  intros Hdeltas Hlen Hne Hall.
  destruct txs as [|tx rest]; [congruence|].
  destruct heights as [|n hs]; [discriminate|].
  inversion Hall as [|? ? Hn Hhs]; subst.
  unfold calculateL1HeightsFromDeltas. rewrite Hdeltas.
  cbn [l1HeightDeltasOf map index lookup list_lookup rbind].
  rewrite GobDecode_GobEncode. cbn [rbind].
  rewrite big_Uint64_id by (unfold in_u64; lia).
  cbn [l1HeightsFrom Nat.ltb Nat.leb].
  rewrite (l1HeightsFrom_heightDeltas _ rest 1 n hs);
    [reflexivity|lia|reflexivity| |assumption|assumption].
  simpl in Hlen. lia.
Qed.

Section RoundTrip.

Context `{Hasher} `{Genesis} `{Trie}.
Context `{RLP BatchHeader.t} `{RLP CalldataRollupHeader.t} `{RLP (list (list L2Tx))}.

(** *** The batches come back from the header *)

Lemma running_time c prevT t :
  (c - prevT) mod 2 ^ 64 = 0 ->
  (i64 (c + big_Int64 (i64 (u64 (t - prevT)))) - t) mod 2 ^ 64 = 0.
Proof.
  intros Hc.
  replace (i64 (c + big_Int64 (i64 (u64 (t - prevT)))) - t)
    with ((i64 (c + big_Int64 (i64 (u64 (t - prevT))))
           - (c + big_Int64 (i64 (u64 (t - prevT)))))
          + ((big_Int64 (i64 (u64 (t - prevT))) - i64 (u64 (t - prevT)))
             + ((i64 (u64 (t - prevT)) - u64 (t - prevT))
                + ((u64 (t - prevT) - (t - prevT)) + (c - prevT))))) by lia.
  auto using mod64_add, i64_mod_eq, u64_mod_eq, big_Int64_mod_eq.
Qed.






(** *** The batches come back from the execution *)



Lemma reorgEntry_Some reorgMap b header :
  reorgEntry reorgMap b = Some header -> header = Batch.Header b.
Proof. unfold reorgEntry. case_decide; congruence. Qed.



(** *** The reorg entries come back from the array *)

Lemma reorgedHeader_nil (j : nat) : reorgedHeader [] j = Ok None.
Proof. reflexivity. Qed.

Lemma reorgedHeader_entries (reorgedBatches : list Batch.t) (batches : list Batch.t)
  reorgsBA :
  Forall headerRoundTrips batches ->
  transformToByteArray (map (reorgEntry (reorgMapOf reorgedBatches)) batches)
  = Ok reorgsBA ->
  forall (j : nat) b,
    batches !! j = Some b ->
    reorgedHeader (if Nat.eqb (length reorgedBatches) 0 then [] else reorgsBA) j
    = Ok (reorgEntry (reorgMapOf reorgedBatches) b).
Proof.
  intros Hcodec Hreorgs j b Hb.
  destruct reorgedBatches as [|r reorged'].
  - cbn [length Nat.eqb]. rewrite reorgedHeader_nil.
    unfold reorgEntry, reorgMapOf. cbn [map list_to_set].
    rewrite decide_False by set_solver. reflexivity.
  - cbn [length Nat.eqb].
    pose proof (transformToByteArray_length _ _ Hreorgs) as Hlen.
    rewrite length_map in Hlen.
    pose proof (transformToByteArray_lookup _ _ j Hreorgs) as Hentry.
    rewrite list_lookup_fmap, Hb in Hentry.
    cbn [fmap option_fmap option_map] in Hentry.
    unfold reorgedHeader.
    destruct (Nat.ltb_spec 0 (length reorgsBA)) as [_|Hempty].
    2:{ apply lookup_lt_Some in Hb. lia. }
    destruct (reorgEntry (reorgMapOf (r :: reorged')) b) as [header|] eqn:Hre.
    + destruct Hentry as (enc & Henc & Hat).
      pose proof (reorgEntry_Some _ _ _ Hre) as ->.
      rewrite Forall_forall in Hcodec.
      destruct (Hcodec b) as (enc' & Henc' & Hnonempty & Hdec).
      { apply list_elem_of_lookup. eauto. }
      assert (enc' = enc) as -> by congruence.
      unfold index. rewrite Hat. cbn [rbind].
      destruct enc as [|x enc]; [congruence|].
      cbn [length Nat.ltb Nat.leb]. rewrite Hdec. reflexivity.
    + unfold index. rewrite Hentry. reflexivity.
Qed.



End RoundTrip.
(** ** More of the engine *)

(** *** The envelope, sealed and opened *)

Section Envelope.

Context {A : Type} `{RLP A}.
Variable rc : RollupCompression.

Lemma serialiseCompressAndEncrypt_inv (obj : A) blob :
  serialiseCompressAndEncrypt rc obj = Ok blob ->
  exists serialised compressed,
    rlp_EncodeToBytes obj = Ok serialised /\
    CompressRollup (dataCompressionService rc) serialised = Ok compressed /\
    Encrypt (dataEncryptionService rc) compressed = Ok blob.
Proof.
  intros Hsealed. unfold serialiseCompressAndEncrypt in Hsealed.
  apply rbind_inv_ok in Hsealed as (serialised & Hser & Hsealed).
  apply rbind_inv_ok in Hsealed as (compressed & Hcomp & Hsealed).
  apply rbind_inv_ok in Hsealed as (encrypted & Henc & Hsealed).
  injection Hsealed as <-. eauto.
Qed.

Lemma decryptDecompressAndDeserialise_steps blob plain serialised (obj : A) :
  Decrypt (dataEncryptionService rc) blob = Ok plain ->
  Decompress (dataCompressionService rc) plain = Ok serialised ->
  rlp_DecodeBytes serialised = Ok obj ->
  decryptDecompressAndDeserialise rc blob = Ok obj.
Proof.
  intros Hplain Hserialised Hobj. unfold decryptDecompressAndDeserialise.
  rewrite Hplain. cbn [rbind]. rewrite Hserialised. cbn [rbind].
  rewrite Hobj. reflexivity.
Qed.

(** X1. With services that undo what they have done and a value that goes
    through the codec, the blob that [serialiseCompressAndEncrypt] returns
    for the value is opened by [decryptDecompressAndDeserialise] to the
    value. *)
Theorem open_what_was_sealed (obj : A) blob :
  servicesInvert rc ->
  decodesBack obj ->
  serialiseCompressAndEncrypt rc obj = Ok blob ->
  decryptDecompressAndDeserialise rc blob = Ok obj.
Proof.
  intros [Hcompress Hencrypt] Hcodec Hsealed.
  apply serialiseCompressAndEncrypt_inv in Hsealed
    as (serialised & compressed & Hser & Hcomp & Henc).
  apply (decryptDecompressAndDeserialise_steps blob compressed serialised).
  - apply Hencrypt. assumption.
  - apply Hcompress. assumption.
  - apply Hcodec. assumption.
Qed.

End Envelope.

Section BuilderCoverage.

Context `{Hasher} `{Genesis} `{Trie}.
Context `{RLP BatchHeader.t} `{RLP CalldataRollupHeader.t} `{RLP (list (list L2Tx))}.

(** X2. What [CreateExtRollup] returns has the header of the rollup as it
    is; with services that undo what they have done and a codec that the
    header and the transactions go through, its payload opens to the
    transactions of the batches, one list per batch in the order of the
    rollup, and its calldata header opens to the header that
    [createRollupHeader] returns. *)
Theorem CreateExtRollup_opens rc s r ext :
  servicesInvert rc ->
  (forall h, createRollupHeader s r = Ok h -> decodesBack h) ->
  decodesBack (map Batch.Transactions (Rollup.Batches r)) ->
  CreateExtRollup rc s r = Ok ext ->
  ExtRollup.Header ext = Rollup.Header r /\
  decryptDecompressAndDeserialise rc (ExtRollup.BatchPayloads ext)
  = Ok (map Batch.Transactions (Rollup.Batches r)) /\
  exists h,
    createRollupHeader s r = Ok h /\
    decryptDecompressAndDeserialise rc (ExtRollup.CalldataRollupHeader ext) = Ok h.
Proof.
  intros [Hcompress Hencrypt] Hheader Htxs Hrun.
  unfold CreateExtRollup in Hrun.
  apply rbind_inv_ok in Hrun as (h & Hh & Hrun).
  apply rbind_inv_ok in Hrun as (encryptedHeader & Hsealed & Hrun).
  apply rbind_inv_ok in Hrun as (encryptedTransactions & Hpayload & Hrun).
  injection Hrun as <-.
  cbn [ExtRollup.Header ExtRollup.BatchPayloads ExtRollup.CalldataRollupHeader].
  apply serialiseCompressAndEncrypt_inv in Hsealed
    as (ser1 & comp1 & Hser1 & Hcomp1 & Henc1).
  apply serialiseCompressAndEncrypt_inv in Hpayload
    as (ser2 & comp2 & Hser2 & Hcomp2 & Henc2).
  split; [reflexivity|]. split.
  - apply (decryptDecompressAndDeserialise_steps rc _ comp2 ser2); auto.
  - exists h. split; [assumption|].
    apply (decryptDecompressAndDeserialise_steps rc _ comp1 ser1); auto.
    apply (Hheader h Hh). assumption.
Qed.

(** A proof block that is missing stops the loop of the builder with a
    nil dereference. *)
Lemma compressBatches_missing_block Blocks reorgMap batches :
  forall i prev prevL1 b,
    i = 0%nat \/ is_Some prevL1 ->
    b ∈ batches ->
    Blocks !! BatchHeader.L1Proof (Batch.Header b) = None ->
    compressBatches Blocks reorgMap i prev prevL1 batches
    = Err (ErrPanic "nil pointer dereference").
Proof.
  induction batches as [|batch rest IH]; intros i prev prevL1 b Hi Hb Hmissing.
  - inversion Hb.
  - cbn [compressBatches].
    destruct (Blocks !! BatchHeader.L1Proof (Batch.Header batch)) as [block|] eqn:Hblock.
    + cbn [rbind].
      assert (Hrest : b ∈ rest).
      { apply elem_of_cons in Hb as [->|Hb]; [congruence|assumption]. }
      rewrite (IH (S i) _ (Some (Block.Number block)) b); eauto.
      destruct Hi as [->|[p ->]]; [reflexivity|].
      destruct (Nat.eqb i 0); reflexivity.
    + reflexivity.
Qed.

(** X3. [CreateExtRollup] does not return an error for a rollup it cannot
    compress: on a rollup with no batch it panics with an index out of
    range, and on a rollup one of whose batches has an L1 proof that is not
    in the rollup's block map it panics with a nil dereference. *)
Theorem CreateExtRollup_panics rc s r :
  (Rollup.Batches r = [] ->
   CreateExtRollup rc s r = Err (ErrPanic "index out of range")) /\
  (forall b,
     b ∈ Rollup.Batches r ->
     Rollup.Blocks r !! BatchHeader.L1Proof (Batch.Header b) = None ->
     CreateExtRollup rc s r = Err (ErrPanic "nil pointer dereference")).
Proof.
  split.
  - intros Hempty. unfold CreateExtRollup, createRollupHeader.
    rewrite Hempty. reflexivity.
  - intros b Hb Hmissing. unfold CreateExtRollup, createRollupHeader, index.
    destruct (Rollup.Batches r !! 0%nat) as [first|] eqn:Hfirst.
    2:{ apply lookup_ge_None in Hfirst.
        destruct (Rollup.Batches r); [inversion Hb|simpl in Hfirst; lia]. }
    destruct (last_batch _ _ Hfirst) as (last & Hlast).
    rewrite Hlast. cbn [rbind]. unfold FetchNonCanonicalBatchesBetween. cbn [rbind].
    rewrite (compressBatches_missing_block _ _ _ 0%nat _ None b); auto.
Qed.

Lemma timeDeltas_length times : forall prev,
  length (timeDeltas prev times) = length times.
Proof. induction times; intros prev; simpl; auto. Qed.

Lemma heightDeltas_length heights : forall prev,
  length (heightDeltas prev heights) = length heights.
Proof. induction heights; intros prev; simpl; auto. Qed.

Lemma l1HeightDeltasOf_length heights :
  length (l1HeightDeltasOf heights) = length heights.
Proof. destruct heights; simpl; auto using heightDeltas_length. Qed.

(** The header that the builder returns, field by field. *)
Lemma createRollupHeader_fields s rollup h :
  createRollupHeader s rollup = Ok h ->
  exists first last blocks reorgsBA,
    let batches := Rollup.Batches rollup in
    let reorgedBatches :=
      filter (fun b => big_Uint64 (Batch.SeqNo first) <= big_Uint64 (Batch.SeqNo b)
                       <= big_Uint64 (Batch.SeqNo last))
        (Storage.nonCanonical s) in
    let reorgs := map (reorgEntry (reorgMapOf reorgedBatches)) batches in
    batches !! 0%nat = Some first /\
    batches !! (length batches - 1)%nat = Some last /\
    proofBlocks (Rollup.Blocks rollup) batches blocks /\
    transformToByteArray reorgs = Ok reorgsBA /\
    h = {| CalldataRollupHeader.FirstBatchSequence := Batch.SeqNo first;
           CalldataRollupHeader.FirstCanonBatchHeight :=
             fst (firstCanon reorgs batches
                    (Batch.Number first, BatchHeader.ParentHash (Batch.Header first)));
           CalldataRollupHeader.FirstCanonParentHash :=
             snd (firstCanon reorgs batches
                    (Batch.Number first, BatchHeader.ParentHash (Batch.Header first)));
           CalldataRollupHeader.StartTime := BatchHeader.Time (Batch.Header first);
           CalldataRollupHeader.BatchTimeDeltas :=
             map GobEncode
               (timeDeltas (BatchHeader.Time (Batch.Header first))
                  (map (fun b => BatchHeader.Time (Batch.Header b)) batches));
           CalldataRollupHeader.ReOrgs :=
             if Nat.eqb (length reorgedBatches) 0 then [] else reorgsBA;
           CalldataRollupHeader.L1HeightDeltas :=
             map GobEncode (l1HeightDeltasOf (map Block.Number blocks));
           CalldataRollupHeader.Coinbase := BatchHeader.Coinbase (Batch.Header first);
           CalldataRollupHeader.BaseFee := BatchHeader.BaseFee (Batch.Header first);
           CalldataRollupHeader.GasLimit := BatchHeader.GasLimit (Batch.Header first) |}.
Proof.
  intros Hheader.
  destruct (createRollupHeader_inv _ _ _ Hheader)
    as (first & last & blocks & reorgsBA & Hfirst & Hlast & Hblocks & Hreorgs).
  pose proof (createRollupHeader_ok s rollup first last blocks reorgsBA
                Hfirst Hlast Hblocks Hreorgs) as Hrun.
  rewrite Hheader in Hrun. injection Hrun as ->.
  exists first, last, blocks, reorgsBA. cbv zeta. auto.
Qed.

(** X4. A header that the builder returns has the sequence number, the
    coinbase, the base fee and the gas limit of batch 0, and one time delta
    and one L1 height delta per batch of the rollup. *)
Theorem fields_of_rollup_header s rollup h :
  createRollupHeader s rollup = Ok h ->
  exists first,
    Rollup.Batches rollup !! 0%nat = Some first /\
    CalldataRollupHeader.FirstBatchSequence h = Batch.SeqNo first /\
    CalldataRollupHeader.Coinbase h = BatchHeader.Coinbase (Batch.Header first) /\
    CalldataRollupHeader.BaseFee h = BatchHeader.BaseFee (Batch.Header first) /\
    CalldataRollupHeader.GasLimit h = BatchHeader.GasLimit (Batch.Header first) /\
    length (CalldataRollupHeader.BatchTimeDeltas h) = length (Rollup.Batches rollup) /\
    length (CalldataRollupHeader.L1HeightDeltas h) = length (Rollup.Batches rollup).
Proof.
  intros Hheader.
  destruct (createRollupHeader_fields _ _ _ Hheader)
    as (first & last & blocks & reorgsBA & Hfirst & _ & Hblocks & _ & ->).
  exists first.
  cbn [CalldataRollupHeader.FirstBatchSequence CalldataRollupHeader.Coinbase
       CalldataRollupHeader.BaseFee CalldataRollupHeader.GasLimit
       CalldataRollupHeader.BatchTimeDeltas CalldataRollupHeader.L1HeightDeltas].
  repeat (split; [solve [auto]|]).
  split.
  - rewrite length_map, timeDeltas_length, length_map. reflexivity.
  - rewrite length_map, l1HeightDeltasOf_length, length_map.
    symmetry. apply (Forall2_length _ _ _ Hblocks).
Qed.

(** The first batch without a reorg entry gives the pair; batch 0's stays
    when every batch has one. *)
Lemma firstCanon_first reorgMap default : forall batches (k : nat) b,
  batches !! k = Some b ->
  reorgEntry reorgMap b = None ->
  (forall (j : nat) b', (j < k)%nat -> batches !! j = Some b' ->
                        reorgEntry reorgMap b' <> None) ->
  firstCanon (map (reorgEntry reorgMap) batches) batches default
  = (Batch.Number b, BatchHeader.ParentHash (Batch.Header b)).
Proof.
  induction batches as [|b0 rest IH]; intros k b Hk Hcanon Hbefore; [discriminate|].
  destruct k as [|k].
  - injection Hk as ->. cbn [map firstCanon]. rewrite Hcanon. reflexivity.
  - cbn [map firstCanon].
    destruct (reorgEntry reorgMap b0) as [header|] eqn:Hentry.
    + apply (IH k b Hk Hcanon). intros j b' Hj Hb'.
      apply (Hbefore (S j) b'); [lia|exact Hb'].
    + exfalso. apply (Hbefore 0%nat b0); [lia|reflexivity|exact Hentry].
Qed.

Lemma firstCanon_none reorgMap default : forall batches,
  (forall b, b ∈ batches -> reorgEntry reorgMap b <> None) ->
  firstCanon (map (reorgEntry reorgMap) batches) batches default = default.
Proof.
  induction batches as [|b0 rest IH]; intros Hall; [reflexivity|].
  cbn [map firstCanon].
  destruct (reorgEntry reorgMap b0) as [header|] eqn:Hentry.
  - apply IH. intros b Hb. apply Hall. right. assumption.
  - exfalso. apply (Hall b0); [left|assumption].
Qed.

Lemma reorgEntry_None_iff reorgedBatches b :
  reorgEntry (reorgMapOf reorgedBatches) b = None <-> ~ nonCanonicalIn reorgedBatches b.
Proof.
  unfold reorgEntry. rewrite <- elem_of_reorgMapOf.
  case_decide; split; intros; try congruence; try contradiction; auto.
Qed.

(** X5. In a header that the builder returns, the first canonical height
    and the first canonical parent hash are the height and the parent hash of
    the first batch of the rollup whose sequence number is not among those of
    the non-canonical batches that the storage has returned; when every batch
    is among them, they are those of batch 0. *)
Theorem first_canonical_of_rollup_header s rollup h :
  createRollupHeader s rollup = Ok h ->
  exists first last reorgedBatches,
    Rollup.Batches rollup !! 0%nat = Some first /\
    Rollup.Batches rollup !! (length (Rollup.Batches rollup) - 1)%nat = Some last /\
    FetchNonCanonicalBatchesBetween s
      (big_Uint64 (Batch.SeqNo first)) (big_Uint64 (Batch.SeqNo last))
    = Ok reorgedBatches /\
    (forall (k : nat) b,
       Rollup.Batches rollup !! k = Some b ->
       ~ nonCanonicalIn reorgedBatches b ->
       (forall (j : nat) b', (j < k)%nat -> Rollup.Batches rollup !! j = Some b' ->
                             nonCanonicalIn reorgedBatches b') ->
       CalldataRollupHeader.FirstCanonBatchHeight h = Batch.Number b /\
       CalldataRollupHeader.FirstCanonParentHash h
       = BatchHeader.ParentHash (Batch.Header b)) /\
    ((forall b, b ∈ Rollup.Batches rollup -> nonCanonicalIn reorgedBatches b) ->
     CalldataRollupHeader.FirstCanonBatchHeight h = Batch.Number first /\
     CalldataRollupHeader.FirstCanonParentHash h
     = BatchHeader.ParentHash (Batch.Header first)).
Proof.
  intros Hheader.
  destruct (createRollupHeader_fields _ _ _ Hheader)
    as (first & last & blocks & reorgsBA & Hfirst & Hlast & _ & _ & ->).
  exists first, last. eexists.
  split; [exact Hfirst|]. split; [exact Hlast|]. split; [reflexivity|].
  cbn [CalldataRollupHeader.FirstCanonBatchHeight
       CalldataRollupHeader.FirstCanonParentHash].
  split.
  - intros k b Hk Hcanon Hbefore.
    rewrite (firstCanon_first _ _ _ k b Hk).
    + split; reflexivity.
    + apply reorgEntry_None_iff. exact Hcanon.
    + intros j b' Hj Hb' Hnone. apply reorgEntry_None_iff in Hnone.
      apply Hnone. apply (Hbefore j b' Hj Hb').
  - intros Hall. rewrite firstCanon_none.
    + split; reflexivity.
    + intros b Hb Hnone. apply reorgEntry_None_iff in Hnone.
      apply Hnone, Hall, Hb.
Qed.

(** X6. The reorgs array that [transformToByteArray] returns has one entry
    per position, and, when the encoding of every header in it is not empty
    and decodes to the header, the reconstruction reads back at every
    position what the builder had there: the header, or none. *)
Theorem reorg_entries_round_trip (reorgs : list (option BatchHeader.t)) reorgsBA :
  transformToByteArray reorgs = Ok reorgsBA ->
  (forall header enc,
     Some header ∈ reorgs -> rlp_EncodeToBytes header = Ok enc ->
     enc <> [] /\ rlp_DecodeBytes enc = Ok header) ->
  length reorgsBA = length reorgs /\
  forall (j : nat) r, reorgs !! j = Some r -> reorgedHeader reorgsBA j = Ok r.
Proof.
  intros Hrun Hcodec.
  pose proof (transformToByteArray_length _ _ Hrun) as Hlength.
  split; [exact Hlength|].
  intros j r Hj.
  pose proof (transformToByteArray_lookup _ _ j Hrun) as Hentry.
  rewrite Hj in Hentry.
  assert (Hsome : (0 < length reorgsBA)%nat).
  { rewrite Hlength. apply lookup_lt_Some in Hj. lia. }
  unfold reorgedHeader. apply Nat.ltb_lt in Hsome. rewrite Hsome.
  destruct r as [header|].
  - destruct Hentry as (enc & Henc & Hat).
    destruct (Hcodec header enc) as (Hnonempty & Hdecode);
      [apply list_elem_of_lookup; eauto|assumption|].
    unfold index. rewrite Hat. cbn [rbind].
    destruct enc as [|byte enc]; [congruence|].
    cbn [length Nat.ltb Nat.leb]. rewrite Hdecode. reflexivity.
  - unfold index. rewrite Hentry. reflexivity.
Qed.

End BuilderCoverage.
(** *** The reconstruction, field by field *)

Section ReconstructCoverage.

Context `{Hasher} `{Genesis} `{Trie}.
Context `{RLP BatchHeader.t} `{RLP CalldataRollupHeader.t} `{RLP (list (list L2Tx))}.

(** The heights after the first, one for each delta: each one is the height
    before it plus the delta, in [int64], and not negative. *)
Lemma l1HeightsFrom_steps deltas txs : forall (idx : nat) prevHeight l1Heights,
  (0 < idx)%nat ->
  l1HeightsFrom deltas idx prevHeight txs = Ok l1Heights ->
  length l1Heights = length txs /\
  (txs <> [] -> (idx + length txs <= length deltas)%nat) /\
  forall (k : nat) h h',
    (prevHeight :: l1Heights) !! k = Some h ->
    (prevHeight :: l1Heights) !! S k = Some h' ->
    exists enc l1Delta,
      deltas !! (idx + k)%nat = Some enc /\
      GobDecode enc = Ok l1Delta /\
      h' = i64 (big_Int64 l1Delta + i64 h) /\
      0 <= h' < 2 ^ 63.
Proof.
  induction txs as [|batchTransactions rest IH]; intros idx prevHeight l1Heights Hidx Hrun.
  - injection Hrun as <-. split; [reflexivity|]. split; [congruence|].
    intros [|k] h h' _ Hh'; discriminate.
  - cbn [l1HeightsFrom] in Hrun.
    destruct (Nat.ltb 0 idx) eqn:Hpos; [|apply Nat.ltb_ge in Hpos; lia].
    apply rbind_inv_ok in Hrun as (enc & Henc & Hrun).
    apply rbind_inv_ok in Hrun as (l1Delta & Hdelta & Hrun).
    destruct (i64 (big_Int64 l1Delta + i64 prevHeight) <? 0) eqn:Hneg; [discriminate|].
    apply rbind_inv_ok in Hrun as (tail & Htail & Hrun).
    injection Hrun as <-.
    apply Z.ltb_ge in Hneg.
    pose proof (i64_range (big_Int64 l1Delta + i64 prevHeight)) as Hrange.
    unfold in_i64 in Hrange.
    assert (Hvalue : u64 (i64 (big_Int64 l1Delta + i64 prevHeight))
                     = i64 (big_Int64 l1Delta + i64 prevHeight)).
    { apply u64_id. unfold in_u64. lia. }
    rewrite Hvalue in *.
    apply index_inv_Ok in Henc.
    destruct (IH (S idx) _ tail ltac:(lia) Htail) as (Hlength & Hlong & Hsteps).
    split; [simpl; lia|]. split.
    + intros _. apply lookup_lt_Some in Henc.
      destruct rest as [|r rest']; [simpl; lia|].
      specialize (Hlong ltac:(discriminate)). simpl in *. lia.
    + intros [|k] h h' Hh Hh'.
      * injection Hh as <-. injection Hh' as <-.
        exists enc, l1Delta. rewrite Nat.add_0_r. repeat split; auto; lia.
      * destruct (Hsteps k h h' Hh Hh') as (enc' & delta' & Hat & Hdec & -> & Hpos').
        exists enc', delta'. replace (idx + S k)%nat with (S idx + k)%nat by lia.
        auto.
Qed.

(** The array of deltas has an entry for every height that is returned. *)
Lemma calculateL1HeightsFromDeltas_long hdr (txs : list (list L2Tx)) l1Heights :
  calculateL1HeightsFromDeltas hdr txs = Ok l1Heights ->
  (Nat.max 1 (length txs) <= length (CalldataRollupHeader.L1HeightDeltas hdr))%nat.
Proof.
  intros Hrun. unfold calculateL1HeightsFromDeltas in Hrun.
  apply rbind_inv_ok in Hrun as (enc & Henc & Hrun).
  apply rbind_inv_ok in Hrun as (referenceHeight & Href & Hrun).
  apply rbind_inv_ok in Hrun as (tail & Htail & Hrun).
  apply index_inv_Ok in Henc.
  pose proof (lookup_lt_Some _ _ _ Henc) as Hsome.
  destruct txs as [|batchTransactions rest]; [simpl; lia|].
  cbn [l1HeightsFrom Nat.ltb Nat.leb] in Htail.
  destruct (l1HeightsFrom_steps _ _ 1%nat _ _ ltac:(lia) Htail) as (_ & Hlong & _).
  destruct rest as [|r rest']; [simpl; lia|].
  specialize (Hlong ltac:(discriminate)). simpl in *. lia.
Qed.

(** X7. When [calculateL1HeightsFromDeltas] returns, its first height is
    the first entry of the L1 height deltas as an unsigned number, there is
    one height per transaction list (one, when there is no list), the array
    of deltas has at least as many entries, and every further height is the
    height before it plus the decoded delta of its position, computed in
    [int64], and is not negative. *)
Theorem l1_heights_of_deltas hdr (txs : list (list L2Tx)) l1Heights :
  calculateL1HeightsFromDeltas hdr txs = Ok l1Heights ->
  length l1Heights = Nat.max 1 (length txs) /\
  (Nat.max 1 (length txs) <= length (CalldataRollupHeader.L1HeightDeltas hdr))%nat /\
  (exists enc referenceHeight,
     CalldataRollupHeader.L1HeightDeltas hdr !! 0%nat = Some enc /\
     GobDecode enc = Ok referenceHeight /\
     l1Heights !! 0%nat = Some (big_Uint64 referenceHeight)) /\
  forall (k : nat) h h',
    l1Heights !! k = Some h -> l1Heights !! S k = Some h' ->
    exists enc l1Delta,
      CalldataRollupHeader.L1HeightDeltas hdr !! S k = Some enc /\
      GobDecode enc = Ok l1Delta /\
      h' = i64 (big_Int64 l1Delta + i64 h) /\
      0 <= h' < 2 ^ 63.
Proof.
  intros Hrun. unfold calculateL1HeightsFromDeltas in Hrun.
  apply rbind_inv_ok in Hrun as (enc & Henc & Hrun).
  apply rbind_inv_ok in Hrun as (referenceHeight & Href & Hrun).
  apply rbind_inv_ok in Hrun as (tail & Htail & Hrun).
  injection Hrun as <-.
  apply index_inv_Ok in Henc.
  pose proof (lookup_lt_Some _ _ _ Henc) as Hsome.
  destruct txs as [|batchTransactions rest].
  - injection Htail as <-. cbn [length Nat.max].
    split; [reflexivity|]. split; [lia|].
    split; [exists enc, referenceHeight; auto|].
    intros [|k] h h' _ Hh'; discriminate.
  - cbn [l1HeightsFrom Nat.ltb Nat.leb] in Htail.
    destruct (l1HeightsFrom_steps _ _ 1%nat _ _ ltac:(lia) Htail)
      as (Hlength & Hlong & Hsteps).
    split; [simpl; lia|]. split.
    + destruct rest as [|r rest']; [simpl; lia|].
      specialize (Hlong ltac:(discriminate)). simpl in *. lia.
    + split; [exists enc, referenceHeight; auto|].
      intros k h h' Hh Hh'. apply (Hsteps k h h' Hh Hh').
Qed.

Lemma proofBlocks_unique Blocks (batches : list Batch.t) : forall blocks blocks',
  proofBlocks Blocks batches blocks -> proofBlocks Blocks batches blocks' ->
  blocks = blocks'.
Proof.
  induction batches as [|b rest IH]; intros blocks blocks' Hblocks Hblocks';
    inversion Hblocks; inversion Hblocks'; subst; [reflexivity|].
  f_equal; [congruence|]. apply IH; assumption.
Qed.

(** X8. The L1 heights go through the header: when the proof blocks of the
    batches have heights below [2^63], [calculateL1HeightsFromDeltas] reads
    off a header that the builder has returned, for the transactions of the
    rollup, the heights of the proof blocks, batch by batch. *)
Theorem l1_heights_round_trip s rollup h blocks :
  createRollupHeader s rollup = Ok h ->
  proofBlocks (Rollup.Blocks rollup) (Rollup.Batches rollup) blocks ->
  Forall (fun block => 0 <= Block.Number block < 2 ^ 63) blocks ->
  calculateL1HeightsFromDeltas h (map Batch.Transactions (Rollup.Batches rollup))
  = Ok (map Block.Number blocks).
Proof.
  intros Hheader Hblocks Hrange.
  destruct (createRollupHeader_fields _ _ _ Hheader)
    as (first & last & blocks' & reorgsBA & Hfirst & _ & Hblocks' & _ & ->).
  rewrite (proofBlocks_unique _ _ _ _ Hblocks' Hblocks).
  apply calculateL1HeightsFromDeltas_deltas.
  - reflexivity.
  - rewrite !length_map. apply (Forall2_length _ _ _ Hblocks).
  - destruct (Rollup.Batches rollup); [discriminate|]. discriminate.
  - apply Forall_fmap. exact Hrange.
Qed.

(** The times that the loop gives to the batches when the deltas are those
    of the builder for the times [times]. *)
Lemma incompleteBatchesFrom_times hdr l1Heights (path : gmap Z Block.t) startAtSeq :
  forall times (txs : list (list L2Tx)) (idx : nat) prevT currentHeight currentTime bs,
    drop idx (CalldataRollupHeader.BatchTimeDeltas hdr)
    = map GobEncode (timeDeltas prevT times) ->
    length txs = length times ->
    Forall in_u64 times ->
    (currentTime - prevT) mod 2 ^ 64 = 0 ->
    incompleteBatchesFrom hdr l1Heights path startAtSeq idx currentHeight
      currentTime txs = Ok bs ->
    map batchFromRollup.time bs = times.
Proof.
  induction times as [|t times IH];
    intros txs idx prevT currentHeight currentTime bs Hdeltas Hlength Hrange Hcong Hrun.
  - destruct txs; [|discriminate]. injection Hrun as <-. reflexivity.
  - destruct txs as [|batchTransactions rest]; [discriminate|].
    apply incompleteBatchesFrom_cons in Hrun
      as (l1Height & block & enc & timeDelta & reorg & bs' & _ & _ & Henc & Hdecode
          & _ & Hrest & ->).
    cbn [timeDeltas map] in Hdeltas.
    apply drop_eq_cons in Hdeltas as (Hat & Hdeltas).
    apply index_inv_Ok in Henc. rewrite Hat in Henc. injection Henc as <-.
    rewrite GobDecode_GobEncode in Hdecode. injection Hdecode as <-.
    inversion Hrange as [|? ? Ht Hrange']; subst.
    pose proof (running_time currentTime prevT t Hcong) as Hnext.
    cbn [map batchFromRollup.time]. f_equal.
    + rewrite (u64_cong _ t Hnext). apply u64_id. exact Ht.
    + eapply (IH rest (S idx) t); [exact Hdeltas| | | |exact Hrest].
      * simpl in Hlength. lia.
      * assumption.
      * exact Hnext.
Qed.

(** X9. The times go through the header whatever they are: for batches
    whose times are [uint64] numbers, the batches that the reconstruction
    returns from a header that the builder has returned have the times of
    the batches of the rollup, also when a time delta has wrapped around. *)
Theorem times_round_trip fuel s s' rollup h head ibs :
  createRollupHeader s rollup = Ok h ->
  Forall (fun b => in_u64 (BatchHeader.Time (Batch.Header b))) (Rollup.Batches rollup) ->
  createIncompleteBatches fuel s' h (map Batch.Transactions (Rollup.Batches rollup)) head
  = Ok ibs ->
  map batchFromRollup.time ibs
  = map (fun b => BatchHeader.Time (Batch.Header b)) (Rollup.Batches rollup).
Proof.
  intros Hheader Hrange Hrun.
  destruct (createRollupHeader_fields _ _ _ Hheader)
    as (first & last & blocks & reorgsBA & Hfirst & _ & _ & _ & Hh).
  apply createIncompleteBatches_loop in Hrun as (l1Heights & path & Hloop).
  eapply incompleteBatchesFrom_times; [| | | |exact Hloop].
  - rewrite Hh. cbn [CalldataRollupHeader.BatchTimeDeltas drop]. reflexivity.
  - rewrite !length_map. reflexivity.
  - apply Forall_fmap. exact Hrange.
  - rewrite Hh. cbn [CalldataRollupHeader.StartTime]. apply i64_mod_eq.
Qed.

(** What the loop has read for the batch at a position. *)
Lemma incompleteBatchesFrom_lookup hdr l1Heights (path : gmap Z Block.t) startAtSeq txs :
  forall (idx : nat) currentHeight currentTime bs,
    incompleteBatchesFrom hdr l1Heights path startAtSeq idx currentHeight
      currentTime txs = Ok bs ->
    forall (k : nat) b,
      bs !! k = Some b ->
      exists l1Height block enc timeDelta,
        l1Heights !! (idx + k)%nat = Some l1Height /\
        path !! l1Height = Some block /\
        CalldataRollupHeader.BatchTimeDeltas hdr !! (idx + k)%nat = Some enc /\
        GobDecode enc = Ok timeDelta /\
        reorgedHeader (CalldataRollupHeader.ReOrgs hdr) (idx + k)
        = Ok (batchFromRollup.header b) /\
        txs !! k = Some (batchFromRollup.transactions b) /\
        batchFromRollup.seqNo b = i64 (startAtSeq + Z.of_nat (idx + k)) /\
        batchFromRollup.l1Proof b = Block.Hash block /\
        batchFromRollup.coinbase b = CalldataRollupHeader.Coinbase hdr /\
        batchFromRollup.baseFee b = CalldataRollupHeader.BaseFee hdr /\
        batchFromRollup.gasLimit b = CalldataRollupHeader.GasLimit hdr.
Proof.
  induction txs as [|batchTransactions rest IH];
    intros idx currentHeight currentTime bs Hrun k b Hk.
  - injection Hrun as <-. discriminate.
  - apply incompleteBatchesFrom_cons in Hrun
      as (l1Height & block & enc & timeDelta & reorg & bs' & Hheight & Hblock & Henc
          & Hdecode & Hreorg & Hrest & ->).
    destruct k as [|k].
    + injection Hk as <-. rewrite Nat.add_0_r.
      apply index_inv_Ok in Hheight. apply index_inv_Ok in Henc.
      exists l1Height, block, enc, timeDelta.
      cbn [batchFromRollup.header batchFromRollup.transactions batchFromRollup.seqNo
           batchFromRollup.l1Proof batchFromRollup.coinbase batchFromRollup.baseFee
           batchFromRollup.gasLimit].
      unfold big_NewInt. repeat split; auto.
    + replace (idx + S k)%nat with (S idx + k)%nat by lia.
      apply (IH (S idx) _ _ bs' Hrest k b Hk).
Qed.

(** X10. The batches that the reconstruction returns are numbered by
    position: the batch at position [k] has the sequence number
    [FirstBatchSequence + k], computed in [int64], the transactions of the
    list at position [k], and the coinbase, the base fee and the gas limit of
    the header. *)
Theorem sequence_of_reconstructed_batches fuel s hdr txs head bs :
  createIncompleteBatches fuel s hdr txs head = Ok bs ->
  forall (k : nat) b,
    bs !! k = Some b ->
    batchFromRollup.seqNo b
    = i64 (big_Int64 (CalldataRollupHeader.FirstBatchSequence hdr) + Z.of_nat k) /\
    txs !! k = Some (batchFromRollup.transactions b) /\
    batchFromRollup.coinbase b = CalldataRollupHeader.Coinbase hdr /\
    batchFromRollup.baseFee b = CalldataRollupHeader.BaseFee hdr /\
    batchFromRollup.gasLimit b = CalldataRollupHeader.GasLimit hdr.
Proof.
  intros Hrun k b Hk.
  apply createIncompleteBatches_loop in Hrun as (l1Heights & path & Hloop).
  destruct (incompleteBatchesFrom_lookup _ _ _ _ _ _ _ _ _ Hloop k b Hk)
    as (_ & _ & _ & _ & _ & _ & _ & _ & _ & Htxs & Hseq & _ & Hcoinbase & Hfee & Hgas).
  auto.
Qed.

Lemma reorgedHeader_inv ReOrgs (j : nat) r :
  reorgedHeader ReOrgs j = Ok r ->
  (ReOrgs = [] /\ r = None) \/
  (exists enc,
     ReOrgs !! j = Some enc /\
     ((enc = [] /\ r = None) \/
      (enc <> [] /\ exists header, rlp_DecodeBytes enc = Ok header /\ r = Some header))).
Proof.
  unfold reorgedHeader. intros Hrun.
  destruct ReOrgs as [|e0 rest]; [injection Hrun as <-; auto|].
  right. cbn [length Nat.ltb Nat.leb] in Hrun.
  apply rbind_inv_ok in Hrun as (enc & Henc & Hrun).
  apply index_inv_Ok in Henc. exists enc. split; [assumption|].
  destruct enc as [|byte enc].
  - injection Hrun as <-. auto.
  - right. split; [discriminate|]. cbn [length Nat.ltb Nat.leb] in Hrun.
    apply rbind_inv_ok in Hrun as (header & Hheader & Hrun).
    injection Hrun as <-. eauto.
Qed.

(** X11. Which batches the reconstruction takes for reorged: with no reorgs
    array every batch is canonical; with one, the batch at a position is
    canonical when the entry of the position is empty, and carries the header
    decoded from the entry when it is not. *)
Theorem reorg_headers_of_reconstructed_batches fuel s hdr txs head bs :
  createIncompleteBatches fuel s hdr txs head = Ok bs ->
  forall (k : nat) b,
    bs !! k = Some b ->
    (CalldataRollupHeader.ReOrgs hdr = [] -> batchFromRollup.header b = None) /\
    (CalldataRollupHeader.ReOrgs hdr <> [] ->
     exists enc,
       CalldataRollupHeader.ReOrgs hdr !! k = Some enc /\
       (enc = [] -> batchFromRollup.header b = None) /\
       (enc <> [] ->
        exists header,
          rlp_DecodeBytes enc = Ok header /\ batchFromRollup.header b = Some header)).
Proof.
  intros Hrun k b Hk.
  apply createIncompleteBatches_loop in Hrun as (l1Heights & path & Hloop).
  destruct (incompleteBatchesFrom_lookup _ _ _ _ _ _ _ _ _ Hloop k b Hk)
    as (_ & _ & _ & _ & _ & _ & _ & _ & Hreorg & _).
  cbn [Nat.add] in Hreorg.
  apply reorgedHeader_inv in Hreorg
    as [(Hnil & Hnone)|(enc & Hat & [(Hempty & Hnone)|(Hsome & header & Hdec & Hheader)])].
  - split; [auto|congruence].
  - split; [intros Hnil; rewrite Hnil in Hat; discriminate|].
    intros _. exists enc. split; [assumption|]. split; [auto|congruence].
  - split; [intros Hnil; rewrite Hnil in Hat; discriminate|].
    intros _. exists enc. split; [assumption|]. split; [congruence|eauto].
Qed.

(** X12. The reconstruction returns only when the arrays of the header are
    long enough for the transaction lists: there is a time delta and an L1
    height delta for every list (and a first L1 height delta also when there
    is no list), and the reorgs array is nil or has an entry for every list.
    It returns one batch per list. *)
Theorem reconstruction_needs_an_entry_per_batch fuel s hdr txs head bs :
  createIncompleteBatches fuel s hdr txs head = Ok bs ->
  length bs = length txs /\
  (length txs <= length (CalldataRollupHeader.BatchTimeDeltas hdr))%nat /\
  (Nat.max 1 (length txs) <= length (CalldataRollupHeader.L1HeightDeltas hdr))%nat /\
  (CalldataRollupHeader.ReOrgs hdr = [] \/
   (length txs <= length (CalldataRollupHeader.ReOrgs hdr))%nat).
Proof.
  intros Hrun.
  destruct (createIncompleteBatches_inv _ _ _ _ _ _ Hrun)
    as (headBlock & l1Heights & minHeight & path & _ & Hheights & _ & _ & Hloop).
  pose proof (incompleteBatchesFrom_length _ _ _ _ _ _ _ _ _ Hloop) as Hlength.
  split; [exact Hlength|].
  assert (Hlast : forall k : nat, length txs = S k -> exists b, bs !! k = Some b).
  { intros k Hk. apply lookup_lt_is_Some_2. lia. }
  split; [|split].
  - destruct (length txs) as [|k] eqn:Hcount; [lia|].
    destruct (Hlast k eq_refl) as (b & Hb).
    destruct (incompleteBatchesFrom_lookup _ _ _ _ _ _ _ _ _ Hloop k b Hb)
      as (_ & _ & enc & _ & _ & _ & Henc & _).
    apply lookup_lt_Some in Henc. simpl in Henc. lia.
  - apply (calculateL1HeightsFromDeltas_long hdr txs l1Heights Hheights).
  - destruct (length txs) as [|k] eqn:Hcount; [right; lia|].
    destruct (Hlast k eq_refl) as (b & Hb).
    destruct (incompleteBatchesFrom_lookup _ _ _ _ _ _ _ _ _ Hloop k b Hb)
      as (_ & _ & _ & _ & _ & _ & _ & _ & Hreorg & _).
    cbn [Nat.add] in Hreorg.
    apply reorgedHeader_inv in Hreorg as [(Hnil & _)|(enc & Hat & _)]; [auto|].
    right. apply lookup_lt_Some in Hat. lia.
Qed.

(** X13. Every batch that the reconstruction returns has as L1 proof the
    hash of a block that is reached from the block of the compression head
    by following parent hashes through the storage, and whose height is the
    height decoded for the batch's position. *)
Theorem l1_proofs_of_reconstructed_batches fuel s hdr txs head bs :
  createIncompleteBatches fuel s hdr txs head = Ok bs ->
  exists headBlock l1Heights,
    FetchBlock s head = Ok headBlock /\
    calculateL1HeightsFromDeltas hdr txs = Ok l1Heights /\
    forall (k : nat) b,
      bs !! k = Some b ->
      exists l1Height block,
        l1Heights !! k = Some l1Height /\
        ancestor s headBlock block /\
        Block.NumberU64 block = l1Height /\
        batchFromRollup.l1Proof b = Block.Hash block.
Proof.
  intros Hrun.
  destruct (createIncompleteBatches_inv _ _ _ _ _ _ Hrun)
    as (headBlock & l1Heights & minHeight & path & Hhead & Hheights & _ & Hpath & Hloop).
  exists headBlock, l1Heights. split; [exact Hhead|]. split; [exact Hheights|].
  intros k b Hk.
  destruct (incompleteBatchesFrom_lookup _ _ _ _ _ _ _ _ _ Hloop k b Hk)
    as (l1Height & block & _ & _ & Hheight & Hblock & _ & _ & _ & _ & _ & Hproof & _).
  exists l1Height, block. split; [exact Hheight|].
  pose proof (calcL1AncestorsOfHeight_walk s (big_NewInt (i64 minHeight)) fuel
                headBlock ∅) as Hwalk.
  rewrite Hpath in Hwalk.
  destruct (Hwalk _ _ Hblock) as [Hempty|(Hancestor & Hnumber)].
  - rewrite lookup_empty in Hempty. discriminate.
  - auto.
Qed.

(** X14. On a storage whose L1 blocks form a chain, the walk for a height
    above the height of the block it starts at never finds it: it goes down
    the whole chain and fails at the first block whose parent is not stored,
    with the storage's error (given fuel for the height of the start). *)
Theorem walk_for_a_height_above_the_start fuel s fromHeight toBlock (k : Z)
  (path : gmap Z Block.t) :
  linked s ->
  Storage.blocks s !! k = Some toBlock ->
  Block.NumberU64 toBlock < Z.of_nat fuel ->
  Block.NumberU64 toBlock < big_Uint64 fromHeight ->
  calcL1AncestorsOfHeight fuel s fromHeight toBlock path = Err ErrNotFound /\
  exists block,
    ancestor s toBlock block /\
    FetchBlock s (Block.ParentHash block) = Err ErrNotFound.
Proof.
  intros Hlinked Hstored Hfuel Habove.
  pose proof (calcL1AncestorsOfHeight_linked s fromHeight fuel toBlock path k
                Hlinked Hstored Hfuel) as Hchain.
  pose proof (calcL1AncestorsOfHeight_walk s fromHeight fuel toBlock path) as Hwalk.
  destruct (calcL1AncestorsOfHeight fuel s fromHeight toBlock path) as [path'|e].
  - destruct Hchain as (Hle & _). lia.
  - destruct Hwalk as [->|(-> & block & Hancestor & Hmiss)]; [congruence|].
    split; [reflexivity|]. eauto.
Qed.

Lemma l1HeightsFrom_same deltas deltas' (txs : list (list L2Tx)) :
  forall (idx : nat) prevHeight,
    (0 < idx)%nat ->
    (forall i : nat, (idx <= i < idx + length txs)%nat -> deltas !! i = deltas' !! i) ->
    l1HeightsFrom deltas idx prevHeight txs = l1HeightsFrom deltas' idx prevHeight txs.
Proof.
  induction txs as [|batchTransactions rest IH]; intros idx prevHeight Hidx Hsame.
  - reflexivity.
  - cbn [l1HeightsFrom]. destruct (Nat.ltb 0 idx); [|apply IH; [lia|]].
    + unfold index. rewrite <- (Hsame idx) by (simpl; lia).
      destruct (deltas !! idx) as [enc|]; [|reflexivity]. cbn [rbind].
      destruct (GobDecode enc) as [l1Delta|e]; [|reflexivity]. cbn [rbind].
      destruct (_ <? 0); [reflexivity|].
      rewrite (IH (S idx)); [reflexivity|lia|].
      intros i Hi. apply Hsame. simpl. lia.
    + intros i Hi. apply Hsame. simpl. lia.
Qed.

Lemma reorgedHeader_same (ReOrgs ReOrgs' : list bytes) (j : nat) :
  (ReOrgs = [] <-> ReOrgs' = []) ->
  ReOrgs !! j = ReOrgs' !! j ->
  reorgedHeader ReOrgs j = reorgedHeader ReOrgs' j.
Proof.
  intros Hnil Hat. unfold reorgedHeader, index. rewrite Hat.
  destruct ReOrgs as [|e0 rest], ReOrgs' as [|e0' rest']; try reflexivity.
  - destruct Hnil as [Hnil _]. specialize (Hnil eq_refl). discriminate.
  - destruct Hnil as [_ Hnil]. specialize (Hnil eq_refl). discriminate.
Qed.

Lemma incompleteBatchesFrom_same hdr hdr' l1Heights (path : gmap Z Block.t)
  startAtSeq (txs : list (list L2Tx)) :
  CalldataRollupHeader.Coinbase hdr = CalldataRollupHeader.Coinbase hdr' ->
  CalldataRollupHeader.BaseFee hdr = CalldataRollupHeader.BaseFee hdr' ->
  CalldataRollupHeader.GasLimit hdr = CalldataRollupHeader.GasLimit hdr' ->
  (CalldataRollupHeader.ReOrgs hdr = [] <-> CalldataRollupHeader.ReOrgs hdr' = []) ->
  forall (idx : nat) currentHeight currentTime,
    (forall i : nat,
       (idx <= i < idx + length txs)%nat ->
       CalldataRollupHeader.BatchTimeDeltas hdr !! i
       = CalldataRollupHeader.BatchTimeDeltas hdr' !! i /\
       CalldataRollupHeader.ReOrgs hdr !! i = CalldataRollupHeader.ReOrgs hdr' !! i) ->
    incompleteBatchesFrom hdr l1Heights path startAtSeq idx currentHeight
      currentTime txs
    = incompleteBatchesFrom hdr' l1Heights path startAtSeq idx currentHeight
        currentTime txs.
Proof.
  intros Hcoinbase Hfee Hgas Hnil.
  induction txs as [|batchTransactions rest IH];
    intros idx currentHeight currentTime Hsame; [reflexivity|].
  cbn [incompleteBatchesFrom].
  destruct (Hsame idx ltac:(simpl; lia)) as (Hdelta & Hreorg).
  destruct (index l1Heights idx) as [l1Height|e]; [|reflexivity]. cbn [rbind].
  destruct (path !! l1Height) as [block|]; [|reflexivity]. cbn [rbind].
  unfold index at 1 2. rewrite <- Hdelta.
  destruct (CalldataRollupHeader.BatchTimeDeltas hdr !! idx) as [enc|]; [|reflexivity].
  cbn [rbind].
  destruct (GobDecode enc) as [timeDelta|e]; [|reflexivity]. cbn [rbind].
  rewrite <- (reorgedHeader_same _ _ idx Hnil Hreorg).
  destruct (reorgedHeader (CalldataRollupHeader.ReOrgs hdr) idx) as [reorg|e];
    [|reflexivity].
  cbn [rbind].
  rewrite (IH (S idx)).
  - rewrite Hcoinbase, Hfee, Hgas. reflexivity.
  - intros i Hi. apply Hsame. simpl. lia.
Qed.

(** X15. Of the arrays of the header, the reconstruction reads the entries
    at the positions of the transaction lists (and the first L1 height
    delta) and no other: two headers that agree at these positions and in
    their other fields, and whose reorgs arrays are both nil or both not, are
    reconstructed alike. Further entries are not read and their number is
    not checked. *)
Theorem entries_beyond_the_batches_are_not_read fuel s hdr hdr'
  (txs : list (list L2Tx)) head :
  sameEntries (length txs) hdr hdr' ->
  createIncompleteBatches fuel s hdr txs head
  = createIncompleteBatches fuel s hdr' txs head.
Proof.
  intros (Hseq & Hheight & Hstart & Hcoinbase & Hfee & Hgas & Hl1 & Htimes & Hnil
          & Hreorgs).
  unfold createIncompleteBatches. rewrite Hseq, Hheight, Hstart.
  destruct (FetchBlock s head) as [rollupL1Block|e]; [|reflexivity]. cbn [rbind].
  assert (Hheights : calculateL1HeightsFromDeltas hdr txs
                     = calculateL1HeightsFromDeltas hdr' txs).
  { unfold calculateL1HeightsFromDeltas, index.
    rewrite <- (Hl1 0%nat) by lia.
    destruct (CalldataRollupHeader.L1HeightDeltas hdr !! 0%nat) as [enc|];
      [|reflexivity].
    cbn [rbind]. destruct (GobDecode enc) as [referenceHeight|e]; [|reflexivity].
    cbn [rbind]. destruct txs as [|batchTransactions rest]; [reflexivity|].
    cbn [l1HeightsFrom Nat.ltb Nat.leb].
    rewrite (l1HeightsFrom_same _ (CalldataRollupHeader.L1HeightDeltas hdr') rest 1%nat);
      [reflexivity|lia|].
    intros i Hi. apply Hl1. simpl. lia. }
  rewrite Hheights.
  destruct (calculateL1HeightsFromDeltas hdr' txs) as [l1Heights|e]; [|reflexivity].
  cbn [rbind]. destruct (slices_Min l1Heights) as [minHeight|e]; [|reflexivity].
  cbn [rbind].
  destruct (calcL1AncestorsOfHeight fuel s _ rollupL1Block ∅) as [path|e];
    [|reflexivity].
  cbn [rbind]. apply incompleteBatchesFrom_same; auto.
  intros i Hi. split; [apply Htimes|apply Hreorgs]; simpl in Hi; lia.
Qed.

End ReconstructCoverage.
(** *** Through the header and back *)

Section HeaderRoundTrips.

Context `{Hasher} `{Genesis} `{Trie}.
Context `{RLP BatchHeader.t} `{RLP CalldataRollupHeader.t} `{RLP (list (list L2Tx))}.

(** X16. The reorg headers go through the header: when the header of every
    batch of the rollup has an encoding that is not empty and decodes to it,
    the batches that the reconstruction returns from a header that the
    builder has returned carry the header of the batch at the positions of
    the batches that were non-canonical for the builder, and no header at the
    others. *)
Theorem reorg_headers_round_trip fuel s s' rollup h head ibs :
  createRollupHeader s rollup = Ok h ->
  Forall headerRoundTrips (Rollup.Batches rollup) ->
  createIncompleteBatches fuel s' h (map Batch.Transactions (Rollup.Batches rollup)) head
  = Ok ibs ->
  exists first last reorgedBatches,
    Rollup.Batches rollup !! 0%nat = Some first /\
    Rollup.Batches rollup !! (length (Rollup.Batches rollup) - 1)%nat = Some last /\
    FetchNonCanonicalBatchesBetween s
      (big_Uint64 (Batch.SeqNo first)) (big_Uint64 (Batch.SeqNo last))
    = Ok reorgedBatches /\
    forall (k : nat) b ib,
      Rollup.Batches rollup !! k = Some b ->
      ibs !! k = Some ib ->
      (nonCanonicalIn reorgedBatches b ->
       batchFromRollup.header ib = Some (Batch.Header b)) /\
      (~ nonCanonicalIn reorgedBatches b -> batchFromRollup.header ib = None).
Proof.
  intros Hheader Hcodec Hrun.
  destruct (createRollupHeader_fields _ _ _ Hheader)
    as (first & last & blocks & reorgsBA & Hfirst & Hlast & _ & Hreorgs & Hh).
  exists first, last. eexists.
  split; [exact Hfirst|]. split; [exact Hlast|]. split; [reflexivity|].
  intros k b ib Hb Hib.
  apply createIncompleteBatches_loop in Hrun as (l1Heights & path & Hloop).
  destruct (incompleteBatchesFrom_lookup _ _ _ _ _ _ _ _ _ Hloop k ib Hib)
    as (_ & _ & _ & _ & _ & _ & _ & _ & Hentry & _).
  cbn [Nat.add] in Hentry. rewrite Hh in Hentry.
  cbn [CalldataRollupHeader.ReOrgs] in Hentry.
  rewrite (reorgedHeader_entries _ _ _ Hcodec Hreorgs k b Hb) in Hentry.
  injection Hentry as Hentry. rewrite <- Hentry.
  unfold reorgEntry. split; intros Hcanon.
  - apply elem_of_reorgMapOf in Hcanon. rewrite decide_True by assumption.
    reflexivity.
  - rewrite decide_False; [reflexivity|].
    intros Hin. apply Hcanon, elem_of_reorgMapOf, Hin.
Qed.

Lemma contiguousFrom_lookup batches : forall seq (k : nat) b,
  contiguousFrom seq batches -> batches !! k = Some b ->
  Batch.SeqNo b = seq + Z.of_nat k.
Proof.
  induction batches as [|b0 rest IH]; intros seq k b Hcontiguous Hk; [discriminate|].
  destruct Hcontiguous as (Hseq & Hrest). destruct k as [|k].
  - injection Hk as <-. lia.
  - rewrite (IH (seq + 1) k b Hrest Hk). lia.
Qed.

(** X17. The sequence numbers go through the header when the batches of
    the rollup are numbered one after the other from a sequence number that
    leaves them below [2^63]: the batches that the reconstruction returns
    from a header that the builder has returned have the sequence numbers of
    the batches of the rollup. (The builder does not look at the sequence
    numbers after the first.) *)
Theorem sequence_round_trip fuel s s' rollup h head ibs first :
  createRollupHeader s rollup = Ok h ->
  Rollup.Batches rollup !! 0%nat = Some first ->
  contiguousFrom (Batch.SeqNo first) (Rollup.Batches rollup) ->
  0 <= Batch.SeqNo first ->
  Batch.SeqNo first + Z.of_nat (length (Rollup.Batches rollup)) < 2 ^ 63 ->
  createIncompleteBatches fuel s' h (map Batch.Transactions (Rollup.Batches rollup)) head
  = Ok ibs ->
  map batchFromRollup.seqNo ibs = map Batch.SeqNo (Rollup.Batches rollup).
Proof.
  intros Hheader Hfirst Hcontiguous Hpos Hbound Hrun.
  destruct (createRollupHeader_fields _ _ _ Hheader)
    as (first' & last & blocks & reorgsBA & Hfirst' & _ & _ & _ & Hh).
  rewrite Hfirst in Hfirst'. injection Hfirst' as <-.
  apply createIncompleteBatches_loop in Hrun as (l1Heights & path & Hloop).
  pose proof (incompleteBatchesFrom_length _ _ _ _ _ _ _ _ _ Hloop) as Hlength.
  rewrite length_map in Hlength.
  apply list_eq. intros k. rewrite !list_lookup_fmap.
  destruct (ibs !! k) as [ib|] eqn:Hib.
  - destruct (Rollup.Batches rollup !! k) as [b|] eqn:Hb.
    2:{ apply lookup_ge_None in Hb. apply lookup_lt_Some in Hib. lia. }
    destruct (incompleteBatchesFrom_lookup _ _ _ _ _ _ _ _ _ Hloop k ib Hib)
      as (_ & _ & _ & _ & _ & _ & _ & _ & _ & _ & Hseq & _).
    cbn [fmap option_fmap option_map]. f_equal. rewrite Hseq.
    cbn [Nat.add]. rewrite Hh. cbn [CalldataRollupHeader.FirstBatchSequence].
    rewrite (contiguousFrom_lookup _ _ k b Hcontiguous Hb).
    apply lookup_lt_Some in Hb.
    rewrite big_Int64_id by (unfold in_i64; lia).
    apply i64_id. unfold in_i64. lia.
  - apply lookup_ge_None in Hib.
    destruct (Rollup.Batches rollup !! k) as [b|] eqn:Hb; [|reflexivity].
    apply lookup_lt_Some in Hb. lia.
Qed.

End HeaderRoundTrips.
(** *** The walk on a chain *)

Section WalkCoverage.

Variable s : Storage.t.
Hypothesis Hlinked : linked s.

(** X18. On a storage whose L1 blocks form a chain, when a block with the
    wanted height is reached from the start block by following parent
    hashes, the walk returns (given fuel above the height of the start), and
    the map that it returns holds that block at the wanted height and the
    start block at its own. *)
Theorem walk_reaches_an_ancestor fromHeight toBlock a :
  ancestor s toBlock a ->
  forall (fuel : nat) (path : gmap Z Block.t),
    stored s toBlock ->
    Block.NumberU64 a = big_Uint64 fromHeight ->
    Block.NumberU64 toBlock < Z.of_nat fuel ->
    exists path',
      calcL1AncestorsOfHeight fuel s fromHeight toBlock path = Ok path' /\
      path' !! big_Uint64 fromHeight = Some a /\
      path' !! Block.NumberU64 toBlock = Some toBlock.
Proof.
  induction 1 as [b|b p a Hfetch Hanc IH]; intros fuel path Hstored Hnum Hfuel.
  - destruct fuel as [|fuel].
    + pose proof (big_Uint64_range (Block.Number b)) as Hr.
      unfold Block.NumberU64, in_u64 in *. lia.
    + cbn [calcL1AncestorsOfHeight].
      pose proof Hnum as Heq. apply Z.eqb_eq in Heq. rewrite Heq.
      eexists. split; [reflexivity|]. rewrite <- Hnum.
      split; apply lookup_insert_eq.
  - destruct Hstored as [k Hb]. pose proof (FetchBlock_Ok _ _ _ Hfetch) as Hp.
    pose proof (Hlinked _ _ _ Hb Hp) as Hstep.
    pose proof (ancestor_le s Hlinked _ _ Hanc (ex_intro _ _ Hp)) as Hle.
    destruct fuel as [|fuel].
    + pose proof (big_Uint64_range (Block.Number b)) as Hr.
      unfold Block.NumberU64, in_u64 in *. lia.
    + cbn [calcL1AncestorsOfHeight].
      destruct (Z.eqb_spec (Block.NumberU64 b) (big_Uint64 fromHeight)); [lia|].
      rewrite Hfetch. cbn [rbind].
      destruct (IH fuel (<[Block.NumberU64 b := b]> path))
        as (path' & Hrun & Ha & _);
        [exists (Block.ParentHash b); assumption|assumption|lia|].
      exists path'. split; [exact Hrun|]. split; [exact Ha|].
      pose proof (calcL1AncestorsOfHeight_linked s fromHeight fuel p
                    (<[Block.NumberU64 b := b]> path) (Block.ParentHash b)
                    Hlinked Hp ltac:(lia)) as Hchain.
      rewrite Hrun in Hchain. destruct Hchain as (_ & _ & Hout).
      rewrite Hout by (right; lia). apply lookup_insert_eq.
Qed.

End WalkCoverage.
(** *** The calls of the execution *)

Section ExecuteCoverage.

Context `{Hasher} `{Genesis} `{Trie}.
Context `{RLP BatchHeader.t} `{RLP CalldataRollupHeader.t} `{RLP (list (list L2Tx))}.

Variable rc : RollupCompression.

(** One iteration that has failed: the batch was not stored, it carries no
    header, and the executor or the commit has failed; nothing was written. *)
Lemma executeAndSaveBatch_inv_err hdr parentHash ib n e n' :
  executeAndSaveBatch rc hdr parentHash ib n = (Err e, n') ->
  FetchBatchBySeqNo (Node.storage n) (big_Uint64 (batchFromRollup.seqNo ib))
  = Err ErrNotFound /\
  batchFromRollup.header ib = None /\
  ((big_Uint64 (batchFromRollup.seqNo ib) = L2GenesisSeqNo /\
    CreateGenesisState (batchExecutor rc) (batchFromRollup.l1Proof ib)
      (batchFromRollup.time ib) (CalldataRollupHeader.Coinbase hdr)
      (CalldataRollupHeader.BaseFee hdr) = Err e /\
    n' = node_after n (Node.storage n)
           [EvCreateGenesisState (batchFromRollup.l1Proof ib)
              (batchFromRollup.time ib) (CalldataRollupHeader.Coinbase hdr)
              (CalldataRollupHeader.BaseFee hdr)]) \/
   (big_Uint64 (batchFromRollup.seqNo ib) <> L2GenesisSeqNo /\
    ((ComputeBatch (batchExecutor rc) (contextOf rc parentHash ib) false = Err e /\
      n' = node_after n (Node.storage n) [EvComputeBatch (contextOf rc parentHash ib)]) \/
     (exists computedBatch err,
        ComputeBatch (batchExecutor rc) (contextOf rc parentHash ib) false
        = Ok computedBatch /\
        ComputedBatch.Commit computedBatch true = Err err /\
        e = ErrWrap "cannot commit stateDB for incoming valid batch" err /\
        n' = node_after n (Node.storage n)
               [EvComputeBatch (contextOf rc parentHash ib);
                EvCommit (ComputedBatch.Batch computedBatch)])))).
Proof.
  intros Hrun.
  destruct (FetchBatchBySeqNo (Node.storage n)
              (big_Uint64 (batchFromRollup.seqNo ib))) as [b|e0] eqn:Hlookup.
  { rewrite (executeAndSaveBatch_skip rc hdr _ _ _ _ Hlookup) in Hrun. discriminate. }
  pose proof (FetchBatchBySeqNo_Err _ _ _ Hlookup) as ->.
  split; [reflexivity|].
  destruct (batchFromRollup.header ib) as [header|] eqn:Hheader.
  { rewrite (executeAndSaveBatch_reorg rc hdr _ _ _ _ Hlookup Hheader) in Hrun.
    discriminate. }
  split; [reflexivity|].
  destruct (Z.eq_dec (big_Uint64 (batchFromRollup.seqNo ib)) L2GenesisSeqNo)
    as [Hseq|Hseq].
  - left. split; [assumption|].
    destruct (CreateGenesisState (batchExecutor rc) (batchFromRollup.l1Proof ib)
                (batchFromRollup.time ib) (CalldataRollupHeader.Coinbase hdr)
                (CalldataRollupHeader.BaseFee hdr)) as [genBatch|e0] eqn:Hgen.
    { rewrite (executeAndSaveBatch_genesis rc hdr _ _ _ _ Hlookup Hheader Hseq Hgen)
        in Hrun. discriminate. }
    revert Hrun. unfold executeAndSaveBatch, bind, read.
    rewrite Hlookup, Hheader. cbn [errors_Is negb].
    apply Z.eqb_eq in Hseq. rewrite Hseq.
    unfold emit, lift. rewrite Hgen. intros Hrun. injection Hrun as <- <-.
    split; reflexivity.
  - right. split; [assumption|].
    destruct (ComputeBatch (batchExecutor rc) (contextOf rc parentHash ib) false)
      as [computedBatch|e0] eqn:Hcompute.
    + right.
      destruct (ComputedBatch.Commit computedBatch true) as [root|err] eqn:Hcommit.
      { rewrite (executeAndSaveBatch_computed rc hdr _ _ _ _ _ Hlookup Hheader Hseq
                   Hcompute Hcommit) in Hrun. discriminate. }
      exists computedBatch, err. split; [reflexivity|]. split; [assumption|].
      revert Hrun. unfold executeAndSaveBatch, bind, read.
      rewrite Hlookup, Hheader. cbn [errors_Is negb].
      apply Z.eqb_neq in Hseq. rewrite Hseq.
      unfold computeBatch, bind, emit, lift, fail.
      fold (contextOf rc parentHash ib).
      cbn [Node.storage Node.events]. rewrite Hcompute, Hcommit.
      intros Hrun. injection Hrun as <- <-.
      split; [reflexivity|]. unfold node_after. rewrite <- app_assoc. reflexivity.
    + left.
      revert Hrun. unfold executeAndSaveBatch, bind, read.
      rewrite Hlookup, Hheader. cbn [errors_Is negb].
      apply Z.eqb_neq in Hseq. rewrite Hseq.
      unfold computeBatch, bind, emit, lift.
      fold (contextOf rc parentHash ib).
      cbn [Node.storage Node.events]. rewrite Hcompute.
      intros Hrun. injection Hrun as <- <-. split; reflexivity.
Qed.

(** One iteration returns exactly as [batchStep] says. *)
Lemma executeAndSaveBatch_step hdr parentHash ib n parentHash' n' :
  executeAndSaveBatch rc hdr parentHash ib n = (Ok parentHash', n')
  <-> batchStep rc hdr parentHash ib n parentHash' n'.
Proof.
  unfold batchStep. split.
  - intros Hrun. apply executeAndSaveBatch_inv in Hrun
      as [(b & -> & -> & ->)
         |(-> & [(header & -> & -> & ->)
               |[(g & -> & Hseq & Hgen & -> & ->)
                |(cb & root & -> & Hseq & Hcompute & Hcommit & -> & ->)]])].
    + auto.
    + auto.
    + rewrite decide_True by assumption. exists g. auto.
    + rewrite decide_False by assumption. exists cb, root. auto.
  - destruct (FetchBatchBySeqNo (Node.storage n)
                (big_Uint64 (batchFromRollup.seqNo ib))) as [b|e] eqn:Hlookup.
    + intros [-> ->]. apply executeAndSaveBatch_skip. assumption.
    + pose proof (FetchBatchBySeqNo_Err _ _ _ Hlookup) as ->.
      destruct (batchFromRollup.header ib) as [header|] eqn:Hheader.
      * intros [-> ->]. apply executeAndSaveBatch_reorg; assumption.
      * case_decide as Hseq.
        -- intros (g & Hgen & -> & ->).
           apply executeAndSaveBatch_genesis; assumption.
        -- intros (cb & root & Hcompute & Hcommit & -> & ->).
           eapply executeAndSaveBatch_computed; eassumption.
Qed.

(** X19. A run of the loop returns a parent hash and a node exactly when
    its iterations return one after the other, in the order of the rollup,
    each from the parent hash and the node that the one before it has left.
    An iteration skips a batch whose sequence number is stored: nothing is
    called, and the parent hash becomes the hash of the stored batch for a
    canonical batch and stays for a reorg batch. Otherwise it stores a batch
    with a carried header and keeps the parent hash; or it has the batch
    executed (as genesis, or by the executor with the reconstructed facts of
    the batch and the current parent hash), commits it, stores it, stores it
    as executed and registers it, and the parent hash becomes the hash of the
    executed batch. *)
Theorem calls_of_the_loop hdr ibs : forall parentHash n parentHash' n',
  executeAndSaveFrom rc hdr parentHash ibs n = (Ok parentHash', n')
  <-> loopSteps rc hdr parentHash ibs n parentHash' n'.
Proof.
  induction ibs as [|ib rest IH]; intros parentHash n parentHash' n'.
  - cbn [executeAndSaveFrom loopSteps]. unfold ret. split.
    + intros Hrun. injection Hrun as <- <-. auto.
    + intros [-> ->]. reflexivity.
  - cbn [executeAndSaveFrom loopSteps]. split.
    + intros Hrun. apply bind_inv_ok in Hrun as (ph1 & n1 & Hstep & Hrest).
      exists ph1, n1. split; [apply executeAndSaveBatch_step; exact Hstep|].
      apply IH. exact Hrest.
    + intros (ph1 & n1 & Hstep & Hrest).
      apply executeAndSaveBatch_step in Hstep. apply IH in Hrest.
      erewrite bind_ok by exact Hstep. exact Hrest.
Qed.

Lemma executions_app evs1 evs2 :
  executions (evs1 ++ evs2) = executions evs1 + executions evs2.
Proof. unfold executions. rewrite filter_app, length_app. lia. Qed.

Lemma executions_nonneg evs : 0 <= executions evs.
Proof. unfold executions. lia. Qed.

(** The calls of one iteration, whatever its outcome. *)
Lemma executeAndSaveBatch_calls hdr parentHash ib n r n' :
  executeAndSaveBatch rc hdr parentHash ib n = (r, n') ->
  exists evs,
    Node.events n' = Node.events n ++ evs /\
    executions evs <= (if isCanonical ib then 1 else 0).
Proof.
  intros Hrun. destruct r as [parentHash'|e].
  - apply executeAndSaveBatch_inv in Hrun
      as [(b & _ & _ & ->)
         |(_ & [(header & Hheader & _ & ->)
               |[(g & Hheader & _ & _ & _ & ->)
                |(cb & root & Hheader & _ & _ & _ & _ & ->)]])].
    + exists []. rewrite app_nil_r. split; [reflexivity|].
      destruct (isCanonical ib); vm_compute; discriminate.
    + eexists. split; [reflexivity|].
      destruct (isCanonical ib); vm_compute; discriminate.
    + eexists. split; [reflexivity|].
      unfold isCanonical. rewrite Hheader. vm_compute. discriminate.
    + eexists. split; [reflexivity|].
      unfold isCanonical. rewrite Hheader. vm_compute. discriminate.
  - apply executeAndSaveBatch_inv_err in Hrun
      as (_ & Hheader
          & [(_ & _ & ->)|(_ & [(_ & ->)|(cb & err & _ & _ & _ & ->)])]);
      (eexists; split; [reflexivity|]);
      unfold isCanonical; rewrite Hheader; vm_compute; discriminate.
Qed.

(** The calls of the executor in a run of the loop, whatever its outcome:
    at most one for each batch that carries no reorg header. *)
Lemma executeAndSaveFrom_calls hdr ibs : forall parentHash n r n',
  executeAndSaveFrom rc hdr parentHash ibs n = (r, n') ->
  exists evs,
    Node.events n' = Node.events n ++ evs /\
    executions evs <= canonicalCount ibs.
Proof.
  induction ibs as [|ib rest IH]; intros parentHash n r n' Hrun.
  - injection Hrun as <- <-. exists []. rewrite app_nil_r.
    split; [reflexivity|]. vm_compute. discriminate.
  - cbn [executeAndSaveFrom] in Hrun. unfold bind in Hrun.
    destruct (executeAndSaveBatch rc hdr parentHash ib n) as [[ph1|e] n1] eqn:Hstep.
    + destruct (executeAndSaveBatch_calls _ _ _ _ _ _ Hstep) as (evs1 & Hevs1 & Hone).
      destruct (IH _ _ _ _ Hrun) as (evs & Hevs & Hrest).
      exists (evs1 ++ evs). split.
      * rewrite Hevs, Hevs1, app_assoc. reflexivity.
      * rewrite executions_app, canonicalCount_cons. lia.
    + injection Hrun as <- <-.
      destruct (executeAndSaveBatch_calls _ _ _ _ _ _ Hstep) as (evs1 & Hevs1 & Hone).
      exists evs1. split; [exact Hevs1|].
      rewrite canonicalCount_cons. pose proof (canonicalCount_nonneg rest). lia.
Qed.


(** One iteration reads, of the header, the coinbase and the base fee, and
    of the batch neither the height nor the hash of the transactions nor the
    gas limit. *)
Lemma executeAndSaveBatch_same hdr hdr' parentHash ib ib' n :
  CalldataRollupHeader.Coinbase hdr = CalldataRollupHeader.Coinbase hdr' ->
  CalldataRollupHeader.BaseFee hdr = CalldataRollupHeader.BaseFee hdr' ->
  sameForExecution ib ib' ->
  executeAndSaveBatch rc hdr parentHash ib n
  = executeAndSaveBatch rc hdr' parentHash ib' n.
Proof.
  intros Hcoinbase Hfee (Htxs & Hseq & Htime & Hproof & Hcb & Hbf & Hheader).
  unfold executeAndSaveBatch, computeBatch.
  rewrite Htxs, Hseq, Htime, Hproof, Hcb, Hbf, Hheader, Hcoinbase, Hfee.
  reflexivity.
Qed.

Lemma executeAndSaveFrom_same hdr hdr' ibs ibs' :
  CalldataRollupHeader.Coinbase hdr = CalldataRollupHeader.Coinbase hdr' ->
  CalldataRollupHeader.BaseFee hdr = CalldataRollupHeader.BaseFee hdr' ->
  Forall2 sameForExecution ibs ibs' ->
  forall parentHash n,
    executeAndSaveFrom rc hdr parentHash ibs n
    = executeAndSaveFrom rc hdr' parentHash ibs' n.
Proof.
  intros Hcoinbase Hfee Hsame.
  induction Hsame as [|ib ib' rest rest' Hone Hrest IH]; intros parentHash n.
  - reflexivity.
  - cbn [executeAndSaveFrom]. unfold bind.
    rewrite (executeAndSaveBatch_same hdr hdr' _ ib ib' n Hcoinbase Hfee Hone).
    destruct (executeAndSaveBatch rc hdr' parentHash ib' n) as [[ph1|e] n1];
      [apply IH|reflexivity].
Qed.

(** X21. What the execution reads: of the header, the first canonical
    parent hash, the first sequence number as a [uint64], the coinbase and
    the base fee; of each reconstructed batch, neither its height nor the
    hash of its transactions nor its gas limit. Two runs that differ only in
    the rest have the same outcome and leave the same node. *)
Theorem execution_reads hdr hdr' ibs ibs' n :
  CalldataRollupHeader.FirstCanonParentHash hdr
  = CalldataRollupHeader.FirstCanonParentHash hdr' ->
  big_Uint64 (CalldataRollupHeader.FirstBatchSequence hdr)
  = big_Uint64 (CalldataRollupHeader.FirstBatchSequence hdr') ->
  CalldataRollupHeader.Coinbase hdr = CalldataRollupHeader.Coinbase hdr' ->
  CalldataRollupHeader.BaseFee hdr = CalldataRollupHeader.BaseFee hdr' ->
  Forall2 sameForExecution ibs ibs' ->
  executeAndSaveIncompleteBatches rc hdr ibs n
  = executeAndSaveIncompleteBatches rc hdr' ibs' n.
Proof.
  intros Hparent Hseq Hcoinbase Hfee Hsame.
  unfold executeAndSaveIncompleteBatches. rewrite Hparent, Hseq.
  unfold bind.
  match goal with
  | |- match ?guard with _ => _ end = _ => destruct guard as [[[]|e] n1]
  end; [|reflexivity].
  rewrite (executeAndSaveFrom_same hdr hdr' ibs ibs' Hcoinbase Hfee Hsame).
  reflexivity.
Qed.

Lemma canonicalCount_le_length bs : canonicalCount bs <= Z.of_nat (length bs).
Proof. unfold canonicalCount. pose proof (length_filter (fun b => isCanonical b = true) bs). lia. Qed.

(** X22. Whatever the outcome of [ProcessExtRollup], the executor is
    called at most once for each transaction list of the payload: the calls
    that create the genesis state or compute a batch are at most as many as
    the reconstructed batches that carry no reorg header, and never more than
    the transaction lists. *)
Theorem executor_calls_of_a_rollup fuel rollup n r n' :
  ProcessExtRollup fuel rc rollup n = (r, n') ->
  exists evs,
    Node.events n' = Node.events n ++ evs /\
    (forall txs : list (list L2Tx),
       decryptDecompressAndDeserialise rc (ExtRollup.BatchPayloads rollup) = Ok txs ->
       executions evs <= Z.of_nat (length txs)) /\
    (forall (txs : list (list L2Tx)) hdr ibs,
       decryptDecompressAndDeserialise rc (ExtRollup.BatchPayloads rollup) = Ok txs ->
       decryptDecompressAndDeserialise rc (ExtRollup.CalldataRollupHeader rollup)
       = Ok hdr ->
       createIncompleteBatches fuel (Node.storage n) hdr txs
         (RollupHeader.CompressionL1Head (ExtRollup.Header rollup)) = Ok ibs ->
       executions evs <= canonicalCount ibs).
Proof.
  intros Hrun.
  unfold ProcessExtRollup, bind, lift, read in Hrun.
  destruct (decryptDecompressAndDeserialise rc (ExtRollup.BatchPayloads rollup))
    as [txs|e] eqn:Htxs.
  2:{ injection Hrun as <- <-. exists []. rewrite app_nil_r.
      split; [reflexivity|]. split; intros; discriminate. }
  destruct (decryptDecompressAndDeserialise rc (ExtRollup.CalldataRollupHeader rollup))
    as [hdr|e] eqn:Hhdr.
  2:{ injection Hrun as <- <-. exists []. rewrite app_nil_r.
      split; [reflexivity|]. split.
      - intros txs' Htxs'. change (executions []) with 0. lia.
      - intros; discriminate. }
  destruct (createIncompleteBatches fuel (Node.storage n) hdr txs
              (RollupHeader.CompressionL1Head (ExtRollup.Header rollup)))
    as [ibs|e] eqn:Hibs.
  2:{ injection Hrun as <- <-. exists []. rewrite app_nil_r.
      split; [reflexivity|]. split.
      - intros txs' Htxs'. change (executions []) with 0. lia.
      - intros txs' hdr' ibs' Htxs' Hhdr' Hibs'.
        injection Htxs' as <-. injection Hhdr' as <-. congruence. }
  assert (Hloop : exists evs,
             Node.events n' = Node.events n ++ evs /\
             executions evs <= canonicalCount ibs).
  { unfold executeAndSaveIncompleteBatches, bind in Hrun.
    match type of Hrun with
    | match (match ?guard with _ => _ end) with _ => _ end = _ =>
        destruct guard as [[[]|e] n1] eqn:Hguard
    end.
    - assert (n1 = n) as ->.
      { destruct (negb _) in Hguard.
        - unfold read in Hguard.
          destruct (FetchBatch (Node.storage n) _); injection Hguard; auto.
        - injection Hguard; auto. }
      destruct (executeAndSaveFrom rc hdr _ ibs n) as [[ph|e] n2] eqn:Hfrom;
        destruct (executeAndSaveFrom_calls _ _ _ _ _ _ Hfrom) as (evs & Hevs & Hle);
        injection Hrun as <- <-; eauto.
    - assert (n1 = n) as ->.
      { destruct (negb _) in Hguard.
        - unfold read in Hguard.
          destruct (FetchBatch (Node.storage n) _); injection Hguard; auto.
        - injection Hguard; auto. }
      injection Hrun as <- <-. exists []. rewrite app_nil_r.
      split; [reflexivity|]. change (executions []) with 0.
      apply canonicalCount_nonneg. }
  destruct Hloop as (evs & Hevs & Hle).
  exists evs. split; [exact Hevs|]. split.
  - intros txs' Htxs'. injection Htxs' as <-.
    pose proof (canonicalCount_le_length ibs) as Hcount.
    apply createIncompleteBatches_loop in Hibs as (l1Heights & path & Hloop).
    apply incompleteBatchesFrom_length in Hloop. lia.
  - intros txs' hdr' ibs' Htxs' Hhdr' Hibs'.
    injection Htxs' as <-. injection Hhdr' as <-.
    rewrite Hibs in Hibs'. injection Hibs' as <-. exact Hle.
Qed.

(** X23. [ProcessExtRollup] stops before the execution, with the error and
    the node as it was, when the payload or the calldata header does not
    open or the reconstruction fails; on a node that does not hold the block
    of the compression head the error wraps the storage's not-found error. *)
Theorem process_ext_rollup_stops_early fuel rollup n :
  (forall e,
     decryptDecompressAndDeserialise (A := list (list L2Tx)) rc
       (ExtRollup.BatchPayloads rollup) = Err e ->
     ProcessExtRollup fuel rc rollup n = (Err e, n)) /\
  (forall (txs : list (list L2Tx)) e,
     decryptDecompressAndDeserialise rc (ExtRollup.BatchPayloads rollup) = Ok txs ->
     decryptDecompressAndDeserialise (A := CalldataRollupHeader.t) rc
       (ExtRollup.CalldataRollupHeader rollup) = Err e ->
     ProcessExtRollup fuel rc rollup n = (Err e, n)) /\
  (forall (txs : list (list L2Tx)) hdr e,
     decryptDecompressAndDeserialise rc (ExtRollup.BatchPayloads rollup) = Ok txs ->
     decryptDecompressAndDeserialise rc (ExtRollup.CalldataRollupHeader rollup)
     = Ok hdr ->
     createIncompleteBatches fuel (Node.storage n) hdr txs
       (RollupHeader.CompressionL1Head (ExtRollup.Header rollup)) = Err e ->
     ProcessExtRollup fuel rc rollup n = (Err e, n)) /\
  (forall (txs : list (list L2Tx)) (hdr : CalldataRollupHeader.t),
     decryptDecompressAndDeserialise rc (ExtRollup.BatchPayloads rollup) = Ok txs ->
     decryptDecompressAndDeserialise rc (ExtRollup.CalldataRollupHeader rollup)
     = Ok hdr ->
     FetchBlock (Node.storage n)
       (RollupHeader.CompressionL1Head (ExtRollup.Header rollup)) = Err ErrNotFound ->
     exists e,
       ProcessExtRollup fuel rc rollup n = (Err e, n) /\
       errors_Is e ErrNotFound = true).
Proof.
  unfold ProcessExtRollup, bind, lift, read.
  repeat split.
  - intros e ->. reflexivity.
  - intros txs e -> ->. reflexivity.
  - intros txs hdr e -> -> ->. reflexivity.
  - intros txs hdr -> -> Hhead. unfold createIncompleteBatches.
    rewrite Hhead. cbn [rbind]. eexists. split; reflexivity.
Qed.

End ExecuteCoverage.

(** * Examples on the concrete node *)

Module Examples.
Import Scenario.

(** One goal for each element of a list given in full. *)
Ltac each_element :=
  repeat match goal with
         | |- Forall _ _ => constructor
         | |- Forall2 _ _ _ => constructor
         end.

(** ** Building *)

(** Two batches [2^63] seconds apart: the time delta the builder writes is
    [-2^63], not the difference of the times. *)
Lemma time_delta_wraps_around :
  BatchHeader.Time (Batch.Header batch_late)
  - BatchHeader.Time (Batch.Header batch_early) = 2 ^ 63 /\
  exists h enc,
    createRollupHeader sequencer_plain rollup_far_times = Ok h /\
    CalldataRollupHeader.BatchTimeDeltas h !! 1%nat = Some enc /\
    GobDecode enc = Ok (- 2 ^ 63).
Proof.
  split; [reflexivity|].
  exists (match createRollupHeader sequencer_plain rollup_far_times with
          | Ok h => h
          | Err _ => calldata_plain
          end), (GobEncode (- 2 ^ 63)).
  repeat split; vm_compute; reflexivity.
Qed.

Lemma headers_encode (batches : list Batch.t) :
  Forall (fun b => exists enc, rlp_EncodeToBytes (Batch.Header b) = Ok enc) batches ->
  forall b, b ∈ batches -> exists enc, rlp_EncodeToBytes (Batch.Header b) = Ok enc.
Proof. intros Hall b Hb. rewrite Forall_forall in Hall. auto. Qed.

Lemma headers_encode_plain :
  forall b, b ∈ Rollup.Batches rollup_plain ->
            exists enc, rlp_EncodeToBytes (Batch.Header b) = Ok enc.
Proof.
  apply headers_encode.
  repeat constructor; eexists; vm_compute; reflexivity.
Qed.

Lemma headers_encode_reorg :
  forall b, b ∈ Rollup.Batches rollup_reorg ->
            exists enc, rlp_EncodeToBytes (Batch.Header b) = Ok enc.
Proof.
  apply headers_encode.
  repeat constructor; eexists; vm_compute; reflexivity.
Qed.



Lemma deltas_of_rollup_header_witness :
  createRollupHeader sequencer_plain rollup_plain = Ok calldata_plain /\
  exists first blocks firstBlock,
    Rollup.Batches rollup_plain !! 0%nat = Some first /\
    proofBlocks (Rollup.Blocks rollup_plain) (Rollup.Batches rollup_plain) blocks /\
    blocks !! 0%nat = Some firstBlock /\
    CalldataRollupHeader.StartTime calldata_plain
    = BatchHeader.Time (Batch.Header first) /\
    CalldataRollupHeader.BatchTimeDeltas calldata_plain !! 0%nat
    = Some (GobEncode 0) /\
    CalldataRollupHeader.L1HeightDeltas calldata_plain !! 0%nat
    = Some (GobEncode (Block.Number firstBlock)) /\
    (forall (i : nat) b b',
       Rollup.Batches rollup_plain !! i = Some b ->
       Rollup.Batches rollup_plain !! S i = Some b' ->
       in_i64 (BatchHeader.Time (Batch.Header b') - BatchHeader.Time (Batch.Header b)) ->
       CalldataRollupHeader.BatchTimeDeltas calldata_plain !! S i
       = Some (GobEncode (BatchHeader.Time (Batch.Header b')
                          - BatchHeader.Time (Batch.Header b)))) /\
    (forall (i : nat) block block',
       blocks !! i = Some block -> blocks !! S i = Some block' ->
       in_i64 (Block.Number block' - Block.Number block) ->
       CalldataRollupHeader.L1HeightDeltas calldata_plain !! S i
       = Some (GobEncode (Block.Number block' - Block.Number block))).
Proof.
  assert (Hheader : createRollupHeader sequencer_plain rollup_plain
                    = Ok calldata_plain) by (vm_compute; reflexivity).
  split; [exact Hheader|].
  exact (deltas_of_rollup_header sequencer_plain rollup_plain calldata_plain Hheader).
Defined.

(** The header of the plain rollup: deltas [0, 2] and [7, 1], no reorgs. *)
Example header_plain :
  createRollupHeader sequencer_plain rollup_plain = Ok calldata_plain.
Proof. vm_compute. reflexivity. Qed.

Lemma reorgs_of_rollup_header_witness :
  createRollupHeader sequencer_storage rollup_reorg = Ok calldata_reorg /\
  exists first last reorgedBatches,
    Rollup.Batches rollup_reorg !! 0%nat = Some first /\
    Rollup.Batches rollup_reorg !! (length (Rollup.Batches rollup_reorg) - 1)%nat
    = Some last /\
    FetchNonCanonicalBatchesBetween sequencer_storage
      (big_Uint64 (Batch.SeqNo first)) (big_Uint64 (Batch.SeqNo last))
    = Ok reorgedBatches /\
    (reorgedBatches = [] ->
     CalldataRollupHeader.ReOrgs calldata_reorg = [] /\
     CalldataRollupHeader.ReOrgs calldata_reorg
     <> replicate (length (Rollup.Batches rollup_reorg)) []) /\
    (reorgedBatches <> [] ->
     length (CalldataRollupHeader.ReOrgs calldata_reorg)
     = length (Rollup.Batches rollup_reorg) /\
     forall (i : nat) b,
       Rollup.Batches rollup_reorg !! i = Some b ->
       (nonCanonicalIn reorgedBatches b ->
        exists enc, rlp_EncodeToBytes (Batch.Header b) = Ok enc /\
                    CalldataRollupHeader.ReOrgs calldata_reorg !! i = Some enc) /\
       (~ nonCanonicalIn reorgedBatches b ->
        CalldataRollupHeader.ReOrgs calldata_reorg !! i = Some [])).
Proof.
  assert (Hheader : createRollupHeader sequencer_storage rollup_reorg
                    = Ok calldata_reorg) by (vm_compute; reflexivity).
  split; [exact Hheader|].
  exact (reorgs_of_rollup_header sequencer_storage rollup_reorg calldata_reorg Hheader).
Defined.

(** The plain rollup on a storage with no non-canonical batch: no reorgs
    array; the rollup with a reorg in the middle: an array of three entries,
    the second one the encoded header. *)
Example reorgs_plain :
  CalldataRollupHeader.ReOrgs calldata_plain = [].
Proof. reflexivity. Qed.

Example reorgs_reorg :
  exists enc,
    rlp_EncodeToBytes (Batch.Header reorg11) = Ok enc /\
    CalldataRollupHeader.ReOrgs calldata_reorg = [[]; enc; []].
Proof. eexists. split; vm_compute; reflexivity. Qed.

(** ** Reconstruction *)

Lemma reconstruct_plain :
  createIncompleteBatches 10 receiver_storage calldata_plain transactions_plain 109
  = Ok batches_plain.
Proof. vm_compute. reflexivity. Qed.

Lemma tx_root_of_reconstructed_batches_witness :
  createIncompleteBatches 10 receiver_storage calldata_plain transactions_plain 109
  = Ok batches_plain /\
  (length batches_plain = length transactions_plain /\
   forall (i : nat) b batchTransactions,
     batches_plain !! i = Some b -> transactions_plain !! i = Some batchTransactions ->
     batchFromRollup.transactions b = batchTransactions /\
     (batchTransactions = [] -> batchFromRollup.txHash b = EmptyRootHash) /\
     (batchTransactions <> [] ->
      batchFromRollup.txHash b = DeriveSha batchTransactions)).
Proof.
  split; [exact reconstruct_plain|].
  exact (tx_root_of_reconstructed_batches 10 receiver_storage calldata_plain
           transactions_plain 109 batches_plain reconstruct_plain).
Defined.

(** The two batches of the plain rollup: one with a transaction, one with
    none. *)
Example tx_roots_plain :
  map batchFromRollup.txHash batches_plain = [DeriveSha [tx_a]; EmptyRootHash].
Proof. reflexivity. Qed.

(** A forged header whose second time delta is [-1] is reconstructed: the
    second batch is one second before the first. *)
Lemma negative_time_delta_is_accepted :
  traverse GobDecode (CalldataRollupHeader.BatchTimeDeltas calldata_negative_delta)
  = Ok [0; -1] /\
  exists bs,
    createIncompleteBatches 10 receiver_storage calldata_negative_delta
      transactions_plain 109 = Ok bs /\
    map batchFromRollup.time bs = [2000; 1999].
Proof.
  split; [vm_compute; reflexivity|].
  exists (reconstructed calldata_negative_delta transactions_plain).
  split; vm_compute; reflexivity.
Qed.

Lemma reconstruct_negative_delta :
  createIncompleteBatches 10 receiver_storage calldata_negative_delta
    transactions_plain 109
  = Ok (reconstructed calldata_negative_delta transactions_plain).
Proof. vm_compute. reflexivity. Qed.

Lemma times_of_reconstructed_batches_witness :
  createIncompleteBatches 10 receiver_storage calldata_plain transactions_plain 109
  = Ok batches_plain /\
  (length transactions_plain <= length (map GobEncode [0; -1]%Z))%nat /\
  traverse GobDecode (take (length transactions_plain) (map GobEncode [0; -1]))
  = Ok [0; -1] /\
  (exists deltas,
     traverse GobDecode
       (take (length transactions_plain)
          (CalldataRollupHeader.BatchTimeDeltas calldata_plain)) = Ok deltas /\
     forall (k : nat) b,
       batches_plain !! k = Some b ->
       batchFromRollup.time b
       = u64 (CalldataRollupHeader.StartTime calldata_plain
              + sumZ (take (S k) deltas))) /\
  exists bs',
    createIncompleteBatches 10 receiver_storage
      (withBatchTimeDeltas (map GobEncode [0; -1]) calldata_plain)
      transactions_plain 109 = Ok bs' /\
    length bs' = length transactions_plain /\
    forall (k : nat) b,
      bs' !! k = Some b ->
      batchFromRollup.time b
      = u64 (CalldataRollupHeader.StartTime calldata_plain
             + sumZ (take (S k) [0; -1])).
Proof.
  assert (Hlen : (length transactions_plain <= length (map GobEncode [0; -1]%Z))%nat)
    by (vm_compute; reflexivity).
  assert (Hdeltas : traverse GobDecode
                      (take (length transactions_plain) (map GobEncode [0; -1]))
                    = Ok [0; -1]) by (vm_compute; reflexivity).
  split; [exact reconstruct_plain|]. split; [exact Hlen|]. split; [exact Hdeltas|].
  destruct (times_of_reconstructed_batches 10 receiver_storage calldata_plain
              transactions_plain 109 batches_plain reconstruct_plain)
    as [Htimes Hany].
  split; [exact Htimes|].
  exact (Hany (map GobEncode [0; -1]) [0; -1] Hlen Hdeltas).
Defined.

(** A forged header whose first canonical height is the last [int64]: the
    second canonical batch gets the first [int64] as height, below the
    height of the batch before it. *)
Lemma heights_wrap_around :
  CalldataRollupHeader.FirstCanonBatchHeight calldata_last_height = 2 ^ 63 - 1 /\
  exists b0 b1,
    createIncompleteBatches 10 receiver_storage calldata_last_height
      transactions_plain 109 = Ok [b0; b1] /\
    isCanonical b0 = true /\ isCanonical b1 = true /\
    batchFromRollup.height b0 = 2 ^ 63 - 1 /\
    batchFromRollup.height b1 = - 2 ^ 63.
Proof.
  split; [reflexivity|].
  exists (default (batchFromRollup.mk [] 0 0 0 0 0 0 0 0 None)
            (reconstructed calldata_last_height transactions_plain !! 0%nat)),
         (default (batchFromRollup.mk [] 0 0 0 0 0 0 0 0 None)
            (reconstructed calldata_last_height transactions_plain !! 1%nat)).
  repeat split; vm_compute; reflexivity.
Qed.

Lemma reconstruct_reorg :
  createIncompleteBatches 10 receiver_storage calldata_reorg transactions_reorg 109
  = Ok batches_reorg.
Proof. vm_compute. reflexivity. Qed.

Lemma heights_of_reconstructed_batches_witness :
  createIncompleteBatches 10 receiver_storage calldata_reorg transactions_reorg 109
  = Ok batches_reorg /\
  0 <= CalldataRollupHeader.FirstCanonBatchHeight calldata_reorg < 2 ^ 63 /\
  CalldataRollupHeader.FirstCanonBatchHeight calldata_reorg
  + canonicalCount batches_reorg <= 2 ^ 63 /\
  ((forall (k : nat) b,
      batches_reorg !! k = Some b -> isCanonical b = true ->
      batchFromRollup.height b
      = CalldataRollupHeader.FirstCanonBatchHeight calldata_reorg
        + canonicalCount (take k batches_reorg)) /\
   (forall (k : nat) b,
      batches_reorg !! k = Some b -> isCanonical b = false ->
      batchFromRollup.height b
      = CalldataRollupHeader.FirstCanonBatchHeight calldata_reorg - 1
        + canonicalCount (take k batches_reorg)) /\
   (forall (i j : nat) bi bj,
      (i < j)%nat -> batches_reorg !! i = Some bi -> batches_reorg !! j = Some bj ->
      isCanonical bi = true -> isCanonical bj = true ->
      batchFromRollup.height bi < batchFromRollup.height bj)).
Proof.
  assert (Hfirst : 0 <= CalldataRollupHeader.FirstCanonBatchHeight calldata_reorg
                   < 2 ^ 63) by (vm_compute; split; [discriminate|reflexivity]).
  assert (Hlast : CalldataRollupHeader.FirstCanonBatchHeight calldata_reorg
                  + canonicalCount batches_reorg <= 2 ^ 63)
    by (vm_compute; discriminate).
  split; [exact reconstruct_reorg|]. split; [exact Hfirst|]. split; [exact Hlast|].
  exact (heights_of_reconstructed_batches 10 receiver_storage calldata_reorg
           transactions_reorg 109 batches_reorg reconstruct_reorg Hfirst Hlast).
Defined.

(** The heights of the rollup with a reorg in the middle: [h, h, h + 1]. *)
Example heights_reorg :
  map batchFromRollup.height batches_reorg = [10; 10; 11].
Proof. reflexivity. Qed.

(** ** L1 ancestors *)

(** The second batch refers to the height 9 and the rollup was compressed
    at the block of height 8: the resolver returns a map from the minimum, 7,
    to the head, without the height 9, and the reconstruction stops at its
    own check of the map. *)
Lemma referenced_height_above_head_is_missing :
  calculateL1HeightsFromDeltas calldata_above_head transactions_plain = Ok [7; 9] /\
  FetchBlock receiver_storage 108 = Ok (l1_block 8) /\
  (exists path,
     calcL1AncestorsOfHeight 10 receiver_storage (big_NewInt (i64 7)) (l1_block 8) ∅
     = Ok path /\
     path !! 7 = Some (l1_block 7) /\ path !! 8 = Some (l1_block 8) /\
     path !! 9 = None) /\
  createIncompleteBatches 10 receiver_storage calldata_above_head
    transactions_plain 108
  = Err (ErrOther "programming error. L1 block not retrieved").
Proof.
  split; [vm_compute; reflexivity|]. split; [vm_compute; reflexivity|]. split.
  - exists (<[7 := l1_block 7]> (<[8 := l1_block 8]> ∅)).
    repeat split; vm_compute; reflexivity.
  - vm_compute. reflexivity.
Qed.

Lemma receiver_linked : linked receiver_storage.
Proof. apply linkedb_linked. vm_compute. reflexivity. Qed.

Lemma l1_ancestors_resolved_witness :
  linked receiver_storage /\
  FetchBlock receiver_storage 109 = Ok (l1_block 9) /\
  calculateL1HeightsFromDeltas calldata_plain transactions_plain = Ok [7; 8] /\
  slices_Min [7; 8] = Ok 7 /\
  7 < 2 ^ 63 /\
  Block.NumberU64 (l1_block 9) < Z.of_nat 10 /\
  match calcL1AncestorsOfHeight 10 receiver_storage (big_NewInt (i64 7))
          (l1_block 9) ∅ with
  | Ok path =>
      (forall z block,
         path !! z = Some block ->
         ancestor receiver_storage (l1_block 9) block /\ Block.NumberU64 block = z) /\
      (forall z, is_Some (path !! z)
                 <-> 7 <= z <= Block.NumberU64 (l1_block 9)) /\
      (forall h, h ∈ [7; 8] -> h <= Block.NumberU64 (l1_block 9) ->
                 is_Some (path !! h))
  | Err e =>
      e = ErrNotFound /\
      exists block, ancestor receiver_storage (l1_block 9) block /\
                    FetchBlock receiver_storage (Block.ParentHash block)
                    = Err ErrNotFound
  end.
Proof.
  assert (Hhead : FetchBlock receiver_storage 109 = Ok (l1_block 9))
    by (vm_compute; reflexivity).
  assert (Hheights : calculateL1HeightsFromDeltas calldata_plain transactions_plain
                     = Ok [7; 8]) by (vm_compute; reflexivity).
  assert (Hmin : slices_Min [7; 8] = Ok 7) by reflexivity.
  assert (Hsmall : 7 < 2 ^ 63) by reflexivity.
  assert (Hfuel : Block.NumberU64 (l1_block 9) < Z.of_nat 10) by reflexivity.
  split; [exact receiver_linked|]. split; [exact Hhead|]. split; [exact Hheights|].
  split; [exact Hmin|]. split; [exact Hsmall|]. split; [exact Hfuel|].
  exact (l1_ancestors_resolved 10 receiver_storage calldata_plain transactions_plain
           109 (l1_block 9) [7; 8] 7 receiver_linked Hhead Hheights Hmin Hsmall Hfuel).
Defined.

(** A head whose parents are not stored: the resolver fails with the
    storage's error. *)
Example missing_l1_ancestor :
  createIncompleteBatches 10
    (Storage.mk {[109 := l1_block 9]} ∅ ∅ ∅ []) calldata_plain transactions_plain 109
  = Err ErrNotFound.
Proof. vm_compute. reflexivity. Qed.

(** ** Execution *)

(** A forged header whose first sequence number is [2^64]: it is not the
    genesis sequence number, no batch has its parent hash, and still the
    batches are executed and stored, the first as the genesis batch. *)
Lemma wrapped_sequence_is_taken_for_genesis :
  CalldataRollupHeader.FirstBatchSequence calldata_wrapped_sequence = 2 ^ 64 /\
  L2GenesisSeqNo = 0 /\
  FetchBatch (Node.storage receiver)
    (CalldataRollupHeader.FirstCanonParentHash calldata_wrapped_sequence)
  = Err ErrNotFound /\
  exists n',
    executeAndSaveIncompleteBatches rc calldata_wrapped_sequence
      (reconstructed calldata_wrapped_sequence transactions_plain) receiver
    = (Ok tt, n') /\
    Node.events n' !! 1%nat = Some (EvStoreBatch (genesis_batch 107 2000 77 1)).
Proof.
  split; [reflexivity|]. split; [reflexivity|]. split; [vm_compute; reflexivity|].
  exists (snd (executeAndSaveIncompleteBatches rc calldata_wrapped_sequence
                 (reconstructed calldata_wrapped_sequence transactions_plain)
                 receiver)).
  split; vm_compute; reflexivity.
Qed.

Lemma executeAndSave_unknown_parent_witness :
  big_Uint64 (CalldataRollupHeader.FirstBatchSequence calldata_unknown_parent)
    <> L2GenesisSeqNo /\
  FetchBatch (Node.storage receiver)
    (CalldataRollupHeader.FirstCanonParentHash calldata_unknown_parent)
  = Err ErrNotFound /\
  executeAndSaveIncompleteBatches rc calldata_unknown_parent
    (reconstructed calldata_unknown_parent transactions_plain) receiver
  = (Err ErrNotFound, receiver).
Proof.
  assert (Hseq : big_Uint64 (CalldataRollupHeader.FirstBatchSequence
                               calldata_unknown_parent) <> L2GenesisSeqNo)
    by (vm_compute; discriminate).
  assert (Hparent : FetchBatch (Node.storage receiver)
                      (CalldataRollupHeader.FirstCanonParentHash calldata_unknown_parent)
                    = Err ErrNotFound) by (vm_compute; reflexivity).
  split; [exact Hseq|]. split; [exact Hparent|].
  exact (executeAndSave_unknown_parent rc calldata_unknown_parent _ receiver
           ErrNotFound Hseq Hparent).
Defined.

(** The rollup with a reorg in the middle, on the receiving node: the
    canonical batch before the reorg, the reorg batch and the canonical batch
    after it. The third batch is computed with the hash of the first as
    parent. *)
Lemma run_reorg :
  executeAndSaveFrom rc calldata_reorg
    (CalldataRollupHeader.FirstCanonParentHash calldata_reorg)
    ([] ++ incomplete10 :: [incomplete11] ++ [incomplete12]) receiver
  = (Ok (Batch.Hash batch12), receiver_after_reorg).
Proof. vm_compute. reflexivity. Qed.

Lemma executor_keeps_seq : executorKeepsSeqNo rc.
Proof.
  split.
  - intros ctx cb [= <-]. reflexivity.
  - intros l1Proof time coinbase baseFee g [= <-]. reflexivity.
Qed.

Lemma reorgs_in_place : Forall reorgInPlace batches_reorg.
Proof.
  each_element; intros header Hheader; vm_compute in Hheader;
    [discriminate|injection Hheader as <-; reflexivity|discriminate].
Qed.

Lemma keys_of_the_reorg :
  NoDup (lookupKeys ([] ++ incomplete10 :: [incomplete11] ++ [incomplete12])).
Proof.
  change (NoDup [10; 11; 12]).
  repeat (apply NoDup_cons; split; [rewrite ?elem_of_cons, elem_of_nil; lia|]).
  apply NoDup_nil. exact I.
Qed.

Lemma parent_hash_flows_through_canonical_batches_witness :
  executorKeepsSeqNo rc /\
  Forall reorgInPlace ([] ++ incomplete10 :: [incomplete11] ++ [incomplete12]) /\
  NoDup (lookupKeys ([] ++ incomplete10 :: [incomplete11] ++ [incomplete12])) /\
  isCanonical incomplete10 = true /\
  Forall (fun r => isCanonical r = false) [incomplete11] /\
  isCanonical incomplete12 = true /\
  executeAndSaveFrom rc calldata_reorg
    (CalldataRollupHeader.FirstCanonParentHash calldata_reorg)
    ([] ++ incomplete10 :: [incomplete11] ++ [incomplete12]) receiver
  = (Ok (Batch.Hash batch12), receiver_after_reorg) /\
  exists parentHash0 n0 b n1,
    executeAndSaveFrom rc calldata_reorg
      (CalldataRollupHeader.FirstCanonParentHash calldata_reorg) [] receiver
    = (Ok parentHash0, n0) /\
    executeAndSaveBatch rc calldata_reorg parentHash0 incomplete10 n0
    = (Ok (Batch.Hash b), n1) /\
    ((FetchBatchBySeqNo (Node.storage receiver)
        (big_Uint64 (batchFromRollup.seqNo incomplete10)) = Ok b /\ n1 = n0) \/
     (FetchBatchBySeqNo (Node.storage receiver)
        (big_Uint64 (batchFromRollup.seqNo incomplete10)) = Err ErrNotFound /\
      executedAs rc calldata_reorg parentHash0 incomplete10 b /\
      exists evs, Node.events n1 = Node.events n0 ++ evs /\ EvStoreBatch b ∈ evs)) /\
    executeAndSaveFrom rc calldata_reorg (Batch.Hash b) [incomplete11] n1
    = (Ok (Batch.Hash b), storeReorgs n1 [incomplete11]) /\
    executeAndSaveBatch rc calldata_reorg (Batch.Hash b) incomplete12
      (storeReorgs n1 [incomplete11])
    = (Ok (Batch.Hash batch12), receiver_after_reorg) /\
    FetchBatchBySeqNo (Node.storage receiver_after_reorg)
      (big_Uint64 (batchFromRollup.seqNo incomplete10)) = Ok b /\
    (FetchBatchBySeqNo (Node.storage receiver)
       (big_Uint64 (batchFromRollup.seqNo incomplete12)) = Err ErrNotFound ->
     big_Uint64 (batchFromRollup.seqNo incomplete12) <> L2GenesisSeqNo ->
     BatchExecutionContext.ParentPtr (contextOf rc (Batch.Hash b) incomplete12)
     = Batch.Hash b /\
     exists computedBatch evs,
       ComputeBatch (batchExecutor rc) (contextOf rc (Batch.Hash b) incomplete12)
         false = Ok computedBatch /\
       Batch.Hash batch12 = Batch.Hash (ComputedBatch.Batch computedBatch) /\
       Node.events receiver_after_reorg
       = Node.events (storeReorgs n1 [incomplete11])
         ++ EvComputeBatch (contextOf rc (Batch.Hash b) incomplete12) :: evs).
Proof.
  assert (Hreorgs : Forall (fun r => isCanonical r = false) [incomplete11])
    by (each_element; reflexivity).
  split; [exact executor_keeps_seq|]. split; [exact reorgs_in_place|].
  split; [exact keys_of_the_reorg|].
  split; [reflexivity|]. split; [exact Hreorgs|]. split; [reflexivity|].
  split; [exact run_reorg|].
  exact (parent_hash_flows_through_canonical_batches rc calldata_reorg
           (CalldataRollupHeader.FirstCanonParentHash calldata_reorg)
           [] incomplete10 [incomplete11] incomplete12 receiver
           (Batch.Hash batch12) receiver_after_reorg
           executor_keeps_seq reorgs_in_place keys_of_the_reorg
           eq_refl Hreorgs eq_refl run_reorg).
Defined.

(** A forged rollup of the batches 10 to 13 whose position 1 carries a
    header with the sequence number 12. The reorg batch is stored under 12;
    the canonical batch 12 then finds it and is skipped, leaving the hash of
    the reorg batch as parent hash; and the canonical batch 13 is computed
    with the hash of the reorg batch as parent. Batch 12 is never
    executed. *)
Lemma reorg_header_out_of_place_becomes_parent :
  map (fun ib => (batchFromRollup.seqNo ib, isCanonical ib)) Faults.batches_displaced
  = [(10, true); (11, false); (12, true); (13, true)] /\
  (Faults.batches_displaced !! 1%nat ≫= batchFromRollup.header)
  = Some (Batch.Header Faults.displaced) /\
  Batch.SeqNo Faults.displaced = 12 /\
  exists n',
    ProcessExtRollup 10 rc Faults.ext_displaced receiver
    = (Ok Faults.calldata_displaced, n') /\
    storedBatches (Node.events n')
    = [Faults.displaced10; Faults.displaced; Faults.displaced13] /\
    computedWith n'
    = [(10, Batch.Hash batch9); (13, Batch.Hash Faults.displaced)] /\
    FetchBatchBySeqNo (Node.storage n') 12 = Ok Faults.displaced /\
    FetchBatchBySeqNo (Node.storage n') 11 = Err ErrNotFound.
Proof.
  split; [vm_compute; reflexivity|]. split; [vm_compute; reflexivity|].
  split; [reflexivity|].
  exists (snd (ProcessExtRollup 10 rc Faults.ext_displaced receiver)).
  split; [vm_compute; reflexivity|]. split; [vm_compute; reflexivity|].
  split; [vm_compute; reflexivity|]. split; vm_compute; reflexivity.
Qed.

(** A forged rollup whose first sequence number is the last [uint64]: the
    batches have the sequence numbers -1, 0 and 1, and the first and the third
    are looked up under 1. The third batch finds the first and is skipped:
    the run leaves the hash of the first batch as parent hash, and the third
    batch is never executed. *)
Example mirrored_sequence_numbers_share_a_key :
  map batchFromRollup.seqNo Faults.batches_mirrored = [-1; 0; 1] /\
  lookupKeys Faults.batches_mirrored = [1; 0; 1] /\
  Forall (fun ib => isCanonical ib = true) Faults.batches_mirrored /\
  exists b n',
    executeAndSaveFrom rc Faults.calldata_mirrored (Batch.Hash batch9)
      Faults.batches_mirrored receiver = (Ok (Batch.Hash b), n') /\
    Batch.SeqNo b = -1 /\
    map Batch.SeqNo (storedBatches (Node.events n')) = [-1; 0] /\
    computedWith n' = [(-1, Batch.Hash batch9)].
Proof.
  split; [reflexivity|]. split; [vm_compute; reflexivity|].
  split; [each_element; reflexivity|].
  exists (computed_batch (context 107 (Batch.Hash batch9) [tx_a] 2000 (-1))),
         (snd (executeAndSaveFrom rc Faults.calldata_mirrored (Batch.Hash batch9)
                 Faults.batches_mirrored receiver)).
  split; [vm_compute; reflexivity|]. split; [reflexivity|].
  split; vm_compute; reflexivity.
Qed.

(** An executor that numbers a batch one above the sequence number it is
    asked for: the batch computed for the sequence number 10 is stored under
    11, the canonical batch 11 finds it and is skipped, and the run leaves the
    hash of that batch as parent hash. *)
Example renumbered_batch_is_found_by_the_next :
  map (fun ib => (batchFromRollup.seqNo ib, isCanonical ib)) batches_plain
  = [(10, true); (11, true)] /\
  exists b n',
    executeAndSaveFrom Faults.renumbering_rc calldata_plain (Batch.Hash batch9)
      batches_plain receiver = (Ok (Batch.Hash b), n') /\
    storedBatches (Node.events n') = [b] /\
    Batch.SeqNo b = 11 /\
    computedWith n' = [(10, Batch.Hash batch9)] /\
    FetchBatchBySeqNo (Node.storage n') 10 = Err ErrNotFound.
Proof.
  split; [reflexivity|].
  exists (computed_batch (context 107 (Batch.Hash batch9) [tx_a] 2000 11)),
         (snd (executeAndSaveFrom Faults.renumbering_rc calldata_plain
                 (Batch.Hash batch9) batches_plain receiver)).
  split; [vm_compute; reflexivity|]. split; [vm_compute; reflexivity|].
  split; [reflexivity|]. split; vm_compute; reflexivity.
Qed.

(** A node that holds batch 11 under the sequence number 11, and the
    rollup whose batch at position 1 carries the header of another batch
    with that sequence number. The iteration finds the sequence number and
    skips the batch: the node is left as it was, and after the whole rollup
    was processed the carried batch is still not in the storage. *)
Example stored_sequence_number_skips_the_reorg :
  batchFromRollup.header incomplete11 = Some (Batch.Header reorg11) /\
  FetchBatchBySeqNo (Node.storage receiver_with_batch11)
    (big_Uint64 (batchFromRollup.seqNo incomplete11)) = Ok batch11 /\
  executeAndSaveBatch rc calldata_reorg (Batch.Hash batch10) incomplete11
    receiver_with_batch11
  = (Ok (Batch.Hash batch10), receiver_with_batch11) /\
  fst (ProcessExtRollup 10 rc ext_reorg receiver_with_batch11) = Ok calldata_reorg /\
  FetchBatch
    (Node.storage (snd (ProcessExtRollup 10 rc ext_reorg receiver_with_batch11)))
    (Batch.Hash reorg11)
  = Err ErrNotFound /\
  storedBatches
    (Node.events (snd (ProcessExtRollup 10 rc ext_reorg receiver_with_batch11)))
  = [batch12].
Proof. vm_compute. repeat split; reflexivity. Qed.

(** The batches stored for the rollup with a reorg: the three batches of
    the rollup; the parent of the third is the hash of the first, not of the
    reorg batch. *)
Example stored_reorg :
  storedBatches (Node.events receiver_after_reorg) = [batch10; reorg11; batch12] /\
  BatchHeader.ParentHash (Batch.Header batch12) = Batch.Hash batch10.
Proof. split; vm_compute; reflexivity. Qed.

(** ** Processing a rollup *)


(** A rollup whose second batch was produced for another coinbase than the
    first: the batch stored for it has the coinbase of the first. *)
Example coinbase_of_the_first_batch :
  CreateExtRollup rc sequencer_plain rollup_two_coinbases = Ok ext_two_coinbases /\
  BatchHeader.Coinbase (Batch.Header batch11_other) = 88 /\
  exists b,
    storedBatches (Node.events (snd (ProcessExtRollup 10 rc ext_two_coinbases receiver)))
    = [batch10; b] /\
    BatchHeader.Coinbase (Batch.Header b) = 77.
Proof.
  split; [vm_compute; reflexivity|]. split; [reflexivity|].
  exists (computed_batch (context 108 (Batch.Hash batch10) [] 2002 11)).
  split; vm_compute; reflexivity.
Qed.











(** The rollup with a reorg on the node that holds batch 10: the reorg
    batch and batch 12 are stored, batch 10 is not stored again, and batch 12
    has the hash of batch 10 as parent. *)
Example stored_on_a_node_with_batch10 :
  exists n',
    ProcessExtRollup 10 rc ext_reorg Faults.receiver_with_batch10
    = (Ok calldata_reorg, n') /\
    storedBatches (Node.events n') = [reorg11; batch12] /\
    computedWith n' = [(12, Batch.Hash batch10)].
Proof.
  exists (snd (ProcessExtRollup 10 rc ext_reorg Faults.receiver_with_batch10)).
  split; [vm_compute; reflexivity|]. split; vm_compute; reflexivity.
Qed.

(** A node that holds another batch under a sequence number of the rollup
    keeps it: the rollup's batch with that sequence number is not stored. *)
Example other_batch_under_a_sequence_number :
  FetchBatchBySeqNo (Node.storage receiver_with_batch11) 11 = Ok batch11 /\
  batch11 <> reorg11 /\
  exists n',
    ProcessExtRollup 10 rc ext_reorg receiver_with_batch11 = (Ok calldata_reorg, n') /\
    storedBatches (Node.events n') = [batch12] /\
    FetchBatchBySeqNo (Node.storage n') 11 = Ok batch11.
Proof.
  split; [vm_compute; reflexivity|]. split; [discriminate|].
  exists (snd (ProcessExtRollup 10 rc ext_reorg receiver_with_batch11)).
  split; [vm_compute; reflexivity|]. split; vm_compute; reflexivity.
Qed.

(** ** Processing a rollup again *)

(** The forged rollup whose carried header bears the sequence number 99:
    after the first call no batch has the sequence number 11 of its position,
    and the second call stores the batch again. *)
Lemma misplaced_reorg_is_stored_again :
  exists n1 n2,
    ProcessExtRollup 10 rc ext_misplaced receiver = (Ok calldata_misplaced, n1) /\
    FetchBatchBySeqNo (Node.storage n1) 11 = Err ErrNotFound /\
    ProcessExtRollup 10 rc ext_misplaced n1 = (Ok calldata_misplaced, n2) /\
    Node.events n2 = Node.events n1 ++ [EvStoreBatch misplaced].
Proof.
  exists (snd (ProcessExtRollup 10 rc ext_misplaced receiver)),
         (snd (ProcessExtRollup 10 rc ext_misplaced
                 (snd (ProcessExtRollup 10 rc ext_misplaced receiver)))).
  split; [vm_compute; reflexivity|]. split; [vm_compute; reflexivity|].
  split; vm_compute; reflexivity.
Qed.

Lemma process_reorg :
  ProcessExtRollup 10 rc ext_reorg receiver = (Ok calldata_reorg, receiver_after_reorg).
Proof. vm_compute. reflexivity. Qed.

Lemma process_ext_rollup_twice_witness :
  decryptDecompressAndDeserialise rc (ExtRollup.BatchPayloads ext_reorg)
  = Ok transactions_reorg /\
  decryptDecompressAndDeserialise rc (ExtRollup.CalldataRollupHeader ext_reorg)
  = Ok calldata_reorg /\
  createIncompleteBatches 10 (Node.storage receiver) calldata_reorg
    transactions_reorg (RollupHeader.CompressionL1Head (ExtRollup.Header ext_reorg))
  = Ok batches_reorg /\
  executorKeepsSeqNo rc /\
  Forall reorgInPlace batches_reorg /\
  ProcessExtRollup 10 rc ext_reorg receiver
  = (Ok calldata_reorg, receiver_after_reorg) /\
  Forall (fun ib =>
            exists b, FetchBatchBySeqNo (Node.storage receiver_after_reorg)
                        (big_Uint64 (batchFromRollup.seqNo ib)) = Ok b)
    batches_reorg /\
  ProcessExtRollup 10 rc ext_reorg receiver_after_reorg
  = (Ok calldata_reorg, receiver_after_reorg).
Proof.
  assert (Htxs : decryptDecompressAndDeserialise rc (ExtRollup.BatchPayloads ext_reorg)
                 = Ok transactions_reorg) by (vm_compute; reflexivity).
  assert (Hopen : decryptDecompressAndDeserialise rc
                    (ExtRollup.CalldataRollupHeader ext_reorg) = Ok calldata_reorg)
    by (vm_compute; reflexivity).
  assert (Hbatches : createIncompleteBatches 10 (Node.storage receiver) calldata_reorg
                       transactions_reorg
                       (RollupHeader.CompressionL1Head (ExtRollup.Header ext_reorg))
                     = Ok batches_reorg) by (vm_compute; reflexivity).
  split; [exact Htxs|]. split; [exact Hopen|]. split; [exact Hbatches|].
  split; [exact executor_keeps_seq|]. split; [exact reorgs_in_place|].
  split; [exact process_reorg|].
  exact (process_ext_rollup_twice rc calldata_reorg 10 ext_reorg receiver
           receiver_after_reorg transactions_reorg batches_reorg
           Htxs Hopen Hbatches executor_keeps_seq reorgs_in_place process_reorg).
Defined.

End Examples.
(** ** The further properties on the concrete node *)

Module Coverage.
Import Scenario.

(** *** The envelope *)

Lemma mask_mask b : mask (mask b) = b.
Proof. destruct b; vm_compute; reflexivity. Qed.

Lemma services_invert : servicesInvert rc.
Proof.
  split.
  - intros buf compressed Hcompressed. injection Hcompressed as <-. reflexivity.
  - intros buf encrypted Hencrypted. injection Hencrypted as <-.
    cbn [rc dataEncryptionService encryption Decrypt]. f_equal.
    induction buf as [|b buf IH]; [reflexivity|].
    cbn [map]. rewrite mask_mask, IH. reflexivity.
Qed.

Lemma calldata_plain_decodes_back : decodesBack calldata_plain.
Proof.
  intros enc Henc. vm_compute in Henc. injection Henc as <-.
  vm_compute. reflexivity.
Qed.

Lemma calldata_reorg_decodes_back : decodesBack calldata_reorg.
Proof.
  intros enc Henc. vm_compute in Henc. injection Henc as <-.
  vm_compute. reflexivity.
Qed.

Lemma transactions_reorg_decode_back :
  decodesBack (map Batch.Transactions (Rollup.Batches rollup_reorg)).
Proof.
  intros enc Henc. vm_compute in Henc. injection Henc as <-.
  vm_compute. reflexivity.
Qed.

Lemma open_what_was_sealed_witness :
  servicesInvert rc /\
  decodesBack calldata_plain /\
  serialiseCompressAndEncrypt rc calldata_plain
  = Ok (ExtRollup.CalldataRollupHeader ext_plain) /\
  decryptDecompressAndDeserialise rc (ExtRollup.CalldataRollupHeader ext_plain)
  = Ok calldata_plain.
Proof.
  assert (Hsealed : serialiseCompressAndEncrypt rc calldata_plain
                    = Ok (ExtRollup.CalldataRollupHeader ext_plain))
    by (vm_compute; reflexivity).
  split; [exact services_invert|]. split; [exact calldata_plain_decodes_back|].
  split; [exact Hsealed|].
  exact (open_what_was_sealed rc calldata_plain
           (ExtRollup.CalldataRollupHeader ext_plain)
           services_invert calldata_plain_decodes_back Hsealed).
Defined.

Lemma header_reorg :
  createRollupHeader sequencer_storage rollup_reorg = Ok calldata_reorg.
Proof. vm_compute. reflexivity. Qed.

Lemma header_of_the_reorg_decodes_back h :
  createRollupHeader sequencer_storage rollup_reorg = Ok h -> decodesBack h.
Proof.
  rewrite header_reorg. intros Hh. injection Hh as <-.
  exact calldata_reorg_decodes_back.
Qed.

Lemma CreateExtRollup_opens_witness :
  servicesInvert rc /\
  (forall h, createRollupHeader sequencer_storage rollup_reorg = Ok h ->
             decodesBack h) /\
  decodesBack (map Batch.Transactions (Rollup.Batches rollup_reorg)) /\
  CreateExtRollup rc sequencer_storage rollup_reorg = Ok ext_reorg /\
  ExtRollup.Header ext_reorg = Rollup.Header rollup_reorg /\
  decryptDecompressAndDeserialise rc (ExtRollup.BatchPayloads ext_reorg)
  = Ok (map Batch.Transactions (Rollup.Batches rollup_reorg)) /\
  exists h,
    createRollupHeader sequencer_storage rollup_reorg = Ok h /\
    decryptDecompressAndDeserialise rc (ExtRollup.CalldataRollupHeader ext_reorg)
    = Ok h.
Proof.
  assert (Hext : CreateExtRollup rc sequencer_storage rollup_reorg = Ok ext_reorg)
    by (vm_compute; reflexivity).
  split; [exact services_invert|].
  split; [exact header_of_the_reorg_decodes_back|].
  split; [exact transactions_reorg_decode_back|]. split; [exact Hext|].
  exact (CreateExtRollup_opens rc sequencer_storage rollup_reorg ext_reorg
           services_invert header_of_the_reorg_decodes_back
           transactions_reorg_decode_back Hext).
Defined.

(** A rollup with no batch, and one whose second batch proves against a
    block that the rollup does not carry. *)
Example builder_panics :
  CreateExtRollup rc sequencer_plain
    (Rollup.mk (RollupHeader.mk 109) [] proof_blocks)
  = Err (ErrPanic "index out of range") /\
  CreateExtRollup rc sequencer_plain
    (Rollup.mk (RollupHeader.mk 109) [batch10; batch11]
       (delete 108 proof_blocks))
  = Err (ErrPanic "nil pointer dereference").
Proof. split; vm_compute; reflexivity. Qed.

(** *** The builder *)

Lemma fields_of_rollup_header_witness :
  createRollupHeader sequencer_plain rollup_plain = Ok calldata_plain /\
  exists first,
    Rollup.Batches rollup_plain !! 0%nat = Some first /\
    CalldataRollupHeader.FirstBatchSequence calldata_plain = Batch.SeqNo first /\
    CalldataRollupHeader.Coinbase calldata_plain
    = BatchHeader.Coinbase (Batch.Header first) /\
    CalldataRollupHeader.BaseFee calldata_plain
    = BatchHeader.BaseFee (Batch.Header first) /\
    CalldataRollupHeader.GasLimit calldata_plain
    = BatchHeader.GasLimit (Batch.Header first) /\
    length (CalldataRollupHeader.BatchTimeDeltas calldata_plain)
    = length (Rollup.Batches rollup_plain) /\
    length (CalldataRollupHeader.L1HeightDeltas calldata_plain)
    = length (Rollup.Batches rollup_plain).
Proof.
  assert (Hheader : createRollupHeader sequencer_plain rollup_plain
                    = Ok calldata_plain) by (vm_compute; reflexivity).
  split; [exact Hheader|].
  exact (fields_of_rollup_header sequencer_plain rollup_plain calldata_plain Hheader).
Defined.

Lemma first_canonical_of_rollup_header_witness :
  createRollupHeader sequencer_storage rollup_reorg = Ok calldata_reorg /\
  exists first last reorgedBatches,
    Rollup.Batches rollup_reorg !! 0%nat = Some first /\
    Rollup.Batches rollup_reorg !! (length (Rollup.Batches rollup_reorg) - 1)%nat
    = Some last /\
    FetchNonCanonicalBatchesBetween sequencer_storage
      (big_Uint64 (Batch.SeqNo first)) (big_Uint64 (Batch.SeqNo last))
    = Ok reorgedBatches /\
    (forall (k : nat) b,
       Rollup.Batches rollup_reorg !! k = Some b ->
       ~ nonCanonicalIn reorgedBatches b ->
       (forall (j : nat) b', (j < k)%nat -> Rollup.Batches rollup_reorg !! j = Some b' ->
                             nonCanonicalIn reorgedBatches b') ->
       CalldataRollupHeader.FirstCanonBatchHeight calldata_reorg = Batch.Number b /\
       CalldataRollupHeader.FirstCanonParentHash calldata_reorg
       = BatchHeader.ParentHash (Batch.Header b)) /\
    ((forall b, b ∈ Rollup.Batches rollup_reorg -> nonCanonicalIn reorgedBatches b) ->
     CalldataRollupHeader.FirstCanonBatchHeight calldata_reorg = Batch.Number first /\
     CalldataRollupHeader.FirstCanonParentHash calldata_reorg
     = BatchHeader.ParentHash (Batch.Header first)).
Proof.
  split; [exact header_reorg|].
  exact (first_canonical_of_rollup_header sequencer_storage rollup_reorg
           calldata_reorg header_reorg).
Defined.

(** A rollup whose first batch is the reorged one: the first canonical
    height and parent hash are those of its second batch. *)
Example first_canonical_after_a_reorg :
  exists h,
    createRollupHeader sequencer_storage
      (Rollup.mk (RollupHeader.mk 109) [reorg11; batch12] proof_blocks) = Ok h /\
    CalldataRollupHeader.FirstBatchSequence h = 11 /\
    CalldataRollupHeader.FirstCanonBatchHeight h = Batch.Number batch12 /\
    CalldataRollupHeader.FirstCanonParentHash h
    = BatchHeader.ParentHash (Batch.Header batch12).
Proof. eexists. split; [vm_compute; reflexivity|]. repeat split. Qed.

Lemma reorg11_round_trips header enc :
  Some header ∈ [None; Some (Batch.Header reorg11); None] ->
  rlp_EncodeToBytes header = Ok enc ->
  enc <> [] /\ rlp_DecodeBytes enc = Ok header.
Proof.
  intros Hin Henc.
  assert (header = Batch.Header reorg11) as ->.
  { apply elem_of_cons in Hin as [Hin|Hin]; [discriminate|].
    apply elem_of_cons in Hin as [Hin|Hin]; [congruence|].
    apply elem_of_cons in Hin as [Hin|Hin]; [discriminate|].
    inversion Hin. }
  vm_compute in Henc. injection Henc as <-.
  split; [discriminate|vm_compute; reflexivity].
Qed.

Lemma reorg_entries_round_trip_witness :
  transformToByteArray [None; Some (Batch.Header reorg11); None]
  = Ok (CalldataRollupHeader.ReOrgs calldata_reorg) /\
  (forall header enc,
     Some header ∈ [None; Some (Batch.Header reorg11); None] ->
     rlp_EncodeToBytes header = Ok enc ->
     enc <> [] /\ rlp_DecodeBytes enc = Ok header) /\
  length (CalldataRollupHeader.ReOrgs calldata_reorg)
  = length [None; Some (Batch.Header reorg11); None] /\
  forall (j : nat) r,
    [None; Some (Batch.Header reorg11); None] !! j = Some r ->
    reorgedHeader (CalldataRollupHeader.ReOrgs calldata_reorg) j = Ok r.
Proof.
  assert (Hrun : transformToByteArray [None; Some (Batch.Header reorg11); None]
                 = Ok (CalldataRollupHeader.ReOrgs calldata_reorg))
    by (vm_compute; reflexivity).
  split; [exact Hrun|]. split; [exact reorg11_round_trips|].
  exact (reorg_entries_round_trip [None; Some (Batch.Header reorg11); None]
           (CalldataRollupHeader.ReOrgs calldata_reorg) Hrun reorg11_round_trips).
Defined.

(** *** The reconstruction *)

Lemma l1_heights_of_deltas_witness :
  calculateL1HeightsFromDeltas calldata_reorg transactions_reorg = Ok [7; 7; 8] /\
  length [7; 7; 8] = Nat.max 1 (length transactions_reorg) /\
  (Nat.max 1 (length transactions_reorg)
   <= length (CalldataRollupHeader.L1HeightDeltas calldata_reorg))%nat /\
  (exists enc referenceHeight,
     CalldataRollupHeader.L1HeightDeltas calldata_reorg !! 0%nat = Some enc /\
     GobDecode enc = Ok referenceHeight /\
     [7; 7; 8] !! 0%nat = Some (big_Uint64 referenceHeight)) /\
  forall (k : nat) h h',
    [7; 7; 8] !! k = Some h -> [7; 7; 8] !! S k = Some h' ->
    exists enc l1Delta,
      CalldataRollupHeader.L1HeightDeltas calldata_reorg !! S k = Some enc /\
      GobDecode enc = Ok l1Delta /\
      h' = i64 (big_Int64 l1Delta + i64 h) /\
      0 <= h' < 2 ^ 63.
Proof.
  assert (Hrun : calculateL1HeightsFromDeltas calldata_reorg transactions_reorg
                 = Ok [7; 7; 8]) by (vm_compute; reflexivity).
  split; [exact Hrun|].
  exact (l1_heights_of_deltas calldata_reorg transactions_reorg [7; 7; 8] Hrun).
Defined.

Lemma proof_blocks_of_the_reorg :
  proofBlocks (Rollup.Blocks rollup_reorg) (Rollup.Batches rollup_reorg)
    [l1_block 7; l1_block 7; l1_block 8].
Proof. repeat constructor. Qed.

Lemma heights_of_the_reorg :
  Forall (fun block => 0 <= Block.Number block < 2 ^ 63)
    [l1_block 7; l1_block 7; l1_block 8].
Proof. repeat constructor; vm_compute; congruence. Qed.

Lemma l1_heights_round_trip_witness :
  createRollupHeader sequencer_storage rollup_reorg = Ok calldata_reorg /\
  proofBlocks (Rollup.Blocks rollup_reorg) (Rollup.Batches rollup_reorg)
    [l1_block 7; l1_block 7; l1_block 8] /\
  Forall (fun block => 0 <= Block.Number block < 2 ^ 63)
    [l1_block 7; l1_block 7; l1_block 8] /\
  calculateL1HeightsFromDeltas calldata_reorg
    (map Batch.Transactions (Rollup.Batches rollup_reorg))
  = Ok (map Block.Number [l1_block 7; l1_block 7; l1_block 8]).
Proof.
  split; [exact header_reorg|]. split; [exact proof_blocks_of_the_reorg|].
  split; [exact heights_of_the_reorg|].
  exact (l1_heights_round_trip sequencer_storage rollup_reorg calldata_reorg
           [l1_block 7; l1_block 7; l1_block 8]
           header_reorg proof_blocks_of_the_reorg heights_of_the_reorg).
Defined.

Lemma far_times_are_uint64 :
  Forall (fun b => in_u64 (BatchHeader.Time (Batch.Header b)))
    (Rollup.Batches rollup_far_times).
Proof. repeat constructor; vm_compute; congruence. Qed.

(** The two batches [2^63] seconds apart: the time delta in the header is
    negative, and the reconstructed times are those of the batches. *)
Lemma times_round_trip_witness :
  createRollupHeader sequencer_plain rollup_far_times = Ok Faults.calldata_far_times /\
  Forall (fun b => in_u64 (BatchHeader.Time (Batch.Header b)))
    (Rollup.Batches rollup_far_times) /\
  createIncompleteBatches 10 receiver_storage Faults.calldata_far_times
    (map Batch.Transactions (Rollup.Batches rollup_far_times)) 109
  = Ok Faults.batches_far_times /\
  map batchFromRollup.time Faults.batches_far_times
  = map (fun b => BatchHeader.Time (Batch.Header b)) (Rollup.Batches rollup_far_times).
Proof.
  assert (Hheader : createRollupHeader sequencer_plain rollup_far_times
                    = Ok Faults.calldata_far_times) by (vm_compute; reflexivity).
  assert (Hrun : createIncompleteBatches 10 receiver_storage Faults.calldata_far_times
                   (map Batch.Transactions (Rollup.Batches rollup_far_times)) 109
                 = Ok Faults.batches_far_times) by (vm_compute; reflexivity).
  split; [exact Hheader|]. split; [exact far_times_are_uint64|]. split; [exact Hrun|].
  exact (times_round_trip 10 sequencer_plain receiver_storage rollup_far_times
           Faults.calldata_far_times 109 Faults.batches_far_times
           Hheader far_times_are_uint64 Hrun).
Defined.

Example far_times :
  CalldataRollupHeader.BatchTimeDeltas Faults.calldata_far_times
  = [GobEncode 0; GobEncode (- 2 ^ 63)] /\
  map batchFromRollup.time Faults.batches_far_times = [0; 2 ^ 63].
Proof. split; vm_compute; reflexivity. Qed.

Lemma headers_of_the_reorg_round_trip :
  Forall headerRoundTrips (Rollup.Batches rollup_reorg).
Proof.
  repeat constructor; (eexists; split; [vm_compute; reflexivity|]);
    (split; [discriminate|vm_compute; reflexivity]).
Qed.

Lemma reconstruction_of_the_rollup :
  createIncompleteBatches 10 receiver_storage calldata_reorg
    (map Batch.Transactions (Rollup.Batches rollup_reorg)) 109
  = Ok batches_reorg.
Proof. vm_compute. reflexivity. Qed.

Lemma reorg_headers_round_trip_witness :
  createRollupHeader sequencer_storage rollup_reorg = Ok calldata_reorg /\
  Forall headerRoundTrips (Rollup.Batches rollup_reorg) /\
  createIncompleteBatches 10 receiver_storage calldata_reorg
    (map Batch.Transactions (Rollup.Batches rollup_reorg)) 109
  = Ok batches_reorg /\
  exists first last reorgedBatches,
    Rollup.Batches rollup_reorg !! 0%nat = Some first /\
    Rollup.Batches rollup_reorg !! (length (Rollup.Batches rollup_reorg) - 1)%nat
    = Some last /\
    FetchNonCanonicalBatchesBetween sequencer_storage
      (big_Uint64 (Batch.SeqNo first)) (big_Uint64 (Batch.SeqNo last))
    = Ok reorgedBatches /\
    forall (k : nat) b ib,
      Rollup.Batches rollup_reorg !! k = Some b ->
      batches_reorg !! k = Some ib ->
      (nonCanonicalIn reorgedBatches b ->
       batchFromRollup.header ib = Some (Batch.Header b)) /\
      (~ nonCanonicalIn reorgedBatches b -> batchFromRollup.header ib = None).
Proof.
  split; [exact header_reorg|]. split; [exact headers_of_the_reorg_round_trip|].
  split; [exact reconstruction_of_the_rollup|].
  exact (reorg_headers_round_trip 10 sequencer_storage receiver_storage rollup_reorg
           calldata_reorg 109 batches_reorg
           header_reorg headers_of_the_reorg_round_trip reconstruction_of_the_rollup).
Defined.

Lemma sequence_of_the_reorg :
  contiguousFrom (Batch.SeqNo batch10) (Rollup.Batches rollup_reorg).
Proof. repeat split. Qed.

Lemma sequence_round_trip_witness :
  createRollupHeader sequencer_storage rollup_reorg = Ok calldata_reorg /\
  Rollup.Batches rollup_reorg !! 0%nat = Some batch10 /\
  contiguousFrom (Batch.SeqNo batch10) (Rollup.Batches rollup_reorg) /\
  0 <= Batch.SeqNo batch10 /\
  Batch.SeqNo batch10 + Z.of_nat (length (Rollup.Batches rollup_reorg)) < 2 ^ 63 /\
  createIncompleteBatches 10 receiver_storage calldata_reorg
    (map Batch.Transactions (Rollup.Batches rollup_reorg)) 109
  = Ok batches_reorg /\
  map batchFromRollup.seqNo batches_reorg
  = map Batch.SeqNo (Rollup.Batches rollup_reorg).
Proof.
  assert (Hpos : 0 <= Batch.SeqNo batch10) by (vm_compute; congruence).
  assert (Hbound : Batch.SeqNo batch10
                   + Z.of_nat (length (Rollup.Batches rollup_reorg)) < 2 ^ 63)
    by (vm_compute; reflexivity).
  split; [exact header_reorg|]. split; [reflexivity|].
  split; [exact sequence_of_the_reorg|]. split; [exact Hpos|]. split; [exact Hbound|].
  split; [exact reconstruction_of_the_rollup|].
  exact (sequence_round_trip 10 sequencer_storage receiver_storage rollup_reorg
           calldata_reorg 109 batches_reorg batch10
           header_reorg eq_refl sequence_of_the_reorg Hpos Hbound
           reconstruction_of_the_rollup).
Defined.

(** Batches that are not numbered one after the other: the builder takes
    them, and the reconstruction numbers them by position. *)
Example sequence_with_a_gap :
  exists h ibs,
    createRollupHeader sequencer_plain
      (Rollup.mk (RollupHeader.mk 109) [batch10; batch12] proof_blocks) = Ok h /\
    createIncompleteBatches 10 receiver_storage h
      (map Batch.Transactions [batch10; batch12]) 109 = Ok ibs /\
    map Batch.SeqNo [batch10; batch12] = [10; 12] /\
    map batchFromRollup.seqNo ibs = [10; 11].
Proof.
  eexists. eexists. split; [vm_compute; reflexivity|].
  split; [vm_compute; reflexivity|]. split; reflexivity.
Qed.

Lemma reconstruction_of_the_reorg :
  createIncompleteBatches 10 receiver_storage calldata_reorg transactions_reorg 109
  = Ok batches_reorg.
Proof. vm_compute. reflexivity. Qed.

Lemma second_of_the_reorg : batches_reorg !! 1%nat = Some incomplete11.
Proof. reflexivity. Qed.

Lemma sequence_of_reconstructed_batches_witness :
  createIncompleteBatches 10 receiver_storage calldata_reorg transactions_reorg 109
  = Ok batches_reorg /\
  batches_reorg !! 1%nat = Some incomplete11 /\
  batchFromRollup.seqNo incomplete11
  = i64 (big_Int64 (CalldataRollupHeader.FirstBatchSequence calldata_reorg)
         + Z.of_nat 1) /\
  transactions_reorg !! 1%nat = Some (batchFromRollup.transactions incomplete11) /\
  batchFromRollup.coinbase incomplete11 = CalldataRollupHeader.Coinbase calldata_reorg /\
  batchFromRollup.baseFee incomplete11 = CalldataRollupHeader.BaseFee calldata_reorg /\
  batchFromRollup.gasLimit incomplete11 = CalldataRollupHeader.GasLimit calldata_reorg.
Proof.
  split; [exact reconstruction_of_the_reorg|]. split; [exact second_of_the_reorg|].
  exact (sequence_of_reconstructed_batches 10 receiver_storage calldata_reorg
           transactions_reorg 109 batches_reorg reconstruction_of_the_reorg
           1%nat incomplete11 second_of_the_reorg).
Defined.

Lemma reorg_headers_of_reconstructed_batches_witness :
  createIncompleteBatches 10 receiver_storage calldata_reorg transactions_reorg 109
  = Ok batches_reorg /\
  batches_reorg !! 1%nat = Some incomplete11 /\
  (CalldataRollupHeader.ReOrgs calldata_reorg = [] ->
   batchFromRollup.header incomplete11 = None) /\
  (CalldataRollupHeader.ReOrgs calldata_reorg <> [] ->
   exists enc,
     CalldataRollupHeader.ReOrgs calldata_reorg !! 1%nat = Some enc /\
     (enc = [] -> batchFromRollup.header incomplete11 = None) /\
     (enc <> [] ->
      exists header,
        rlp_DecodeBytes enc = Ok header /\
        batchFromRollup.header incomplete11 = Some header)).
Proof.
  split; [exact reconstruction_of_the_reorg|]. split; [exact second_of_the_reorg|].
  exact (reorg_headers_of_reconstructed_batches 10 receiver_storage calldata_reorg
           transactions_reorg 109 batches_reorg reconstruction_of_the_reorg
           1%nat incomplete11 second_of_the_reorg).
Defined.

Lemma reconstruction_needs_an_entry_per_batch_witness :
  createIncompleteBatches 10 receiver_storage calldata_reorg transactions_reorg 109
  = Ok batches_reorg /\
  length batches_reorg = length transactions_reorg /\
  (length transactions_reorg
   <= length (CalldataRollupHeader.BatchTimeDeltas calldata_reorg))%nat /\
  (Nat.max 1 (length transactions_reorg)
   <= length (CalldataRollupHeader.L1HeightDeltas calldata_reorg))%nat /\
  (CalldataRollupHeader.ReOrgs calldata_reorg = [] \/
   (length transactions_reorg
    <= length (CalldataRollupHeader.ReOrgs calldata_reorg))%nat).
Proof.
  split; [exact reconstruction_of_the_reorg|].
  exact (reconstruction_needs_an_entry_per_batch 10 receiver_storage calldata_reorg
           transactions_reorg 109 batches_reorg reconstruction_of_the_reorg).
Defined.

(** A header with a time delta less than there are transaction lists: the
    reconstruction panics. *)
Example missing_time_delta :
  createIncompleteBatches 10 receiver_storage (with_time_deltas [0] calldata_plain)
    transactions_plain 109
  = Err (ErrPanic "index out of range").
Proof. vm_compute. reflexivity. Qed.

Lemma l1_proofs_of_reconstructed_batches_witness :
  createIncompleteBatches 10 receiver_storage calldata_reorg transactions_reorg 109
  = Ok batches_reorg /\
  exists headBlock l1Heights,
    FetchBlock receiver_storage 109 = Ok headBlock /\
    calculateL1HeightsFromDeltas calldata_reorg transactions_reorg = Ok l1Heights /\
    forall (k : nat) b,
      batches_reorg !! k = Some b ->
      exists l1Height block,
        l1Heights !! k = Some l1Height /\
        ancestor receiver_storage headBlock block /\
        Block.NumberU64 block = l1Height /\
        batchFromRollup.l1Proof b = Block.Hash block.
Proof.
  split; [exact reconstruction_of_the_reorg|].
  exact (l1_proofs_of_reconstructed_batches 10 receiver_storage calldata_reorg
           transactions_reorg 109 batches_reorg reconstruction_of_the_reorg).
Defined.

Lemma chain_of_the_receiver : linked receiver_storage.
Proof. apply linkedb_linked. vm_compute. reflexivity. Qed.

Lemma walk_for_a_height_above_the_start_witness :
  linked receiver_storage /\
  Storage.blocks receiver_storage !! 109 = Some (l1_block 9) /\
  Block.NumberU64 (l1_block 9) < Z.of_nat 10 /\
  Block.NumberU64 (l1_block 9) < big_Uint64 12 /\
  calcL1AncestorsOfHeight 10 receiver_storage 12 (l1_block 9) ∅ = Err ErrNotFound /\
  exists block,
    ancestor receiver_storage (l1_block 9) block /\
    FetchBlock receiver_storage (Block.ParentHash block) = Err ErrNotFound.
Proof.
  assert (Hstored : Storage.blocks receiver_storage !! 109 = Some (l1_block 9))
    by (vm_compute; reflexivity).
  assert (Hfuel : Block.NumberU64 (l1_block 9) < Z.of_nat 10)
    by (vm_compute; reflexivity).
  assert (Habove : Block.NumberU64 (l1_block 9) < big_Uint64 12)
    by (vm_compute; reflexivity).
  split; [exact chain_of_the_receiver|]. split; [exact Hstored|].
  split; [exact Hfuel|]. split; [exact Habove|].
  exact (walk_for_a_height_above_the_start 10 receiver_storage 12 (l1_block 9) 109 ∅
           chain_of_the_receiver Hstored Hfuel Habove).
Defined.

Lemma ancestor_two_below :
  ancestor receiver_storage (l1_block 9) (l1_block 7).
Proof.
  apply (ancestor_parent _ _ (l1_block 8)); [vm_compute; reflexivity|].
  apply (ancestor_parent _ _ (l1_block 7)); [vm_compute; reflexivity|].
  apply ancestor_self.
Qed.

Lemma head_of_the_receiver : stored receiver_storage (l1_block 9).
Proof. exists 109. vm_compute. reflexivity. Qed.

Lemma walk_reaches_an_ancestor_witness :
  linked receiver_storage /\
  ancestor receiver_storage (l1_block 9) (l1_block 7) /\
  stored receiver_storage (l1_block 9) /\
  Block.NumberU64 (l1_block 7) = big_Uint64 7 /\
  Block.NumberU64 (l1_block 9) < Z.of_nat 10 /\
  exists path',
    calcL1AncestorsOfHeight 10 receiver_storage 7 (l1_block 9) ∅ = Ok path' /\
    path' !! big_Uint64 7 = Some (l1_block 7) /\
    path' !! Block.NumberU64 (l1_block 9) = Some (l1_block 9).
Proof.
  assert (Hfuel : Block.NumberU64 (l1_block 9) < Z.of_nat 10)
    by (vm_compute; reflexivity).
  split; [exact chain_of_the_receiver|]. split; [exact ancestor_two_below|].
  split; [exact head_of_the_receiver|]. split; [reflexivity|]. split; [exact Hfuel|].
  exact (walk_reaches_an_ancestor receiver_storage chain_of_the_receiver 7
           (l1_block 9) (l1_block 7) ancestor_two_below 10%nat ∅
           head_of_the_receiver eq_refl Hfuel).
Defined.

Lemma padded_entries : sameEntries (length transactions_plain) calldata_plain
                         Faults.calldata_padded.
Proof.
  repeat split; try reflexivity; try discriminate;
    intros [|[|i]] Hi; try reflexivity; simpl in Hi; lia.
Qed.

Lemma entries_beyond_the_batches_are_not_read_witness :
  sameEntries (length transactions_plain) calldata_plain Faults.calldata_padded /\
  createIncompleteBatches 10 receiver_storage calldata_plain transactions_plain 109
  = createIncompleteBatches 10 receiver_storage Faults.calldata_padded
      transactions_plain 109.
Proof.
  split; [exact padded_entries|].
  exact (entries_beyond_the_batches_are_not_read 10 receiver_storage calldata_plain
           Faults.calldata_padded transactions_plain 109 padded_entries).
Defined.

(** *** The execution *)

Lemma run_of_the_reorg :
  executeAndSaveFrom rc calldata_reorg
    (CalldataRollupHeader.FirstCanonParentHash calldata_reorg) batches_reorg receiver
  = (Ok (Batch.Hash batch12), receiver_after_reorg).
Proof. vm_compute. reflexivity. Qed.

Lemma calls_of_the_loop_witness :
  executeAndSaveFrom rc calldata_reorg
    (CalldataRollupHeader.FirstCanonParentHash calldata_reorg) batches_reorg receiver
  = (Ok (Batch.Hash batch12), receiver_after_reorg) /\
  loopSteps rc calldata_reorg
    (CalldataRollupHeader.FirstCanonParentHash calldata_reorg) batches_reorg receiver
    (Batch.Hash batch12) receiver_after_reorg.
Proof.
  split; [exact run_of_the_reorg|].
  exact (proj1 (calls_of_the_loop rc calldata_reorg batches_reorg
                  (CalldataRollupHeader.FirstCanonParentHash calldata_reorg) receiver
                  (Batch.Hash batch12) receiver_after_reorg) run_of_the_reorg).
Defined.

(** The three iterations of that run: batch 10 computed with the hash of
    batch 9 as parent, the reorg batch stored with its header, batch 12
    computed with the hash of batch 10 as parent. *)
Example steps_of_the_reorg :
  exists n1 n2,
    batchStep rc calldata_reorg (Batch.Hash batch9) incomplete10 receiver
      (Batch.Hash batch10) n1 /\
    batchStep rc calldata_reorg (Batch.Hash batch10) incomplete11 n1
      (Batch.Hash batch10) n2 /\
    batchStep rc calldata_reorg (Batch.Hash batch10) incomplete12 n2
      (Batch.Hash batch12) receiver_after_reorg /\
    storedBatches (Node.events n1) = [batch10] /\
    storedBatches (Node.events n2) = [batch10; reorg11] /\
    computedWith receiver_after_reorg
    = [(10, Batch.Hash batch9); (12, Batch.Hash batch10)].
Proof.
  exists (snd (executeAndSaveBatch rc calldata_reorg (Batch.Hash batch9)
                 incomplete10 receiver)),
         (snd (executeAndSaveFrom rc calldata_reorg (Batch.Hash batch9)
                 [incomplete10; incomplete11] receiver)).
  split; [|split; [|split; [|split; [|split]]]].
  - apply (executeAndSaveBatch_step rc). vm_compute. reflexivity.
  - apply (executeAndSaveBatch_step rc). vm_compute. reflexivity.
  - apply (executeAndSaveBatch_step rc). vm_compute. reflexivity.
  - vm_compute. reflexivity.
  - vm_compute. reflexivity.
  - vm_compute. reflexivity.
Qed.



(** After the failure at the third batch, the first two batches of the
    rollup are stored and the third is not. *)
Example stored_before_the_failure :
  storedBatches (Node.events Faults.receiver_after_failure) = [batch10; reorg11] /\
  FetchBatchBySeqNo (Node.storage Faults.receiver_after_failure) 12 = Err ErrNotFound.
Proof. split; vm_compute; reflexivity. Qed.

Lemma relabelled_batches :
  Forall2 sameForExecution batches_reorg (map Faults.relabelled batches_reorg).
Proof. repeat constructor. Qed.

Lemma execution_reads_witness :
  CalldataRollupHeader.FirstCanonParentHash calldata_reorg
  = CalldataRollupHeader.FirstCanonParentHash (with_first_height 0 calldata_reorg) /\
  big_Uint64 (CalldataRollupHeader.FirstBatchSequence calldata_reorg)
  = big_Uint64 (CalldataRollupHeader.FirstBatchSequence
                  (with_first_height 0 calldata_reorg)) /\
  CalldataRollupHeader.Coinbase calldata_reorg
  = CalldataRollupHeader.Coinbase (with_first_height 0 calldata_reorg) /\
  CalldataRollupHeader.BaseFee calldata_reorg
  = CalldataRollupHeader.BaseFee (with_first_height 0 calldata_reorg) /\
  Forall2 sameForExecution batches_reorg (map Faults.relabelled batches_reorg) /\
  executeAndSaveIncompleteBatches rc calldata_reorg batches_reorg receiver
  = executeAndSaveIncompleteBatches rc (with_first_height 0 calldata_reorg)
      (map Faults.relabelled batches_reorg) receiver.
Proof.
  split; [reflexivity|]. split; [reflexivity|]. split; [reflexivity|].
  split; [reflexivity|]. split; [exact relabelled_batches|].
  exact (execution_reads rc calldata_reorg (with_first_height 0 calldata_reorg)
           batches_reorg (map Faults.relabelled batches_reorg) receiver
           eq_refl eq_refl eq_refl eq_refl relabelled_batches).
Defined.

Lemma processing_of_the_reorg :
  ProcessExtRollup 10 rc ext_reorg receiver = (Ok calldata_reorg, receiver_after_reorg).
Proof. vm_compute. reflexivity. Qed.

Lemma executor_calls_of_a_rollup_witness :
  ProcessExtRollup 10 rc ext_reorg receiver = (Ok calldata_reorg, receiver_after_reorg) /\
  exists evs,
    Node.events receiver_after_reorg = Node.events receiver ++ evs /\
    (forall txs : list (list L2Tx),
       decryptDecompressAndDeserialise rc (ExtRollup.BatchPayloads ext_reorg) = Ok txs ->
       executions evs <= Z.of_nat (length txs)) /\
    (forall (txs : list (list L2Tx)) hdr ibs,
       decryptDecompressAndDeserialise rc (ExtRollup.BatchPayloads ext_reorg) = Ok txs ->
       decryptDecompressAndDeserialise rc (ExtRollup.CalldataRollupHeader ext_reorg)
       = Ok hdr ->
       createIncompleteBatches 10 (Node.storage receiver) hdr txs
         (RollupHeader.CompressionL1Head (ExtRollup.Header ext_reorg)) = Ok ibs ->
       executions evs <= canonicalCount ibs).
Proof.
  split; [exact processing_of_the_reorg|].
  exact (executor_calls_of_a_rollup rc 10 ext_reorg receiver (Ok calldata_reorg)
           receiver_after_reorg processing_of_the_reorg).
Defined.

(** The rollup with a reorg on the receiving node: two calls of the
    executor for three batches. *)
Example executions_of_the_reorg :
  executions (Node.events receiver_after_reorg) = 2 /\
  canonicalCount batches_reorg = 2.
Proof. split; vm_compute; reflexivity. Qed.

(** The plain rollup on a node that has no L1 block: nothing is stored,
    and the error is the storage's, wrapped. *)
Example unknown_compression_head :
  ProcessExtRollup 10 rc ext_plain (Node.mk empty_storage [])
  = (Err (ErrWrap "can't find the block used for compression" ErrNotFound),
     Node.mk empty_storage []).
Proof. vm_compute. reflexivity. Qed.

End Coverage.
